(** * Session orchestration of attach-menu web views

    A shallow embedding of [InlineBots::AttachWebView]
    (Telegram/SourceFiles/inline_bots/bot_attach_web_view.cpp) and the
    properties of its request, keepalive, consent and directory logic.

    The class runs on one thread; every remote call is asynchronous and its
    [done]/[fail] closure runs later on that thread.  The embedding therefore
    keeps, next to the object's fields, the requests in flight (each with the
    values its closures captured), the confirm boxes on screen (each with its
    continuation) and a log of what was shown, and takes one [Event] at a
    time: a call of a public method, a response, a click, a timer tick. *)

From stdpp Require Import gmap strings list.
From Stdlib Require Import ZArith NArith Ascii String.

#[local] Open Scope string_scope.

Module InlineBots.

(** ** Identities

    There is one [UserData] object per user id and one [PeerData] object per
    peer id, so a pointer is modelled by the id it stands for.  [UserData]
    derives from [PeerData]: a peer is a user or a chat. *)

Abbreviation UserId := nat (only parsing).
Abbreviation PeerId := (nat + nat)%type (only parsing).
Abbreviation mtpRequestId := nat (only parsing).

Definition asPeer (u : UserId) : PeerId := inl u.

Definition asUser (p : PeerId) : option UserId :=
  match p with inl u => Some u | inr _ => None end.

Record BotInfo := {
  supportsAttachMenu : bool;
  botMenuButtonUrl : string;
  botMenuButtonText : string }.

Record UserData := {
  username : string;
  name : string;
  isVerified : bool;
  botInfo : option BotInfo }.

Definition isBot (u : UserData) : bool :=
  match botInfo u with Some _ => true | None => false end.

(** A user object that was created but never filled from the server. *)
Definition emptyUser : UserData :=
  {| username := ""; name := ""; isVerified := false; botInfo := None |}.

(** ** Wire types *)

Record MTPattachMenuBotIcon := {
  vname : string;
  vicon : nat }.

Record MTPattachMenuBot := {
  vbot_id : nat;
  vshort_name : string;
  vicons : list MTPattachMenuBotIcon;
  is_inactive : bool }.

(** [short_name] is the field [name] of the struct. *)
Record AttachWebViewBot := {
  user : UserId;
  icon : option nat;
  media : option nat;
  short_name : string;
  inactive : bool }.

Record WebViewButton := {
  text : string;
  startCommand : string;
  url : string }.

Record MTPError := {
  code : Z;
  type : string }.

Inductive Flag :=
| f_theme_params | f_url | f_start_param | f_from_bot_menu
| f_reply_to_msg_id | f_silent.

(** The closure [open] built in [requestAddToMenu]: it captures the context
    peer, the bot and the start command taken from the object. *)
Record OpenClosure := {
  contextPeer : option PeerId;
  open_bot : option UserId;
  open_startCommand : string }.

(** The [callback] argument of [toggleInMenu]: null, the lambda of
    [removeFromMenu], or the lambda of [confirmAddToMenu] around [open]. *)
Inductive ToggleCallback :=
| NoCallback
| RemovedToast
| AddedToast (callback : OpenClosure).

(** A request in flight: the arguments sent, then what its closures
    captured ([buttonText], [callback]).  Theme parameters are left out. *)
Inductive Request :=
| MTPmessages_RequestWebView (flags : list Flag) (peer : PeerId) (bot : UserId)
    (url start_param : string) (buttonText : string)
| MTPmessages_RequestSimpleWebView (bot : UserId) (url : string)
    (buttonText : string)
| MTPcontacts_ResolveUsername (username : string)
| MTPmessages_GetAttachMenuBots (hash : N)
| MTPmessages_GetAttachMenuBot (bot : UserId)
| MTPmessages_ToggleBotInAttachMenu (bot : UserId) (enabled : bool)
    (callback : ToggleCallback)
| MTPmessages_ProlongWebView (flags : list Flag) (peer : PeerId) (bot : UserId)
    (query_id : N) (reply_to_msg_id : Z)
| MTPmessages_SendWebViewData (bot : UserId) (random_id : N)
    (button_text : string) (data : string).

Inductive Response :=
| MTPwebViewResultUrl (query_id : N) (url : string)
| MTPsimpleWebViewResultUrl (url : string)
| MTPcontacts_resolvedPeer (peer : option PeerId) (chats : list (nat * string))
    (users : list (nat * UserData))
| MTPattachMenuBotsNotModified
| MTPattachMenuBots (hash : N) (bots : list MTPattachMenuBot)
    (users : list (nat * UserData))
| MTPattachMenuBotsBot (bot : MTPattachMenuBot) (users : list (nat * UserData))
| MTPbool
| MTPupdates.

(** ** What the user sees *)

Inductive LangText :=
| lng_bot_menu_not_supported
| lng_bot_menu_already_added
| lng_bot_remove_from_menu_done
| lng_bot_add_to_menu_done
| lng_username_not_found (lt_user : string)
| lng_allow_bot_webview (lt_bot_name : string)
| lng_bot_add_to_menu (lt_bot : string).

Inductive UiEvent :=
| ShowMultilineToast (t : LangText)
| RequestActivate
| HideLayer (controller : nat)
| AttachBotsUpdates.

(** The [done] argument of [confirmOpen]: the three lambdas that call
    [request(button)], [requestSimple(button)] and the body of
    [requestMenu]. *)
Inductive OpenDone :=
| DoRequest (button : WebViewButton)
| DoRequestSimple (button : WebViewButton)
| DoRequestMenu (url text : string).

Inductive Box :=
| ConfirmOpenBox (controller : nat) (t : LangText) (done : OpenDone)
| ConfirmAddBox (window : nat) (t : LangText) (bot : AttachWebViewBot)
    (callback : OpenClosure).

(** What [started] attaches to the lifetime of the panel. *)
Inductive Subscription :=
| WebViewResultSentFilter (queryId : N)
| TimerEach (interval : Z) (queryId : N).

Record Panel := {
  panel_url : string;
  panel_title : UserId;
  panel_bottom : string;
  sendData_queryId : N;
  sendData_buttonText : string;
  lifetime : list Subscription }.

(** ** The object and its surroundings *)

Record AttachWebView := {
  _peer : option PeerId;
  _bot : option UserId;
  _botUsername : string;
  _startCommand : string;
  _requestId : mtpRequestId;
  _prolongId : mtpRequestId;
  _replyToMsgId : Z;
  _panel : option Panel;
  _botsHash : N;
  _botsRequestId : mtpRequestId;
  _attachBots : list AttachWebViewBot;
  _addToMenuId : mtpRequestId;
  _addToMenuBot : option UserId;
  _addToMenuPeer : option PeerId;
  _addToMenuStartCommand : string }.

(** [self] is the object, [this] its address in [ActiveWebViews]; [pending]
    are the requests in flight and [sent] every request ever sent; [users],
    [chats] and [trusted] are the session's data and local storage; [boxes]
    are the confirm boxes on screen, [ui] the log of toasts, activations and
    notifications, [main_queue] the number of [cancel] calls posted with
    [crl::on_main]. *)
Record World := {
  self : AttachWebView;
  this : nat;
  ActiveWebViews : gset nat;
  next_id : mtpRequestId;
  pending : list (mtpRequestId * Request);
  sent : list (mtpRequestId * Request);
  users : gmap nat UserData;
  chats : gmap nat string;
  trusted : gset nat;
  activeWindow : option nat;
  boxes : list Box;
  ui : list UiEvent;
  main_queue : nat }.

(** *** Field updates *)

Definition set_peer (v : option PeerId) (o : AttachWebView) : AttachWebView :=
  {| _peer := v; _bot := _bot o; _botUsername := _botUsername o;
     _startCommand := _startCommand o; _requestId := _requestId o;
     _prolongId := _prolongId o; _replyToMsgId := _replyToMsgId o; _panel := _panel o;
     _botsHash := _botsHash o; _botsRequestId := _botsRequestId o;
     _attachBots := _attachBots o; _addToMenuId := _addToMenuId o;
     _addToMenuBot := _addToMenuBot o; _addToMenuPeer := _addToMenuPeer o;
     _addToMenuStartCommand := _addToMenuStartCommand o |}.

Definition set_bot (v : option UserId) (o : AttachWebView) : AttachWebView :=
  {| _peer := _peer o; _bot := v; _botUsername := _botUsername o;
     _startCommand := _startCommand o; _requestId := _requestId o;
     _prolongId := _prolongId o; _replyToMsgId := _replyToMsgId o; _panel := _panel o;
     _botsHash := _botsHash o; _botsRequestId := _botsRequestId o;
     _attachBots := _attachBots o; _addToMenuId := _addToMenuId o;
     _addToMenuBot := _addToMenuBot o; _addToMenuPeer := _addToMenuPeer o;
     _addToMenuStartCommand := _addToMenuStartCommand o |}.

Definition set_botUsername (v : string) (o : AttachWebView) : AttachWebView :=
  {| _peer := _peer o; _bot := _bot o; _botUsername := v; _startCommand := _startCommand o;
     _requestId := _requestId o; _prolongId := _prolongId o;
     _replyToMsgId := _replyToMsgId o; _panel := _panel o; _botsHash := _botsHash o;
     _botsRequestId := _botsRequestId o; _attachBots := _attachBots o;
     _addToMenuId := _addToMenuId o; _addToMenuBot := _addToMenuBot o;
     _addToMenuPeer := _addToMenuPeer o; _addToMenuStartCommand := _addToMenuStartCommand o
     |}.

Definition set_startCommand (v : string) (o : AttachWebView) : AttachWebView :=
  {| _peer := _peer o; _bot := _bot o; _botUsername := _botUsername o; _startCommand := v;
     _requestId := _requestId o; _prolongId := _prolongId o;
     _replyToMsgId := _replyToMsgId o; _panel := _panel o; _botsHash := _botsHash o;
     _botsRequestId := _botsRequestId o; _attachBots := _attachBots o;
     _addToMenuId := _addToMenuId o; _addToMenuBot := _addToMenuBot o;
     _addToMenuPeer := _addToMenuPeer o; _addToMenuStartCommand := _addToMenuStartCommand o
     |}.

Definition set_requestId (v : mtpRequestId) (o : AttachWebView) : AttachWebView :=
  {| _peer := _peer o; _bot := _bot o; _botUsername := _botUsername o;
     _startCommand := _startCommand o; _requestId := v; _prolongId := _prolongId o;
     _replyToMsgId := _replyToMsgId o; _panel := _panel o; _botsHash := _botsHash o;
     _botsRequestId := _botsRequestId o; _attachBots := _attachBots o;
     _addToMenuId := _addToMenuId o; _addToMenuBot := _addToMenuBot o;
     _addToMenuPeer := _addToMenuPeer o; _addToMenuStartCommand := _addToMenuStartCommand o
     |}.

Definition set_prolongId (v : mtpRequestId) (o : AttachWebView) : AttachWebView :=
  {| _peer := _peer o; _bot := _bot o; _botUsername := _botUsername o;
     _startCommand := _startCommand o; _requestId := _requestId o; _prolongId := v;
     _replyToMsgId := _replyToMsgId o; _panel := _panel o; _botsHash := _botsHash o;
     _botsRequestId := _botsRequestId o; _attachBots := _attachBots o;
     _addToMenuId := _addToMenuId o; _addToMenuBot := _addToMenuBot o;
     _addToMenuPeer := _addToMenuPeer o; _addToMenuStartCommand := _addToMenuStartCommand o
     |}.

Definition set_panel (v : option Panel) (o : AttachWebView) : AttachWebView :=
  {| _peer := _peer o; _bot := _bot o; _botUsername := _botUsername o;
     _startCommand := _startCommand o; _requestId := _requestId o;
     _prolongId := _prolongId o; _replyToMsgId := _replyToMsgId o; _panel := v;
     _botsHash := _botsHash o; _botsRequestId := _botsRequestId o;
     _attachBots := _attachBots o; _addToMenuId := _addToMenuId o;
     _addToMenuBot := _addToMenuBot o; _addToMenuPeer := _addToMenuPeer o;
     _addToMenuStartCommand := _addToMenuStartCommand o |}.

Definition set_botsHash (v : N) (o : AttachWebView) : AttachWebView :=
  {| _peer := _peer o; _bot := _bot o; _botUsername := _botUsername o;
     _startCommand := _startCommand o; _requestId := _requestId o;
     _prolongId := _prolongId o; _replyToMsgId := _replyToMsgId o; _panel := _panel o;
     _botsHash := v; _botsRequestId := _botsRequestId o; _attachBots := _attachBots o;
     _addToMenuId := _addToMenuId o; _addToMenuBot := _addToMenuBot o;
     _addToMenuPeer := _addToMenuPeer o; _addToMenuStartCommand := _addToMenuStartCommand o
     |}.

Definition set_botsRequestId (v : mtpRequestId) (o : AttachWebView) : AttachWebView :=
  {| _peer := _peer o; _bot := _bot o; _botUsername := _botUsername o;
     _startCommand := _startCommand o; _requestId := _requestId o;
     _prolongId := _prolongId o; _replyToMsgId := _replyToMsgId o; _panel := _panel o;
     _botsHash := _botsHash o; _botsRequestId := v; _attachBots := _attachBots o;
     _addToMenuId := _addToMenuId o; _addToMenuBot := _addToMenuBot o;
     _addToMenuPeer := _addToMenuPeer o; _addToMenuStartCommand := _addToMenuStartCommand o
     |}.

Definition set_attachBots (v : list AttachWebViewBot) (o : AttachWebView) : AttachWebView :=
  {| _peer := _peer o; _bot := _bot o; _botUsername := _botUsername o;
     _startCommand := _startCommand o; _requestId := _requestId o;
     _prolongId := _prolongId o; _replyToMsgId := _replyToMsgId o; _panel := _panel o;
     _botsHash := _botsHash o; _botsRequestId := _botsRequestId o; _attachBots := v;
     _addToMenuId := _addToMenuId o; _addToMenuBot := _addToMenuBot o;
     _addToMenuPeer := _addToMenuPeer o; _addToMenuStartCommand := _addToMenuStartCommand o
     |}.

Definition set_addToMenuId (v : mtpRequestId) (o : AttachWebView) : AttachWebView :=
  {| _peer := _peer o; _bot := _bot o; _botUsername := _botUsername o;
     _startCommand := _startCommand o; _requestId := _requestId o;
     _prolongId := _prolongId o; _replyToMsgId := _replyToMsgId o; _panel := _panel o;
     _botsHash := _botsHash o; _botsRequestId := _botsRequestId o;
     _attachBots := _attachBots o; _addToMenuId := v; _addToMenuBot := _addToMenuBot o;
     _addToMenuPeer := _addToMenuPeer o; _addToMenuStartCommand := _addToMenuStartCommand o
     |}.

Definition set_addToMenuBot (v : option UserId) (o : AttachWebView) : AttachWebView :=
  {| _peer := _peer o; _bot := _bot o; _botUsername := _botUsername o;
     _startCommand := _startCommand o; _requestId := _requestId o;
     _prolongId := _prolongId o; _replyToMsgId := _replyToMsgId o; _panel := _panel o;
     _botsHash := _botsHash o; _botsRequestId := _botsRequestId o;
     _attachBots := _attachBots o; _addToMenuId := _addToMenuId o; _addToMenuBot := v;
     _addToMenuPeer := _addToMenuPeer o; _addToMenuStartCommand := _addToMenuStartCommand o
     |}.

Definition set_addToMenuPeer (v : option PeerId) (o : AttachWebView) : AttachWebView :=
  {| _peer := _peer o; _bot := _bot o; _botUsername := _botUsername o;
     _startCommand := _startCommand o; _requestId := _requestId o;
     _prolongId := _prolongId o; _replyToMsgId := _replyToMsgId o; _panel := _panel o;
     _botsHash := _botsHash o; _botsRequestId := _botsRequestId o;
     _attachBots := _attachBots o; _addToMenuId := _addToMenuId o;
     _addToMenuBot := _addToMenuBot o; _addToMenuPeer := v;
     _addToMenuStartCommand := _addToMenuStartCommand o |}.

Definition set_addToMenuStartCommand (v : string) (o : AttachWebView) : AttachWebView :=
  {| _peer := _peer o; _bot := _bot o; _botUsername := _botUsername o;
     _startCommand := _startCommand o; _requestId := _requestId o;
     _prolongId := _prolongId o; _replyToMsgId := _replyToMsgId o; _panel := _panel o;
     _botsHash := _botsHash o; _botsRequestId := _botsRequestId o;
     _attachBots := _attachBots o; _addToMenuId := _addToMenuId o;
     _addToMenuBot := _addToMenuBot o; _addToMenuPeer := _addToMenuPeer o;
     _addToMenuStartCommand := v |}.

Definition set_ActiveWebViews (v : gset nat) (w : World) : World :=
  {| self := self w; this := this w; ActiveWebViews := v; next_id := next_id w;
     pending := pending w; sent := sent w; users := users w; chats := chats w;
     trusted := trusted w; activeWindow := activeWindow w; boxes := boxes w; ui := ui w;
     main_queue := main_queue w |}.

Definition set_next_id (v : mtpRequestId) (w : World) : World :=
  {| self := self w; this := this w; ActiveWebViews := ActiveWebViews w; next_id := v;
     pending := pending w; sent := sent w; users := users w; chats := chats w;
     trusted := trusted w; activeWindow := activeWindow w; boxes := boxes w; ui := ui w;
     main_queue := main_queue w |}.

Definition set_pending (v : list (mtpRequestId * Request)) (w : World) : World :=
  {| self := self w; this := this w; ActiveWebViews := ActiveWebViews w;
     next_id := next_id w; pending := v; sent := sent w; users := users w; chats := chats w;
     trusted := trusted w; activeWindow := activeWindow w; boxes := boxes w; ui := ui w;
     main_queue := main_queue w |}.

Definition set_sent (v : list (mtpRequestId * Request)) (w : World) : World :=
  {| self := self w; this := this w; ActiveWebViews := ActiveWebViews w;
     next_id := next_id w; pending := pending w; sent := v; users := users w;
     chats := chats w; trusted := trusted w; activeWindow := activeWindow w;
     boxes := boxes w; ui := ui w; main_queue := main_queue w |}.

Definition set_users (v : gmap nat UserData) (w : World) : World :=
  {| self := self w; this := this w; ActiveWebViews := ActiveWebViews w;
     next_id := next_id w; pending := pending w; sent := sent w; users := v;
     chats := chats w; trusted := trusted w; activeWindow := activeWindow w;
     boxes := boxes w; ui := ui w; main_queue := main_queue w |}.

Definition set_chats (v : gmap nat string) (w : World) : World :=
  {| self := self w; this := this w; ActiveWebViews := ActiveWebViews w;
     next_id := next_id w; pending := pending w; sent := sent w; users := users w;
     chats := v; trusted := trusted w; activeWindow := activeWindow w; boxes := boxes w;
     ui := ui w; main_queue := main_queue w |}.

Definition set_trusted (v : gset nat) (w : World) : World :=
  {| self := self w; this := this w; ActiveWebViews := ActiveWebViews w;
     next_id := next_id w; pending := pending w; sent := sent w; users := users w;
     chats := chats w; trusted := v; activeWindow := activeWindow w; boxes := boxes w;
     ui := ui w; main_queue := main_queue w |}.

Definition set_activeWindow (v : option nat) (w : World) : World :=
  {| self := self w; this := this w; ActiveWebViews := ActiveWebViews w;
     next_id := next_id w; pending := pending w; sent := sent w; users := users w;
     chats := chats w; trusted := trusted w; activeWindow := v; boxes := boxes w;
     ui := ui w; main_queue := main_queue w |}.

Definition set_boxes (v : list Box) (w : World) : World :=
  {| self := self w; this := this w; ActiveWebViews := ActiveWebViews w;
     next_id := next_id w; pending := pending w; sent := sent w; users := users w;
     chats := chats w; trusted := trusted w; activeWindow := activeWindow w; boxes := v;
     ui := ui w; main_queue := main_queue w |}.

Definition set_ui (v : list UiEvent) (w : World) : World :=
  {| self := self w; this := this w; ActiveWebViews := ActiveWebViews w;
     next_id := next_id w; pending := pending w; sent := sent w; users := users w;
     chats := chats w; trusted := trusted w; activeWindow := activeWindow w;
     boxes := boxes w; ui := v; main_queue := main_queue w |}.

Definition set_main_queue (v : nat) (w : World) : World :=
  {| self := self w; this := this w; ActiveWebViews := ActiveWebViews w;
     next_id := next_id w; pending := pending w; sent := sent w; users := users w;
     chats := chats w; trusted := trusted w; activeWindow := activeWindow w;
     boxes := boxes w; ui := ui w; main_queue := v |}.

Definition set_self (v : AttachWebView) (w : World) : World :=
  {| self := v; this := this w; ActiveWebViews := ActiveWebViews w;
     next_id := next_id w; pending := pending w; sent := sent w; users := users w;
     chats := chats w; trusted := trusted w; activeWindow := activeWindow w;
     boxes := boxes w; ui := ui w; main_queue := main_queue w |}.

Definition upd (f : AttachWebView -> AttachWebView) (w : World) : World :=
  set_self (f (self w)) w.


Definition log (e : UiEvent) (w : World) : World := set_ui (ui w ++ [e]) w.

Definition toast (t : LangText) (w : World) : World := log (ShowMultilineToast t) w.

(** ** Collaborators *)

(** Modelled from the spec: the request API ([MTP::Sender]) is not under
    src/.  A request handle is an opaque, cancellable token for one remote
    call in flight; [send] returns a fresh non-zero handle, which is
    [next_id] of the world it is sent from. *)
Definition api_send (r : Request) (w : World) : World :=
  set_next_id (S (next_id w))
    (set_sent (sent w ++ [(next_id w, r)])
       (set_pending (pending w ++ [(next_id w, r)]) w)).

(** Modelled from the spec: cancelling a handle prevents its completion
    closure from firing; the null handle [0] names no request. *)
Definition api_cancel (id : mtpRequestId) (w : World) : World :=
  set_pending (if decide (id = 0) then pending w
               else filter (λ p, p.1 ≠ id) (pending w)) w.

(** Modelled from the spec: the session's data ([Data::Session]) is not
    under src/.  It ingests the records embedded in a response into the local
    cache. *)
Definition processUsers (l : list (nat * UserData)) (w : World) : World :=
  set_users (foldl (λ m p, <[p.1 := p.2]> m) (users w) l) w.

(** Modelled from the spec: likewise for the chats of a response; only their
    usernames matter here. *)
Definition processChats (l : list (nat * string)) (w : World) : World :=
  set_chats (foldl (λ m p, <[p.1 := p.2]> m) (chats w) l) w.

(** The object behind a [UserData*]. *)
Definition userData (u : UserId) (w : World) : UserData :=
  default emptyUser (users w !! u).

(** An upper-case ASCII letter becomes the lower-case one. *)
Definition lower_ascii (c : ascii) : ascii :=
  let n := nat_of_ascii c in
  if ((65 <=? n) && (n <=? 90))%nat then ascii_of_nat (n + 32) else c.

(** [QString::toLower], restricted to the ASCII letters. *)
Fixpoint toLower (s : string) : string :=
  match s with
  | EmptyString => EmptyString
  | String c s => String (lower_ascii c) (toLower s)
  end.

(** Modelled from the spec: [peerByUsername] finds an identity matching the
    handle in the local cache. *)
Definition peerByUsername (uname : string) (w : World) : option PeerId :=
  match List.find (λ p, bool_decide (toLower (username p.2) = toLower uname))
          (map_to_list (users w)) with
  | Some p => Some (inl p.1)
  | None =>
    match List.find (λ p, bool_decide (toLower p.2 = toLower uname))
            (map_to_list (chats w)) with
    | Some p => Some (inr p.1)
    | None => None
    end
  end.

(** Modelled from the spec: the persisted trust store,
    [isTrusted(agentId) -> bool] and [markTrusted(agentId)]. *)
Definition isBotTrustedOpenWebView (b : UserId) (w : World) : bool :=
  bool_decide (b ∈ trusted w).

Definition markBotTrustedOpenWebView (b : UserId) (w : World) : World :=
  set_trusted ({[b]} ∪ trusted w) w.

(** ** Constants and parsing *)

(** [60 * crl::time(1000)], in milliseconds. *)
Definition kProlongTimeout : Z := 60 * 1000.

(** The document of the first icon named [default_static]. *)
Definition ResolveIcon (data : MTPattachMenuBot) : option nat :=
  vicon <$> List.find (λ i, bool_decide (vname i = "default_static")) (vicons data).

(** The cache of documents, which [forceToCache] and [save] touch, is left
    out of the world. *)
Definition ParseAttachBot (bot : MTPattachMenuBot) (w : World)
  : option AttachWebViewBot :=
  match users w !! vbot_id bot with
  | Some u =>
    let good := isBot u
      && match botInfo u with Some i => supportsAttachMenu i | None => false end in
    if good
    then Some {| user := vbot_id bot; icon := ResolveIcon bot; media := None;
                 short_name := vshort_name bot; inactive := is_inactive bot |}
    else None
  | None => None
  end.

(** ** Outcomes

    [Crash] is a failed [Expects] or a null pointer dereferenced; [Disabled]
    is an event that cannot happen in the world it is given to. *)
Inductive Outcome :=
| Ok (w : World)
| Crash
| Disabled.

Definition bind (o : Outcome) (k : World -> Outcome) : Outcome :=
  match o with Ok w => k w | Crash => Crash | Disabled => Disabled end.

(** ** The methods *)

Definition cancel (w : World) : World :=
  let w := set_ActiveWebViews (ActiveWebViews w ∖ {[this w]}) w in
  let id := _requestId (self w) in
  let w := api_cancel id (upd (set_requestId 0) w) in
  let id := _prolongId (self w) in
  let w := api_cancel id (upd (set_prolongId 0) w) in
  let w := upd (set_panel None) w in
  let w := upd (set_bot None) w in
  let w := upd (set_peer None) w in
  let w := upd (set_botUsername "") w in
  upd (set_startCommand "") w.

Definition requestBots (w : World) : World :=
  if decide (_botsRequestId (self w) ≠ 0) then w
  else
    let id := next_id w in
    upd (set_botsRequestId id)
      (api_send (MTPmessages_GetAttachMenuBots (_botsHash (self w))) w).

(** [parsed->media = icon->createMediaView()]. *)
Definition with_media (parsed : AttachWebViewBot) : AttachWebViewBot :=
  {| user := user parsed; icon := icon parsed; media := icon parsed;
     short_name := short_name parsed; inactive := inactive parsed |}.

(** The body of the loop over [data.vbots().v]. *)
Definition push_parsed (w : World) (acc : list AttachWebViewBot)
    (bot : MTPattachMenuBot) : list AttachWebViewBot :=
  match ParseAttachBot bot w with
  | Some parsed => if inactive parsed then acc else acc ++ [with_media parsed]
  | None => acc
  end.

Definition requestBots_done (result : Response) (w : World) : Outcome :=
  let w := upd (set_botsRequestId 0) w in
  match result with
  | MTPattachMenuBotsNotModified => Ok w
  | MTPattachMenuBots hash bots us =>
    let w := processUsers us w in
    let w := upd (set_botsHash hash) w in
    let w := upd (set_attachBots []) w in
    let w := upd (set_attachBots (foldl (push_parsed w) (_attachBots (self w)) bots)) w in
    Ok (log AttachBotsUpdates w)
  | _ => Disabled
  end.

Definition requestBots_fail (w : World) : World := upd (set_botsRequestId 0) w.

(** Subscriptions added to [_panel->lifetime()]. *)
Definition attach (s : list Subscription) (p : Panel) : Panel :=
  {| panel_url := panel_url p; panel_title := panel_title p;
     panel_bottom := panel_bottom p; sendData_queryId := sendData_queryId p;
     sendData_buttonText := sendData_buttonText p; lifetime := lifetime p ++ s |}.

Definition started (queryId : N) (w : World) : Outcome :=
  match _peer (self w), _bot (self w), _panel (self w) with
  | Some _, Some _, Some p =>
    let p := attach [WebViewResultSentFilter queryId] p in
    let p := attach [TimerEach kProlongTimeout queryId] p in
    Ok (upd (set_panel (Some p)) w)
  | _, _, _ => Crash
  end.

Definition show (queryId : N) (url buttonText : string) (w : World) : Outcome :=
  match _bot (self w), _peer (self w) with
  | Some bot, Some _ =>
    let w := set_ActiveWebViews ({[this w]} ∪ ActiveWebViews w) w in
    let p := {| panel_url := url; panel_title := bot;
                panel_bottom := "@" ++ username (userData bot w);
                sendData_queryId := queryId; sendData_buttonText := buttonText;
                lifetime := [] |} in
    started queryId (upd (set_panel (Some p)) w)
  | _, _ => Crash
  end.

Definition isEmpty (s : string) : bool := bool_decide (s = "").

(** [request(const WebViewButton &button)]. *)
Definition request_button (button : WebViewButton) (w : World) : Outcome :=
  match _peer (self w), _bot (self w) with
  | Some peer, Some bot =>
    let w := upd (set_startCommand (startCommand button)) w in
    let flags := ([f_theme_params]
      ++ (if isEmpty (url button) then [] else [f_url])
      ++ (if isEmpty (_startCommand (self w)) then [] else [f_start_param]))%list in
    let id := next_id w in
    Ok (upd (set_requestId id)
          (api_send (MTPmessages_RequestWebView flags peer bot (url button)
                       (_startCommand (self w)) (text button)) w))
  | _, _ => Crash
  end.

Definition request_done (buttonText : string) (result : Response) (w : World)
  : Outcome :=
  let w := upd (set_requestId 0) w in
  match result with
  | MTPwebViewResultUrl query_id u => show query_id u buttonText w
  | _ => Disabled
  end.

Definition request_fail (error : MTPError) (w : World) : World :=
  let w := upd (set_requestId 0) w in
  if bool_decide (type error = "BOT_INVALID") then requestBots w else w.

(** [requestSimple(const WebViewButton &button)]. *)
Definition requestSimple_button (button : WebViewButton) (w : World) : Outcome :=
  match _bot (self w) with
  | Some bot =>
    let id := next_id w in
    Ok (upd (set_requestId id)
          (api_send (MTPmessages_RequestSimpleWebView bot (url button) (text button)) w))
  | None => Crash
  end.

Definition requestSimple_done (buttonText : string) (result : Response) (w : World)
  : Outcome :=
  let w := upd (set_requestId 0) w in
  match result with
  | MTPsimpleWebViewResultUrl u =>
    let queryId := 0%N in
    show queryId u buttonText w
  | _ => Disabled
  end.

Definition requestSimple_fail (w : World) : World := upd (set_requestId 0) w.

(** The lambda that [requestMenu] hands to [confirmOpen]. *)
Definition requestMenu_confirmed (u t : string) (w : World) : Outcome :=
  match _bot (self w) with
  | Some bot =>
    let id := next_id w in
    Ok (upd (set_requestId id)
          (api_send (MTPmessages_RequestWebView
                       [f_theme_params; f_url; f_from_bot_menu]
                       (asPeer bot) bot u "" t) w))
  | None => Crash
  end.

Definition run_done (done : OpenDone) (w : World) : Outcome :=
  match done with
  | DoRequest button => request_button button w
  | DoRequestSimple button => requestSimple_button button w
  | DoRequestMenu u t => requestMenu_confirmed u t w
  end.

Definition confirmOpen (controller : nat) (done : OpenDone) (w : World) : Outcome :=
  match _bot (self w) with
  | None => Ok w
  | Some bot =>
    if isVerified (userData bot w) || isBotTrustedOpenWebView bot w
    then run_done done w
    else
      let t := lng_allow_bot_webview (name (userData bot w)) in
      Ok (set_boxes (boxes w ++ [ConfirmOpenBox controller t done]) w)
  end.

(** The [callback] of the box that [confirmOpen] shows. *)
Definition confirmOpen_callback (controller : nat) (done : OpenDone) (w : World)
  : Outcome :=
  match _bot (self w) with
  | Some bot =>
    let w := markBotTrustedOpenWebView bot w in
    let w := log (HideLayer controller) w in
    run_done done w
  | None => Crash
  end.

(** [request(controller, peer, bot, button)]. *)
Definition request (controller : option nat) (peer : PeerId) (bot : UserId)
    (button : WebViewButton) (w : World) : Outcome :=
  let proceed w :=
    let w := cancel w in
    let w := upd (set_bot (Some bot)) w in
    let w := upd (set_peer (Some peer)) w in
    match controller with
    | Some c => confirmOpen c (DoRequest button) w
    | None => request_button button w
    end in
  if bool_decide (_peer (self w) = Some peer) && bool_decide (_bot (self w) = Some bot)
  then
    match _panel (self w) with
    | Some _ => proceed (log RequestActivate w)
    | None => if decide (_requestId (self w) ≠ 0) then Ok w else proceed w
    end
  else proceed w.

(** [requestSimple(controller, bot, button)]. *)
Definition requestSimple (controller : nat) (bot : UserId) (button : WebViewButton)
    (w : World) : Outcome :=
  let w := cancel w in
  let w := upd (set_bot (Some bot)) w in
  let w := upd (set_peer (Some (asPeer bot))) w in
  confirmOpen controller (DoRequestSimple button) w.

Definition requestMenu (controller : nat) (bot : UserId) (w : World) : Outcome :=
  let w := cancel w in
  let w := upd (set_bot (Some bot)) w in
  let w := upd (set_peer (Some (asPeer bot))) w in
  match botInfo (userData bot w) with
  | Some i =>
    confirmOpen controller (DoRequestMenu (botMenuButtonUrl i) (botMenuButtonText i)) w
  | None => Crash
  end.

Definition toggleInMenu (bot : UserId) (enabled : bool) (callback : ToggleCallback)
    (w : World) : World :=
  api_send (MTPmessages_ToggleBotInAttachMenu bot enabled callback) w.

(** The closure [open] of [requestAddToMenu]: whether it opened, and the
    world after it. *)
Definition open (c : OpenClosure) (w : World) : bool * Outcome :=
  match contextPeer c with
  | None => (false, Ok w)
  | Some peer =>
    match open_bot c with
    | Some bot =>
      (true, request None peer bot
               {| text := ""; startCommand := open_startCommand c; url := "" |} w)
    | None => (true, Crash)
    end
  end.

Definition run_callback (callback : ToggleCallback) (w : World) : Outcome :=
  match callback with
  | NoCallback => Ok w
  | RemovedToast => Ok (toast lng_bot_remove_from_menu_done w)
  | AddedToast c =>
    bind (open c w).2 (λ w, Ok (toast lng_bot_add_to_menu_done w))
  end.

Definition toggleInMenu_done (callback : ToggleCallback) (w : World) : Outcome :=
  let w := upd (set_requestId 0) w in
  let w := requestBots w in
  run_callback callback w.

Definition toggleInMenu_fail (w : World) : World := cancel w.

Definition removeFromMenu (bot : UserId) (w : World) : World :=
  toggleInMenu bot false RemovedToast w.

Definition confirmAddToMenu (bot : AttachWebViewBot) (callback : OpenClosure)
    (w : World) : World :=
  match activeWindow w with
  | None => w
  | Some window =>
    let t := lng_bot_add_to_menu (short_name bot) in
    set_boxes (boxes w ++ [ConfirmAddBox window t bot callback]) w
  end.

(** The [done] lambda of the box that [confirmAddToMenu] shows. *)
Definition confirmAddToMenu_done (bot : AttachWebViewBot) (callback : OpenClosure)
    (w : World) : World :=
  toggleInMenu (user bot) true (AddedToast callback) w.

Definition requestAddToMenu (peer : option PeerId) (bot : UserId)
    (startCommand : string) (w : World) : World :=
  let supported := isBot (userData bot w)
    && match botInfo (userData bot w) with
       | Some i => supportsAttachMenu i
       | None => false
       end in
  if negb supported then toast lng_bot_menu_not_supported w
  else
    let w := upd (set_addToMenuStartCommand startCommand) w in
    let w := upd (set_addToMenuPeer peer) w in
    let send w :=
      let w := upd (set_addToMenuBot (Some bot)) w in
      let id := next_id w in
      upd (set_addToMenuId id) (api_send (MTPmessages_GetAttachMenuBot bot) w) in
    if decide (_addToMenuId (self w) ≠ 0)
    then
      if bool_decide (_addToMenuBot (self w) = Some bot) then w
      else
        let id := _addToMenuId (self w) in
        send (api_cancel id (upd (set_addToMenuId 0) w))
    else send w.

Definition requestAddToMenu_done (result : Response) (w : World) : Outcome :=
  let w := upd (set_addToMenuId 0) w in
  let bot := _addToMenuBot (self w) in
  let w := upd (set_addToMenuBot None) w in
  let contextPeer := _addToMenuPeer (self w) in
  let w := upd (set_addToMenuPeer None) w in
  let startCommand := _addToMenuStartCommand (self w) in
  let w := upd (set_addToMenuStartCommand "") w in
  let open_ := {| contextPeer := contextPeer; open_bot := bot;
                  open_startCommand := startCommand |} in
  match result with
  | MTPattachMenuBotsBot data us =>
    let w := processUsers us w in
    match ParseAttachBot data w with
    | Some parsed =>
      if bool_decide (bot = Some (user parsed))
      then
        if inactive parsed then Ok (confirmAddToMenu parsed open_ w)
        else
          let w := requestBots w in
          let r := open open_ w in
          if r.1 then r.2
          else bind r.2 (λ w, Ok (toast lng_bot_menu_already_added w))
      else Ok w
    | None => Ok w
    end
  | _ => Disabled
  end.

Definition requestAddToMenu_fail (w : World) : World :=
  let w := upd (set_addToMenuId 0) w in
  let w := upd (set_addToMenuBot None) w in
  let w := upd (set_addToMenuPeer None) w in
  let w := upd (set_addToMenuStartCommand "") w in
  toast lng_bot_menu_not_supported w.

(** The lambda that [resolve] hands to [resolveUsername]. *)
Definition resolve_done (bot : PeerId) (w : World) : World :=
  let w := upd (set_bot (asUser bot)) w in
  match _bot (self w) with
  | None => toast lng_bot_menu_not_supported w
  | Some b => requestAddToMenu (_peer (self w)) b (_startCommand (self w)) w
  end.

Definition resolveUsername (uname : string) (w : World) : Outcome :=
  match _peer (self w) with
  | None => Crash
  | Some _ =>
    match peerByUsername uname w with
    | Some peer => Ok (resolve_done peer w)
    | None =>
      let id := _requestId (self w) in
      let w := api_cancel id (upd (set_requestId 0) w) in
      let id := next_id w in
      Ok (upd (set_requestId id) (api_send (MTPcontacts_ResolveUsername uname) w))
    end
  end.

Definition resolveUsername_done (result : Response) (w : World) : Outcome :=
  let w := upd (set_requestId 0) w in
  match result with
  | MTPcontacts_resolvedPeer peer cs us =>
    match _peer (self w) with
    | None => Crash
    | Some _ =>
      let w := processUsers us w in
      let w := processChats cs w in
      match peer with
      | Some peerId => Ok (resolve_done peerId w)
      | None => Ok w
      end
    end
  | _ => Disabled
  end.

Definition resolveUsername_fail (uname : string) (error : MTPError) (w : World)
  : World :=
  let w := upd (set_requestId 0) w in
  if bool_decide (code error = 400%Z)
  then toast (lng_username_not_found uname) w
  else w.

Definition resolve (w : World) : Outcome :=
  resolveUsername (_botUsername (self w)) w.

(** [request(peer, botUsername, startCommand)]. *)
Definition request_username (peer : PeerId) (botUsername startCommand : string)
    (w : World) : Outcome :=
  if isEmpty botUsername then Ok w
  else
    let uname := match _bot (self w) with
                 | Some b => username (userData b w)
                 | None => _botUsername (self w)
                 end in
    if bool_decide (_peer (self w) = Some peer)
       && bool_decide (toLower uname = toLower botUsername)
       && bool_decide (_startCommand (self w) = startCommand)
    then
      match _panel (self w) with
      | Some _ => Ok (log RequestActivate w)
      | None => Ok w
      end
    else
      let w := cancel w in
      let w := upd (set_peer (Some peer)) w in
      let w := upd (set_botUsername botUsername) w in
      let w := upd (set_startCommand startCommand) w in
      resolve w.

(** *** Closures installed on the panel *)

(** The [sendData] closure of [show]; [randomId] is the value drawn by
    [base::RandomValue]. *)
Definition sendData (queryId : N) (buttonText : string) (data : string)
    (randomId : N) (w : World) : Outcome :=
  if bool_decide (_peer (self w) ≠ asPeer <$> _bot (self w))
     || negb (bool_decide (queryId = 0%N))
  then Ok w
  else
    match _bot (self w) with
    | Some bot =>
      let w := api_send (MTPmessages_SendWebViewData bot randomId buttonText data) w in
      Ok (cancel w)
    | None => Crash
    end.

(** The [close] closure of [show] posts a [cancel] to the main queue. *)
Definition close (w : World) : World := set_main_queue (S (main_queue w)) w.

(** The body of the [timer_each] subscription of [started]. *)
Definition prolong (queryId : N) (w : World) : Outcome :=
  let id := _prolongId (self w) in
  let w := api_cancel id (upd (set_prolongId 0) w) in
  match _peer (self w), _bot (self w) with
  | Some peer, Some bot =>
    let id := next_id w in
    Ok (upd (set_prolongId id)
          (api_send (MTPmessages_ProlongWebView [f_reply_to_msg_id; f_silent]
                       peer bot queryId (_replyToMsgId (self w))) w))
  | _, _ => Crash
  end.

Definition prolong_done (w : World) : World := upd (set_prolongId 0) w.

Definition is_timer (s : Subscription) : bool :=
  match s with TimerEach _ _ => true | WebViewResultSentFilter _ => false end.

Definition is_filter (queryId : N) (s : Subscription) : bool :=
  match s with
  | WebViewResultSentFilter q => bool_decide (q = queryId)
  | TimerEach _ _ => false
  end.

(** ** Events *)

Inductive Event :=
| CallRequestUsername (peer : PeerId) (botUsername startCommand : string)
| CallRequest (controller : option nat) (peer : PeerId) (bot : UserId)
    (button : WebViewButton)
| CallRequestSimple (controller : nat) (bot : UserId) (button : WebViewButton)
| CallRequestMenu (controller : nat) (bot : UserId)
| CallCancel
| CallRequestBots
| CallRequestAddToMenu (peer : option PeerId) (bot : UserId) (startCommand : string)
| CallRemoveFromMenu (bot : UserId)
| Done (id : mtpRequestId) (result : Response)
| Fail (id : mtpRequestId) (error : MTPError)
| BoxConfirmed (i : nat)
| BoxClosed (i : nat)
| TimerTick
| PanelSendData (data : string) (randomId : N)
| PanelClose
| MainQueue
| WebViewResultSent (queryId : N)
| ActiveWindowChanged (window : option nat).

(** The request in flight that a response with this handle answers. *)
Definition lookup_request (id : mtpRequestId) (w : World) : option Request :=
  snd <$> List.find (λ p, bool_decide (p.1 = id)) (pending w).

(** A request that completed is no longer in flight. *)
Definition complete (id : mtpRequestId) (w : World) : World :=
  set_pending (filter (λ p, p.1 ≠ id) (pending w)) w.

Definition on_done (r : Request) (result : Response) (w : World) : Outcome :=
  match r with
  | MTPmessages_RequestWebView _ _ _ _ _ buttonText => request_done buttonText result w
  | MTPmessages_RequestSimpleWebView _ _ buttonText =>
    requestSimple_done buttonText result w
  | MTPcontacts_ResolveUsername _ => resolveUsername_done result w
  | MTPmessages_GetAttachMenuBots _ => requestBots_done result w
  | MTPmessages_GetAttachMenuBot _ => requestAddToMenu_done result w
  | MTPmessages_ToggleBotInAttachMenu _ _ callback =>
    match result with MTPbool => toggleInMenu_done callback w | _ => Disabled end
  | MTPmessages_ProlongWebView _ _ _ _ _ =>
    match result with MTPbool => Ok (prolong_done w) | _ => Disabled end
  | MTPmessages_SendWebViewData _ _ _ _ =>
    match result with MTPupdates => Ok w | _ => Disabled end
  end.

Definition on_fail (r : Request) (error : MTPError) (w : World) : World :=
  match r with
  | MTPmessages_RequestWebView _ _ _ _ _ _ => request_fail error w
  | MTPmessages_RequestSimpleWebView _ _ _ => requestSimple_fail w
  | MTPcontacts_ResolveUsername uname => resolveUsername_fail uname error w
  | MTPmessages_GetAttachMenuBots _ => requestBots_fail w
  | MTPmessages_GetAttachMenuBot _ => requestAddToMenu_fail w
  | MTPmessages_ToggleBotInAttachMenu _ _ _ => toggleInMenu_fail w
  | MTPmessages_ProlongWebView _ _ _ _ _ => w
  | MTPmessages_SendWebViewData _ _ _ _ => w
  end.

(** What one event does.  A confirm box closes when it is confirmed; the
    timer and the panel's closures exist while the panel does. *)
Definition step (e : Event) (w : World) : Outcome :=
  match e with
  | CallRequestUsername peer botUsername startCommand =>
    request_username peer botUsername startCommand w
  | CallRequest controller peer bot button => request controller peer bot button w
  | CallRequestSimple controller bot button => requestSimple controller bot button w
  | CallRequestMenu controller bot => requestMenu controller bot w
  | CallCancel => Ok (cancel w)
  | CallRequestBots => Ok (requestBots w)
  | CallRequestAddToMenu peer bot startCommand =>
    Ok (requestAddToMenu peer bot startCommand w)
  | CallRemoveFromMenu bot => Ok (removeFromMenu bot w)
  | Done id result =>
    match lookup_request id w with
    | Some r => on_done r result (complete id w)
    | None => Disabled
    end
  | Fail id error =>
    match lookup_request id w with
    | Some r => Ok (on_fail r error (complete id w))
    | None => Disabled
    end
  | BoxConfirmed i =>
    match boxes w !! i with
    | Some (ConfirmOpenBox controller _ done) =>
      confirmOpen_callback controller done (set_boxes (delete i (boxes w)) w)
    | Some (ConfirmAddBox _ _ bot callback) =>
      Ok (confirmAddToMenu_done bot callback (set_boxes (delete i (boxes w)) w))
    | None => Disabled
    end
  | BoxClosed i =>
    match boxes w !! i with
    | Some _ => Ok (set_boxes (delete i (boxes w)) w)
    | None => Disabled
    end
  | TimerTick =>
    match _panel (self w) with
    | Some p =>
      match List.find is_timer (lifetime p) with
      | Some (TimerEach _ queryId) => prolong queryId w
      | _ => Disabled
      end
    | None => Disabled
    end
  | PanelSendData data randomId =>
    match _panel (self w) with
    | Some p => sendData (sendData_queryId p) (sendData_buttonText p) data randomId w
    | None => Disabled
    end
  | PanelClose =>
    match _panel (self w) with
    | Some _ => Ok (close w)
    | None => Disabled
    end
  | MainQueue =>
    match main_queue w with
    | S n => Ok (cancel (set_main_queue n w))
    | O => Disabled
    end
  | WebViewResultSent queryId =>
    match _panel (self w) with
    | Some p => if existsb (is_filter queryId) (lifetime p) then Ok (cancel w) else Ok w
    | None => Ok w
    end
  | ActiveWindowChanged window => Ok (set_activeWindow window w)
  end.

Fixpoint run (es : list Event) (w : World) : Outcome :=
  match es with
  | [] => Ok w
  | e :: es => bind (step e w) (run es)
  end.

Definition fresh : AttachWebView :=
  {| _peer := None; _bot := None; _botUsername := ""; _startCommand := "";
     _requestId := 0; _prolongId := 0; _replyToMsgId := 0; _panel := None;
     _botsHash := 0; _botsRequestId := 0; _attachBots := [];
     _addToMenuId := 0; _addToMenuBot := None; _addToMenuPeer := None;
     _addToMenuStartCommand := "" |}.

(** A newly constructed object in a session with the given data. *)
Definition start (address : nat) (us : gmap nat UserData) (cs : gmap nat string)
    (tr : gset nat) (window : option nat) : World :=
  {| self := fresh; this := address; ActiveWebViews := ∅; next_id := 1;
     pending := []; sent := []; users := us; chats := cs; trusted := tr;
     activeWindow := window; boxes := []; ui := []; main_queue := 0 |}.

Inductive reachable : World -> Prop :=
| reachable_start address us cs tr window :
    reachable (start address us cs tr window)
| reachable_step e w w' :
    reachable w -> step e w = Ok w' -> reachable w'.

(** ** Scenarios

    A session that knows two bots of the attach menu; bot 7 was trusted
    before, bot 8 was not.  [chat] and [chat2] are two chats. *)

Definition xbot : UserData :=
  {| username := "xbot"; name := "X Bot"; isVerified := false;
     botInfo := Some {| supportsAttachMenu := true;
                        botMenuButtonUrl := "https://x.example/menu";
                        botMenuButtonText := "Menu" |} |}.

Definition ybot : UserData :=
  {| username := "ybot"; name := "Y Bot"; isVerified := false;
     botInfo := Some {| supportsAttachMenu := true;
                        botMenuButtonUrl := "https://y.example/menu";
                        botMenuButtonText := "Menu" |} |}.

Definition chat : PeerId := inr 100.
Definition chat2 : PeerId := inr 200.

Definition button : WebViewButton :=
  {| text := "Open"; startCommand := ""; url := "" |}.

Definition scenario : World :=
  start 1 (<[7 := xbot]> (<[8 := ybot]> ∅)) ∅ {[7]} (Some 0).

(** The world after the events [es], when none of them crashes. *)
Definition after (es : list Event) : World :=
  match run es scenario with Ok w => w | _ => scenario end.

#[local] Close Scope string_scope.

(** * Properties

    First the vocabulary of the statements, then the proofs. *)

(** The three open requests are two on the wire: the general and the menu
    variant are both [MTPmessages_RequestWebView]. *)
Definition is_open (r : Request) : bool :=
  match r with
  | MTPmessages_RequestWebView _ _ _ _ _ _ => true
  | MTPmessages_RequestSimpleWebView _ _ _ => true
  | _ => false
  end.

Definition is_bots (r : Request) : bool :=
  match r with MTPmessages_GetAttachMenuBots _ => true | _ => false end.

Definition is_toggle (r : Request) : bool :=
  match r with MTPmessages_ToggleBotInAttachMenu _ _ _ => true | _ => false end.

Definition is_prolong (r : Request) : bool :=
  match r with MTPmessages_ProlongWebView _ _ _ _ _ => true | _ => false end.

Definition is_sendData (r : Request) : bool :=
  match r with MTPmessages_SendWebViewData _ _ _ _ => true | _ => false end.

(** How many of the requests [l] satisfy [P]. *)
Definition count (P : Request -> bool) (l : list (mtpRequestId * Request)) : nat :=
  List.length (List.filter (λ p, P p.2) l).

(** [keeps w w']: the trust store and the cached bots are those of [w]. *)
Definition keeps (w w' : World) : Prop :=
  trusted w' = trusted w ∧ _attachBots (self w') = _attachBots (self w).

(** The requests of [l] that satisfy [P]. *)
Definition requests (P : Request -> bool) (l : list (mtpRequestId * Request))
  : list (mtpRequestId * Request) :=
  List.filter (λ p, P p.2) l.

(** The requests in flight are well formed for the keepalive: handles are
    not null, every prolong request in flight is the one [_prolongId] names,
    and there is at most one. *)
Definition prolong_inv (w : World) : Prop :=
  next_id w ≠ 0
  ∧ (∀ p, p ∈ pending w -> p.1 ≠ 0)
  ∧ (∀ p, p ∈ pending w -> is_prolong p.2 = true -> p.1 = _prolongId (self w))
  ∧ count is_prolong (pending w) ≤ 1.

(** What [prolong_inv] reads of a world. *)
Definition shape (w : World) : nat * list (nat * Request) * nat :=
  (next_id w, pending w, _prolongId (self w)).

(** [sends P w w']: the requests sent between [w] and [w'] all satisfy [P]. *)
Definition sends (P : Request -> bool) (w w' : World) : Prop :=
  ∃ l, sent w' = List.app (sent w) l ∧ Forall (λ p, P p.2 = true) l.

(** ** What was sent *)

Lemma count_app P l k : count P (l ++ k) = count P l + count P k.
Proof. unfold count. by rewrite List.filter_app, length_app. Qed.

(** ** [cancel] *)

Lemma not_elem_of_remove (X : gset nat) (t : nat) : t ∉ X ∖ {[t]}.
Proof. set_solver. Qed.

Lemma remove_twice (X : gset nat) (t : nat) : X ∖ {[t]} ∖ {[t]} = X ∖ {[t]}.
Proof. set_solver. Qed.

Lemma pending_api_cancel id w p :
  p ∈ pending (api_cancel id w) -> p ∈ pending w ∧ (id = 0 ∨ p.1 ≠ id).
Proof.
  unfold api_cancel. cbn. case_decide as Hid.
  - intros Hp. split; [done | by left].
  - intros [Hne Hp]%list_elem_of_filter. split; [done | by right].
Qed.

(** C4. [cancel] is a total function of the world, so it can be called in
    every state.  After it the object holds neither a request handle nor a
    prolong handle, the requests those handles named are no longer in
    flight, the panel is gone, peer, bot, username and start command are
    cleared, and the object is not in [ActiveWebViews].  Calling it a second
    time changes nothing. *)
Theorem cancel_tears_down_and_is_idempotent (w : World) :
  step CallCancel w = Ok (cancel w)
  ∧ _requestId (self (cancel w)) = 0
  ∧ _prolongId (self (cancel w)) = 0
  ∧ (∀ id r, (id, r) ∈ pending (cancel w) ->
       id = 0 ∨ (id ≠ _requestId (self w) ∧ id ≠ _prolongId (self w)))
  ∧ _panel (self (cancel w)) = None
  ∧ _peer (self (cancel w)) = None
  ∧ _bot (self (cancel w)) = None
  ∧ _botUsername (self (cancel w)) = ""%string
  ∧ _startCommand (self (cancel w)) = ""%string
  ∧ (this (cancel w) ∉ ActiveWebViews (cancel w))
  ∧ cancel (cancel w) = cancel w.
Proof.
  split_and!; try reflexivity.
  - intros id r Hin. unfold cancel in Hin.
    apply pending_api_cancel in Hin as [Hin Hp]. cbn in Hp.
    apply pending_api_cancel in Hin as [_ Hr]. cbn in *.
    destruct (decide (id = 0)) as [-> | Hid]; [by left | right].
    split; [destruct Hr | destruct Hp]; congruence.
  - apply not_elem_of_remove.
  - destruct w as [o t A n p s us cs tr aw bs u q].
    unfold cancel.
    lazy beta iota zeta delta -[difference singleton filter decide].
    f_equal. apply remove_twice.
Qed.

(** ** The data-submission closure *)

(** C10. The [sendData] closure that [show] installs does nothing unless the
    peer is the bot itself and the query id it captured is zero.  When it
    does send, it sends one [MTPmessages_SendWebViewData] and then runs
    [cancel], which destroys the panel. *)
Theorem sendData_sends_once_then_cancels (queryId : N) (buttonText data : string)
    (randomId : N) (w : World) :
  (_peer (self w) ≠ asPeer <$> _bot (self w) ∨ queryId ≠ 0%N ->
     sendData queryId buttonText data randomId w = Ok w)
  ∧ (∀ bot, _bot (self w) = Some bot -> _peer (self w) = Some (asPeer bot) ->
       queryId = 0%N ->
       let request := MTPmessages_SendWebViewData bot randomId buttonText data in
       let w' := cancel (api_send request w) in
       sendData queryId buttonText data randomId w = Ok w'
       ∧ sent w' = (sent w ++ [(next_id w, request)])%list
       ∧ count is_sendData (sent w') = S (count is_sendData (sent w))
       ∧ _panel (self w') = None
       ∧ (this w' ∉ ActiveWebViews w'))
  ∧ (∀ p, _panel (self w) = Some p ->
       step (PanelSendData data randomId) w
       = sendData (sendData_queryId p) (sendData_buttonText p) data randomId w).
Proof.
  split_and!.
  - intros Hno. unfold sendData.
    destruct Hno as [Hne | Hq].
    + by rewrite (bool_decide_eq_true_2 _ Hne).
    + rewrite (bool_decide_eq_false_2 _ Hq). simpl negb. by rewrite orb_true_r.
  - intros bot Hbot Hpeer -> request w'. split_and!.
    + unfold sendData. rewrite Hbot, Hpeer.
      rewrite bool_decide_eq_false_2 by (intros Hne; by apply Hne).
      rewrite bool_decide_eq_true_2 by reflexivity.
      reflexivity.
    + reflexivity.
    + subst w'. change (sent (cancel (api_send request w)))
        with (sent w ++ [(next_id w, request)])%list.
      rewrite count_app. unfold count at 2. simpl. lia.
    + reflexivity.
    + apply not_elem_of_remove.
  - intros p Hp. unfold step. by rewrite Hp.
Qed.

(** ** What an event leaves alone *)

(** Case analysis on what a method inspects, down to its [Ok] results. *)
Ltac crunch :=
  repeat first
    [ match goal with
      | H : Ok _ = Ok _ |- _ => injection H as <-
      | H : Crash = Ok _ |- _ => discriminate H
      | H : Disabled = Ok _ |- _ => discriminate H
      end
    | case_match
    | case_decide ].

Lemma keeps_refl w : keeps w w.
Proof. by split. Qed.

Lemma keeps_trans w1 w2 w3 : keeps w1 w2 -> keeps w2 w3 -> keeps w1 w3.
Proof. intros [? ?] [? ?]. split; congruence. Qed.

Lemma keeps_cancel w : keeps w (cancel w).
Proof. by split. Qed.

Lemma keeps_requestBots w : keeps w (requestBots w).
Proof. unfold requestBots. case_decide; by split. Qed.

Lemma keeps_show queryId u t w w' : show queryId u t w = Ok w' -> keeps w w'.
Proof. unfold show, started. intros H. crunch. by split. Qed.

Lemma keeps_run_done done w w' : run_done done w = Ok w' -> keeps w w'.
Proof.
  unfold run_done, request_button, requestSimple_button, requestMenu_confirmed.
  intros H. crunch; by split.
Qed.

Create HintDb keeps.

#[local] Hint Resolve keeps_show keeps_run_done : keeps.

(** Close [keeps w w'] from a hypothesis that a callee, started from a world
    that differs from [w] in other fields only, ended in [w']. *)
Ltac keeps_tac :=
  crunch;
  first [ by split
        | (eapply keeps_trans; [ | solve [eauto with keeps] ]); by split ].

Lemma keeps_confirmOpen c done w w' : confirmOpen c done w = Ok w' -> keeps w w'.
Proof. unfold confirmOpen. intros H. keeps_tac. Qed.

#[local] Hint Resolve keeps_confirmOpen : keeps.

Lemma keeps_request_button button w w' : request_button button w = Ok w' -> keeps w w'.
Proof. apply (keeps_run_done (DoRequest button)). Qed.

#[local] Hint Resolve keeps_request_button : keeps.

Lemma keeps_request c peer bot button w w' :
  request c peer bot button w = Ok w' -> keeps w w'.
Proof. unfold request. intros H. cbv zeta in H. keeps_tac. Qed.

Lemma keeps_requestSimple c bot button w w' :
  requestSimple c bot button w = Ok w' -> keeps w w'.
Proof. unfold requestSimple. intros H. cbv zeta in H. keeps_tac. Qed.

Lemma keeps_requestMenu c bot w w' : requestMenu c bot w = Ok w' -> keeps w w'.
Proof. unfold requestMenu. intros H. cbv zeta in H. keeps_tac. Qed.

#[local] Hint Resolve keeps_request keeps_requestSimple keeps_requestMenu : keeps.

Lemma keeps_open c w w' : (open c w).2 = Ok w' -> keeps w w'.
Proof. unfold open. intros H. repeat case_match; cbn [snd] in H; keeps_tac. Qed.

#[local] Hint Resolve keeps_open : keeps.

Lemma keeps_run_callback callback w w' : run_callback callback w = Ok w' -> keeps w w'.
Proof.
  unfold run_callback, bind. intros H. crunch; try by split.
  match goal with H : (open _ _).2 = Ok _ |- _ => apply keeps_open in H end.
  eapply keeps_trans; [eassumption | by split].
Qed.

#[local] Hint Resolve keeps_run_callback : keeps.

Lemma keeps_toggleInMenu_done callback w w' :
  toggleInMenu_done callback w = Ok w' -> keeps w w'.
Proof.
  unfold toggleInMenu_done. intros H. cbv zeta in H.
  apply keeps_run_callback in H. eapply keeps_trans; [ | exact H].
  eapply keeps_trans; [ | apply keeps_requestBots]. by split.
Qed.

Lemma keeps_requestAddToMenu peer bot startCommand w :
  keeps w (requestAddToMenu peer bot startCommand w).
Proof. unfold requestAddToMenu. cbv zeta. crunch; by split. Qed.

Lemma keeps_processUsers us w : keeps w (processUsers us w).
Proof. by split. Qed.

Lemma keeps_confirmAddToMenu bot callback w : keeps w (confirmAddToMenu bot callback w).
Proof. unfold confirmAddToMenu. crunch; by split. Qed.

Lemma keeps_requestAddToMenu_done result w w' :
  requestAddToMenu_done result w = Ok w' -> keeps w w'.
Proof.
  unfold requestAddToMenu_done, bind. intros H. cbv zeta in H. crunch.
  all: try by split.
  all: try (eapply keeps_trans; [ | apply keeps_confirmAddToMenu]; by split).
  all: match goal with H : (open _ _).2 = Ok _ |- _ => apply keeps_open in H end.
  all: match goal with Hk : keeps ?a ?b |- keeps ?w ?c =>
         apply (keeps_trans w a c);
         [ (eapply keeps_trans; [ | apply keeps_requestBots]); by split
         | apply (keeps_trans a b c); [exact Hk | by split] ]
       end.
Qed.

Lemma keeps_resolve_done bot w : keeps w (resolve_done bot w).
Proof.
  unfold resolve_done. cbv zeta. crunch; try by split.
  eapply keeps_trans; [ | apply keeps_requestAddToMenu]. by split.
Qed.

Lemma keeps_resolveUsername uname w w' : resolveUsername uname w = Ok w' -> keeps w w'.
Proof.
  unfold resolveUsername. intros H. cbv zeta in H. crunch; try by split.
  apply keeps_resolve_done.
Qed.

Lemma keeps_resolveUsername_done result w w' :
  resolveUsername_done result w = Ok w' -> keeps w w'.
Proof.
  unfold resolveUsername_done. intros H. cbv zeta in H. crunch; try by split.
  eapply keeps_trans; [ | apply keeps_resolve_done]. by split.
Qed.

Lemma keeps_request_username peer botUsername startCommand w w' :
  request_username peer botUsername startCommand w = Ok w' -> keeps w w'.
Proof.
  unfold request_username, resolve. intros H. cbv zeta in H. crunch; try by split.
  all: match goal with H : resolveUsername _ _ = Ok _ |- _ =>
         apply keeps_resolveUsername in H; (eapply keeps_trans; [ | exact H]);
         by split
       end.
Qed.

Lemma keeps_sendData queryId buttonText data randomId w w' :
  sendData queryId buttonText data randomId w = Ok w' -> keeps w w'.
Proof. unfold sendData. intros H. crunch; by split. Qed.

Lemma keeps_prolong queryId w w' : prolong queryId w = Ok w' -> keeps w w'.
Proof. unfold prolong. intros H. cbv zeta in H. crunch; by split. Qed.

Lemma keeps_on_fail r error w : keeps w (on_fail r error w).
Proof.
  destruct r; cbn [on_fail]; try by split.
  - unfold request_fail. cbv zeta. case_match; [ | by split].
    eapply keeps_trans; [ | apply keeps_requestBots]. by split.
  - unfold resolveUsername_fail. cbv zeta. case_match; by split.
Qed.

Lemma keeps_requestBots_done_trusted result w w' :
  requestBots_done result w = Ok w' -> trusted w' = trusted w.
Proof. unfold requestBots_done. intros H. cbv zeta in H. by crunch. Qed.

Lemma keeps_on_done r result w w' :
  on_done r result w = Ok w' ->
  trusted w' = trusted w
  ∧ (_attachBots (self w') = _attachBots (self w)
     ∨ ∃ h hash bots us,
         r = MTPmessages_GetAttachMenuBots h ∧ result = MTPattachMenuBots hash bots us).
Proof.
  destruct r; cbn [on_done]; intros H.
  - unfold request_done in H. cbv zeta in H. crunch.
    apply keeps_show in H as [? ?]. by split; [ | left].
  - unfold requestSimple_done in H. cbv zeta in H. crunch.
    apply keeps_show in H as [? ?]. by split; [ | left].
  - apply keeps_resolveUsername_done in H as [? ?]. by split; [ | left].
  - split; [by eapply keeps_requestBots_done_trusted | ].
    unfold requestBots_done in H. cbv zeta in H. crunch; [by left | right; eauto 10].
  - apply keeps_requestAddToMenu_done in H as [? ?]. by split; [ | left].
  - crunch. apply keeps_toggleInMenu_done in H as [? ?]. by split; [ | left].
  - crunch. by split; [ | left].
  - crunch. by split; [ | left].
Qed.

Lemma keeps_confirmOpen_callback c done w w' :
  confirmOpen_callback c done w = Ok w' -> _attachBots (self w') = _attachBots (self w).
Proof.
  unfold confirmOpen_callback. intros H. cbv zeta in H. crunch.
  by apply keeps_run_done in H as [_ ->].
Qed.

(** The trust store changes only when a consent box is confirmed, and the
    cached bots only when a full snapshot answers [requestBots]. *)
Lemma keeps_step e w w' :
  step e w = Ok w' ->
  (trusted w' = trusted w
   ∨ ∃ i c t d, e = BoxConfirmed i ∧ boxes w !! i = Some (ConfirmOpenBox c t d))
  ∧ (_attachBots (self w') = _attachBots (self w)
     ∨ ∃ id h hash bots us,
         e = Done id (MTPattachMenuBots hash bots us)
         ∧ lookup_request id w = Some (MTPmessages_GetAttachMenuBots h)).
Proof.
  assert (Hk : ∀ v, keeps w v ->
    (trusted v = trusted w
     ∨ ∃ i c t d, e = BoxConfirmed i ∧ boxes w !! i = Some (ConfirmOpenBox c t d))
    ∧ (_attachBots (self v) = _attachBots (self w)
       ∨ ∃ id h hash bots us,
           e = Done id (MTPattachMenuBots hash bots us)
           ∧ lookup_request id w = Some (MTPmessages_GetAttachMenuBots h))).
  { intros v [? ?]. by split; left. }
  destruct e; cbn [step]; intros H.
  - by apply keeps_request_username, Hk in H.
  - by apply keeps_request, Hk in H.
  - by apply keeps_requestSimple, Hk in H.
  - by apply keeps_requestMenu, Hk in H.
  - crunch. by apply Hk.
  - crunch. apply Hk, keeps_requestBots.
  - crunch. apply Hk, keeps_requestAddToMenu.
  - crunch. by apply Hk.
  - crunch. apply keeps_on_done in H as [Ht Hb]. split; [by left | ].
    destruct Hb as [Hb | (h & hash & bots & us & -> & ->)]; [by left | right].
    eauto 10.
  - crunch. apply Hk. eapply keeps_trans; [ | apply keeps_on_fail]. by split.
  - crunch.
    + apply keeps_confirmOpen_callback in H. split; [right; eauto 10 | by left].
    + by apply Hk.
  - crunch. by apply Hk.
  - crunch. by apply keeps_prolong, Hk in H.
  - crunch. by apply keeps_sendData, Hk in H.
  - crunch. by apply Hk.
  - crunch. by apply Hk.
  - crunch; by apply Hk.
  - crunch. by apply Hk.
Qed.

(** ** The directory of attach bots *)

(** C9. [requestBots] does nothing while its request is in flight.  A
    "not modified" response and a failure leave the cached bots, the hash and
    the user data as they were and fire no update.  No event other than a
    full snapshot answering [requestBots] changes the cached bots. *)
Theorem requestBots_replaces_the_bots_only_on_a_snapshot (w : World) :
  (_botsRequestId (self w) ≠ 0 -> requestBots w = w)
  ∧ (∀ id h, lookup_request id w = Some (MTPmessages_GetAttachMenuBots h) ->
       (∃ w', step (Done id MTPattachMenuBotsNotModified) w = Ok w'
              ∧ _attachBots (self w') = _attachBots (self w)
              ∧ _botsHash (self w') = _botsHash (self w)
              ∧ users w' = users w
              ∧ ui w' = ui w)
       ∧ (∀ error, ∃ w', step (Fail id error) w = Ok w'
              ∧ _attachBots (self w') = _attachBots (self w)
              ∧ _botsHash (self w') = _botsHash (self w)
              ∧ users w' = users w
              ∧ ui w' = ui w))
  ∧ (∀ e w', step e w = Ok w' ->
       _attachBots (self w') ≠ _attachBots (self w) ->
       ∃ id h hash bots us,
         e = Done id (MTPattachMenuBots hash bots us)
         ∧ lookup_request id w = Some (MTPmessages_GetAttachMenuBots h)).
Proof.
  split_and!.
  - intros Hid. unfold requestBots. by case_decide.
  - intros id h Hreq. split.
    + eexists. unfold step. rewrite Hreq. cbn [on_done]. unfold requestBots_done.
      cbv zeta. by split_and!.
    + intros error. eexists. unfold step. rewrite Hreq. cbn [on_fail].
      by split_and!.
  - intros e w' Hstep Hne. apply keeps_step in Hstep as [_ [Hb | Hb]]; done.
Qed.

(** ** The consent box *)

(** With a bot set, [confirmOpen] runs the continuation at once when the bot
    is verified or already trusted; otherwise it only shows a box whose text
    carries the bot's name.  Confirming a box records the trust for the bot
    that the object holds at the click, whatever bot the box names, and runs
    the continuation; closing it only removes the box.  No other event
    changes the trust store. *)
Lemma confirmOpen_prompts_unless_trusted (controller : nat) (done : OpenDone)
    (bot : UserId) (w : World) :
  _bot (self w) = Some bot ->
  (isVerified (userData bot w) = true ∨ bot ∈ trusted w ->
     confirmOpen controller done w = run_done done w)
  ∧ (isVerified (userData bot w) = false -> bot ∉ trusted w ->
     let t := lng_allow_bot_webview (name (userData bot w)) in
     confirmOpen controller done w
     = Ok (set_boxes (boxes w ++ [ConfirmOpenBox controller t done]) w))
  ∧ (∀ i c t d, boxes w !! i = Some (ConfirmOpenBox c t d) ->
       let closed := set_boxes (delete i (boxes w)) w in
       step (BoxConfirmed i) w
       = run_done d (log (HideLayer c) (markBotTrustedOpenWebView bot closed))
       ∧ step (BoxClosed i) w = Ok closed
       ∧ trusted closed = trusted w
       ∧ sent closed = sent w)
  ∧ (∀ e w', step e w = Ok w' -> trusted w' ≠ trusted w ->
       ∃ i c t d, e = BoxConfirmed i ∧ boxes w !! i = Some (ConfirmOpenBox c t d)).
Proof.
  intros Hbot. split_and!.
  - intros Hyes. unfold confirmOpen. rewrite Hbot.
    destruct Hyes as [-> | Hin]; [done | ].
    unfold isBotTrustedOpenWebView. rewrite (bool_decide_eq_true_2 _ Hin).
    by rewrite orb_true_r.
  - intros Hv Hnot t. unfold confirmOpen. rewrite Hbot, Hv.
    unfold isBotTrustedOpenWebView. by rewrite (bool_decide_eq_false_2 _ Hnot).
  - intros i c t d Hbox closed. unfold step. rewrite Hbox.
    unfold confirmOpen_callback. cbn [self set_boxes]. rewrite Hbot.
    by split_and!.
  - intros e w' Hstep Hne. apply keeps_step in Hstep as [[Ht | Ht] _]; done.
Qed.

(** ** The keepalive *)

Lemma prolong_inv_shape w w' : shape w' = shape w -> prolong_inv w -> prolong_inv w'.
Proof.
  unfold shape, prolong_inv. intros Hs. injection Hs as -> -> ->. done.
Qed.

Lemma count_filter_le P (Q : nat * Request -> Prop) `{∀ p, Decision (Q p)} l :
  count P (filter Q l) ≤ count P l.
Proof.
  unfold count. induction l as [ | p l IH]; [done | ].
  rewrite filter_cons. destruct (decide (Q p)); simpl; destruct (P p.2); simpl; lia.
Qed.

Lemma prolong_inv_remove id w :
  prolong_inv w -> prolong_inv (set_pending (filter (λ p, p.1 ≠ id) (pending w)) w).
Proof.
  intros (Hn & Hpos & Hid & Hle). unfold prolong_inv.
  change (pending (set_pending ?l w)) with l.
  split_and!.
  - done.
  - intros p [_ Hp]%list_elem_of_filter. by apply Hpos.
  - intros p [_ Hp]%list_elem_of_filter. by apply Hid.
  - etrans; [apply count_filter_le | done].
Qed.

Lemma prolong_inv_api_cancel id w : prolong_inv w -> prolong_inv (api_cancel id w).
Proof.
  intros Hw. unfold api_cancel. case_decide.
  - by apply (prolong_inv_shape w).
  - by apply prolong_inv_remove.
Qed.

Lemma prolong_inv_complete id w : prolong_inv w -> prolong_inv (complete id w).
Proof. apply prolong_inv_remove. Qed.

Lemma prolong_inv_api_send r w :
  is_prolong r = false -> prolong_inv w -> prolong_inv (api_send r w).
Proof.
  intros Hr (Hn & Hpos & Hid & Hle). unfold prolong_inv.
  change (pending (api_send r w)) with (pending w ++ [(next_id w, r)]).
  split_and!.
  - done.
  - intros p [Hp | ->%list_elem_of_singleton]%elem_of_app; [by apply Hpos | done].
  - intros p [Hp | ->%list_elem_of_singleton]%elem_of_app; [by apply Hid | ].
    cbn. congruence.
  - rewrite count_app. unfold count at 2. cbn. rewrite Hr. cbn. lia.
Qed.

Lemma count_zero P l : (∀ p, p ∈ l -> P p.2 = false) -> count P l = 0.
Proof.
  unfold count. induction l as [ | p l IH]; [done | ]. intros Hl. cbn.
  rewrite (Hl p) by left. apply IH. intros q Hq. apply Hl. by right.
Qed.

(** [base::take(_prolongId)] followed by the cancellation of what it named
    leaves no prolong request in flight. *)
Lemma take_prolongId_clears w :
  prolong_inv w ->
  let w' := api_cancel (_prolongId (self w)) (upd (set_prolongId 0) w) in
  prolong_inv w' ∧ count is_prolong (pending w') = 0.
Proof.
  intros (Hn & Hpos & Hid & Hle) w'.
  assert (Hnone : ∀ p, p ∈ pending w' -> is_prolong p.2 = false).
  { intros p Hp. destruct (is_prolong p.2) eqn:Hpr; [exfalso | done].
    subst w'. unfold api_cancel in Hp. cbn in Hp. case_decide as Hz.
    - apply (Hpos p Hp). rewrite <- Hz. by apply Hid.
    - apply list_elem_of_filter in Hp as [Hne Hp]. apply Hne. by apply Hid. }
  split; [ | by apply count_zero].
  split_and!.
  - done.
  - intros p Hp. subst w'. unfold api_cancel in Hp. cbn in Hp. case_decide.
    + by apply Hpos.
    + apply list_elem_of_filter in Hp as [_ Hp]. by apply Hpos.
  - intros p Hp Hpr. rewrite (Hnone p Hp) in Hpr. done.
  - rewrite count_zero; [lia | done].
Qed.

Lemma prolong_inv_take w :
  prolong_inv w ->
  prolong_inv (api_cancel (_prolongId (self w)) (upd (set_prolongId 0) w)).
Proof. intros Hw. by apply take_prolongId_clears. Qed.

(** One step of a proof that a method keeps [prolong_inv]: peel the
    outermost update off the world. *)
Ltac inv_step :=
  match goal with
  | H : prolong_inv ?w |- prolong_inv ?w => exact H
  | |- prolong_inv (api_cancel (_prolongId (self ?x)) (upd (set_prolongId 0) ?x)) =>
    apply prolong_inv_take
  | |- prolong_inv (api_cancel _ _) => apply prolong_inv_api_cancel
  | |- prolong_inv (api_send _ _) => apply prolong_inv_api_send; [reflexivity | ]
  | |- prolong_inv (complete _ _) => apply prolong_inv_complete
  | |- prolong_inv (?f ?a ?b ?c ?w) => apply (prolong_inv_shape w (f a b c w) eq_refl)
  | |- prolong_inv (?f ?a ?b ?w) => apply (prolong_inv_shape w (f a b w) eq_refl)
  | |- prolong_inv (?f ?a ?w) => apply (prolong_inv_shape w (f a w) eq_refl)
  | |- prolong_inv (?f ?w) => apply (prolong_inv_shape w (f w) eq_refl)
  end.

Lemma prolong_inv_cancel w : prolong_inv w -> prolong_inv (cancel w).
Proof. intros Hw. unfold cancel. cbv zeta. repeat inv_step. Qed.

Lemma prolong_inv_requestBots w : prolong_inv w -> prolong_inv (requestBots w).
Proof. intros Hw. unfold requestBots. cbv zeta. case_decide; repeat inv_step. Qed.

Lemma prolong_inv_requestAddToMenu peer bot startCommand w :
  prolong_inv w -> prolong_inv (requestAddToMenu peer bot startCommand w).
Proof.
  intros Hw. unfold requestAddToMenu.
  match goal with |- context [negb ?b] => destruct b end; cbn [negb];
    [ | by inv_step].
  set (w1 := upd (set_addToMenuPeer peer) (upd (set_addToMenuStartCommand startCommand) w)).
  assert (Hw1 : prolong_inv w1) by (subst w1; repeat inv_step).
  assert (Hsend : ∀ v, prolong_inv v ->
    prolong_inv (upd (set_addToMenuId (next_id (upd (set_addToMenuBot (Some bot)) v)))
                   (api_send (MTPmessages_GetAttachMenuBot bot)
                      (upd (set_addToMenuBot (Some bot)) v)))).
  { intros v Hv. repeat inv_step. }
  cbv zeta. case_decide; [case_match | ]; [done | | by apply Hsend].
  apply Hsend. repeat inv_step.
Qed.

Lemma prolong_inv_confirmAddToMenu bot callback w :
  prolong_inv w -> prolong_inv (confirmAddToMenu bot callback w).
Proof. intros Hw. unfold confirmAddToMenu. cbv zeta. crunch; repeat inv_step. Qed.

Lemma prolong_inv_resolve_done bot w : prolong_inv w -> prolong_inv (resolve_done bot w).
Proof.
  intros Hw. unfold resolve_done. cbv zeta. crunch; [ | repeat inv_step].
  apply prolong_inv_requestAddToMenu. repeat inv_step.
Qed.

(** As [inv_step], with the methods that always return, and with a callee
    that returned [Ok]. *)
Ltac inv_tac lemma1 lemma2 :=
  repeat first
    [ match goal with
      | |- prolong_inv (cancel _) => apply prolong_inv_cancel
      | |- prolong_inv (requestBots _) => apply prolong_inv_requestBots
      | |- prolong_inv (requestAddToMenu _ _ _ _) => apply prolong_inv_requestAddToMenu
      | |- prolong_inv (confirmAddToMenu _ _ _) => apply prolong_inv_confirmAddToMenu
      | |- prolong_inv (resolve_done _ _) => apply prolong_inv_resolve_done
      | H : _ = Ok ?w' |- prolong_inv ?w' =>
        first [ eapply lemma1; [exact H | ] | eapply lemma2; [exact H | ] ]
      end
    | inv_step ].

Lemma prolong_inv_show queryId u t w w' :
  show queryId u t w = Ok w' -> prolong_inv w -> prolong_inv w'.
Proof. unfold show, started. intros H Hw. crunch. inv_tac I I. Qed.

Lemma prolong_inv_run_done done w w' :
  run_done done w = Ok w' -> prolong_inv w -> prolong_inv w'.
Proof.
  unfold run_done, request_button, requestSimple_button, requestMenu_confirmed.
  intros H Hw. cbv zeta in H. crunch; inv_tac I I.
Qed.

Lemma prolong_inv_confirmOpen c done w w' :
  confirmOpen c done w = Ok w' -> prolong_inv w -> prolong_inv w'.
Proof. unfold confirmOpen. intros H Hw. crunch; inv_tac prolong_inv_run_done I. Qed.

Lemma prolong_inv_confirmOpen_callback c done w w' :
  confirmOpen_callback c done w = Ok w' -> prolong_inv w -> prolong_inv w'.
Proof.
  unfold confirmOpen_callback. intros H Hw. cbv zeta in H.
  crunch; inv_tac prolong_inv_run_done I.
Qed.

Lemma prolong_inv_request c peer bot button w w' :
  request c peer bot button w = Ok w' -> prolong_inv w -> prolong_inv w'.
Proof.
  unfold request. intros H Hw. cbv zeta in H.
  crunch; inv_tac prolong_inv_confirmOpen (prolong_inv_run_done (DoRequest button)).
Qed.

Lemma prolong_inv_requestSimple c bot button w w' :
  requestSimple c bot button w = Ok w' -> prolong_inv w -> prolong_inv w'.
Proof.
  unfold requestSimple. intros H Hw. cbv zeta in H. inv_tac prolong_inv_confirmOpen I.
Qed.

Lemma prolong_inv_requestMenu c bot w w' :
  requestMenu c bot w = Ok w' -> prolong_inv w -> prolong_inv w'.
Proof.
  unfold requestMenu. intros H Hw. cbv zeta in H.
  crunch. inv_tac prolong_inv_confirmOpen I.
Qed.

Lemma prolong_inv_open c w w' : (open c w).2 = Ok w' -> prolong_inv w -> prolong_inv w'.
Proof.
  unfold open. intros H Hw. repeat case_match; cbn [snd] in H; crunch;
    inv_tac prolong_inv_request I.
Qed.

Lemma prolong_inv_run_callback callback w w' :
  run_callback callback w = Ok w' -> prolong_inv w -> prolong_inv w'.
Proof.
  unfold run_callback, bind. intros H Hw. crunch; inv_tac prolong_inv_open I.
Qed.

Lemma prolong_inv_requestAddToMenu_done result w w' :
  requestAddToMenu_done result w = Ok w' -> prolong_inv w -> prolong_inv w'.
Proof.
  unfold requestAddToMenu_done, bind. intros H Hw. cbv zeta in H.
  crunch; inv_tac prolong_inv_open I.
Qed.

Lemma prolong_inv_resolveUsername uname w w' :
  resolveUsername uname w = Ok w' -> prolong_inv w -> prolong_inv w'.
Proof. unfold resolveUsername. intros H Hw. cbv zeta in H. crunch; inv_tac I I. Qed.

Lemma prolong_inv_request_username peer botUsername startCommand w w' :
  request_username peer botUsername startCommand w = Ok w' ->
  prolong_inv w -> prolong_inv w'.
Proof.
  unfold request_username, resolve. intros H Hw. cbv zeta in H.
  crunch; inv_tac prolong_inv_resolveUsername I.
Qed.

Lemma prolong_inv_sendData queryId buttonText data randomId w w' :
  sendData queryId buttonText data randomId w = Ok w' -> prolong_inv w -> prolong_inv w'.
Proof. unfold sendData. intros H Hw. crunch; inv_tac I I. Qed.

(** A keepalive tick first cancels the prolong request in flight, if any,
    then sends the next one. *)
Lemma prolong_spec queryId w w' :
  prolong queryId w = Ok w' -> prolong_inv w ->
  let w0 := api_cancel (_prolongId (self w)) (upd (set_prolongId 0) w) in
  (∃ peer bot,
     w' = upd (set_prolongId (next_id w))
            (api_send (MTPmessages_ProlongWebView [f_reply_to_msg_id; f_silent]
                         peer bot queryId (_replyToMsgId (self w))) w0))
  ∧ count is_prolong (pending w0) = 0
  ∧ count is_prolong (pending w') = 1
  ∧ prolong_inv w'.
Proof.
  intros H Hw w0.
  destruct (take_prolongId_clears w Hw) as [Hw0 Hzero]. fold w0 in Hw0, Hzero.
  unfold prolong in H. cbv zeta in H. fold w0 in H.
  destruct (_peer (self w0)) as [peer | ]; [ | done].
  destruct (_bot (self w0)) as [bot | ]; [ | done].
  injection H as <-.
  change (next_id w0) with (next_id w). change (_replyToMsgId (self w0))
    with (_replyToMsgId (self w)).
  set (r := MTPmessages_ProlongWebView _ _ _ _ _).
  assert (Hone : count is_prolong (pending (upd (set_prolongId (next_id w)) (api_send r w0)))
                 = 1).
  { change (pending (upd _ (api_send r w0))) with (pending w0 ++ [(next_id w0, r)]).
    rewrite count_app, Hzero. reflexivity. }
  split_and!; [by eexists _, _ | done | done | ].
  destruct Hw0 as (Hn & Hpos & Hid & Hle). unfold prolong_inv.
  change (pending (upd _ (api_send r w0))) with (pending w0 ++ [(next_id w0, r)]) in *.
  split_and!.
  - done.
  - intros p [Hp | ->%list_elem_of_singleton]%elem_of_app; [by apply Hpos | done].
  - intros p [Hp | ->%list_elem_of_singleton]%elem_of_app Hpr; [ | done].
    exfalso. assert (Hall : ∀ q, q ∈ pending w0 -> is_prolong q.2 = false).
    { clear -Hzero. unfold count in Hzero. induction (pending w0) as [ | a l IH].
      - intros q Hq. by apply elem_of_nil in Hq.
      - cbn in Hzero. destruct (is_prolong a.2) eqn:Ha; [done | ].
        intros q [-> | Hq]%elem_of_cons; [done | by apply IH]. }
    rewrite (Hall p Hp) in Hpr. done.
  - rewrite Hone. done.
Qed.

Lemma prolong_inv_prolong queryId w w' :
  prolong queryId w = Ok w' -> prolong_inv w -> prolong_inv w'.
Proof. intros H Hw. by apply (prolong_spec queryId w w' H Hw). Qed.

Lemma lookup_request_elem id w r : lookup_request id w = Some r -> (id, r) ∈ pending w.
Proof.
  unfold lookup_request. destruct (List.find _ _) as [[i q] | ] eqn:Hf; [ | done].
  intros [= <-]. apply List.find_some in Hf as [Hin Heq].
  apply bool_decide_eq_true in Heq. cbn in Heq. subst i. by apply list_elem_of_In.
Qed.

Lemma prolong_inv_prolong_done id r w :
  lookup_request id w = Some r -> is_prolong r = true ->
  prolong_inv w -> prolong_inv (prolong_done (complete id w)).
Proof.
  intros Hr Hpr (Hn & Hpos & Hid & Hle).
  apply lookup_request_elem in Hr. pose proof (Hid _ Hr Hpr) as Heq. cbn in Heq.
  assert (Hnone : ∀ p, p ∈ pending (complete id w) -> is_prolong p.2 = false).
  { intros p [Hne Hp]%list_elem_of_filter.
    destruct (is_prolong p.2) eqn:Hp2; [ | done].
    exfalso. apply Hne. rewrite Heq. by apply Hid. }
  unfold prolong_inv.
  change (pending (prolong_done (complete id w))) with (pending (complete id w)).
  split_and!.
  - done.
  - intros p Hp. apply list_elem_of_filter in Hp as [_ Hp]. by apply Hpos.
  - intros p Hp Hpr'. rewrite (Hnone p Hp) in Hpr'. done.
  - rewrite count_zero; [lia | done].
Qed.

Lemma prolong_inv_on_fail r error w : prolong_inv w -> prolong_inv (on_fail r error w).
Proof.
  intros Hw. destruct r; cbn [on_fail].
  all: unfold request_fail, requestSimple_fail, resolveUsername_fail, requestBots_fail,
         requestAddToMenu_fail, toggleInMenu_fail; cbv zeta.
  all: try case_match; inv_tac I I.
Qed.

Lemma prolong_inv_on_done id r result w w' :
  lookup_request id w = Some r ->
  on_done r result (complete id w) = Ok w' -> prolong_inv w -> prolong_inv w'.
Proof.
  intros Hr H Hw. destruct r; cbn [on_done] in H.
  - unfold request_done in H. cbv zeta in H. crunch. inv_tac prolong_inv_show I.
  - unfold requestSimple_done in H. cbv zeta in H. crunch. inv_tac prolong_inv_show I.
  - unfold resolveUsername_done in H. cbv zeta in H. crunch; inv_tac I I.
  - unfold requestBots_done in H. cbv zeta in H. crunch; inv_tac I I.
  - inv_tac prolong_inv_requestAddToMenu_done I.
  - unfold toggleInMenu_done in H. cbv zeta in H. crunch.
    inv_tac prolong_inv_run_callback I.
  - crunch. by eapply prolong_inv_prolong_done.
  - crunch. inv_tac I I.
Qed.

Lemma prolong_inv_step e w w' : step e w = Ok w' -> prolong_inv w -> prolong_inv w'.
Proof.
  destruct e; cbn [step]; intros H Hw.
  - inv_tac prolong_inv_request_username I.
  - inv_tac prolong_inv_request I.
  - inv_tac prolong_inv_requestSimple I.
  - inv_tac prolong_inv_requestMenu I.
  - crunch. inv_tac I I.
  - crunch. inv_tac I I.
  - crunch. inv_tac I I.
  - crunch. unfold removeFromMenu, toggleInMenu. inv_tac I I.
  - crunch. by eapply prolong_inv_on_done.
  - crunch. apply prolong_inv_on_fail. inv_tac I I.
  - crunch.
    + inv_tac prolong_inv_confirmOpen_callback I.
    + unfold confirmAddToMenu_done, toggleInMenu. inv_tac I I.
  - crunch. inv_tac I I.
  - crunch. inv_tac prolong_inv_prolong I.
  - crunch. inv_tac prolong_inv_sendData I.
  - crunch. unfold close. inv_tac I I.
  - crunch. inv_tac I I.
  - crunch; inv_tac I I.
  - crunch. inv_tac I I.
Qed.

Lemma prolong_inv_reachable w : reachable w -> prolong_inv w.
Proof.
  induction 1 as [address us cs tr window | e w w' _ IH Hstep].
  - unfold prolong_inv. cbn [pending start next_id]. split_and!.
    + done.
    + intros p Hp. by apply elem_of_nil in Hp.
    + intros p Hp. by apply elem_of_nil in Hp.
    + unfold count. cbn. lia.
  - by eapply prolong_inv_step.
Qed.

Lemma count_sent_api_send P r w :
  count P (sent (api_send r w)) = count P (sent w) + (if P r then 1 else 0).
Proof.
  change (sent (api_send r w)) with (sent w ++ [(next_id w, r)]).
  rewrite count_app. unfold count at 2. cbn. by destruct (P r).
Qed.

(** In every reachable world at most one prolong request is in flight, and
    it is the one [_prolongId] names.  A tick that returns has first
    cancelled the prolong request in flight, leaving none, and then sent
    one.  The timer that [show] starts on every panel ticks every
    [kProlongTimeout], sixty seconds. *)
Lemma prolong_in_flight_facts (w : World) :
  reachable w ->
  count is_prolong (pending w) ≤ 1
  ∧ (∀ id r, (id, r) ∈ pending w -> is_prolong r = true -> id = _prolongId (self w))
  ∧ (∀ w', step TimerTick w = Ok w' ->
       count is_prolong
         (pending (api_cancel (_prolongId (self w)) (upd (set_prolongId 0) w))) = 0
       ∧ count is_prolong (pending w') = 1
       ∧ count is_prolong (sent w') = S (count is_prolong (sent w)))
  ∧ (∀ queryId u t w', show queryId u t w = Ok w' ->
       ∃ p, _panel (self w') = Some p
            ∧ List.find is_timer (lifetime p) = Some (TimerEach kProlongTimeout queryId))
  ∧ kProlongTimeout = 60000%Z.
Proof.
  intros Hw%prolong_inv_reachable. split_and!.
  - apply Hw.
  - intros id r Hin Hpr. destruct Hw as (_ & _ & Hid & _). by apply (Hid (id, r)).
  - intros w' Hstep. cbn [step] in Hstep.
    destruct (_panel (self w)) as [p | ]; [ | done].
    destruct (List.find is_timer (lifetime p)) as [[ | interval queryId] | ]; try done.
    destruct (prolong_spec queryId w w' Hstep Hw) as ((peer & bot & ->) & Hzero & Hone & _).
    split_and!; [done | done | ].
    change (sent (upd ?f ?v)) with (sent v). rewrite count_sent_api_send.
    cbn [is_prolong]. change (sent (api_cancel _ (upd _ w))) with (sent w). lia.
  - intros queryId u t w' Hshow. unfold show, started in Hshow.
    destruct (_bot (self w)) as [b | ] eqn:Hb; [ | done].
    destruct (_peer (self w)) as [p | ] eqn:Hp; [ | done].
    cbn [upd self set_self set_ActiveWebViews _peer _bot _panel set_panel] in Hshow.
    rewrite Hb, Hp in Hshow. injection Hshow as <-.
    eexists. split; reflexivity.
  - reflexivity.
Qed.

(** ** What the open path sends *)

Lemma sends_nothing P w w' : sent w' = sent w -> sends P w w'.
Proof. intros Hs. exists []. rewrite app_nil_r. by split. Qed.

Lemma sends_one P r w w' :
  sent w' = sent (api_send r w) -> P r = true -> sends P w w'.
Proof.
  intros Hs Hr. exists [(next_id w, r)]. split; [exact Hs | by repeat constructor].
Qed.

Lemma sends_trans P w1 w2 w3 : sends P w1 w2 -> sends P w2 w3 -> sends P w1 w3.
Proof.
  intros (l & H1 & Hl) (k & H2 & Hk). exists (l ++ k). split.
  - by rewrite H2, H1, <- app_assoc.
  - by apply Forall_app.
Qed.

Lemma sends_count P Q w w' :
  sends P w w' -> (∀ r, P r = true -> Q r = false) ->
  count Q (sent w') = count Q (sent w).
Proof.
  intros (l & -> & Hl) HPQ. rewrite count_app.
  rewrite (count_zero Q l); [lia | ].
  intros p Hp. apply HPQ. by eapply Forall_forall in Hl.
Qed.

Lemma sends_run_done done w w' : run_done done w = Ok w' -> sends is_open w w'.
Proof.
  unfold run_done, request_button, requestSimple_button, requestMenu_confirmed.
  intros H. cbv zeta in H. crunch; by eapply sends_one.
Qed.

Lemma sends_confirmOpen c done w w' : confirmOpen c done w = Ok w' -> sends is_open w w'.
Proof.
  unfold confirmOpen. intros H. crunch; try by apply sends_nothing.
  all: by apply sends_run_done in H.
Qed.

Lemma sends_request c peer bot button w w' :
  request c peer bot button w = Ok w' -> sends is_open w w'.
Proof.
  unfold request. intros H. cbv zeta in H. crunch; try by apply sends_nothing.
  all: first [ apply sends_confirmOpen in H
             | apply (sends_run_done (DoRequest button)) in H ].
  all: (eapply sends_trans; [ | exact H]); by apply sends_nothing.
Qed.

Lemma sends_run_callback callback w w' :
  run_callback callback w = Ok w' -> sends is_open w w'.
Proof.
  unfold run_callback, bind, open. intros H.
  crunch; cbn [snd] in *; crunch; try by apply sends_nothing.
  match goal with H : request _ _ _ _ _ = Ok _ |- _ => apply sends_request in H end.
  eapply sends_trans; [eassumption | by apply sends_nothing].
Qed.

Lemma count_sent_requestBots P w :
  count P (sent (requestBots w))
  = count P (sent w)
    + (if decide (_botsRequestId (self w) = 0)
       then if P (MTPmessages_GetAttachMenuBots (_botsHash (self w))) then 1 else 0
       else 0).
Proof.
  unfold requestBots. cbv zeta. repeat case_decide; try done; try lia.
  change (sent (upd ?f ?v)) with (sent v). by rewrite count_sent_api_send.
Qed.

(** ** Toggling a bot in the attach menu *)

(** C7. When the toggle request succeeds, the handler calls [requestBots]
    once and then the caller's callback: one directory request is sent
    unless one is already in flight, and no toggle request.  When it fails,
    the handler is [cancel]: nothing is sent, the toggle is not retried. *)
Theorem toggleInMenu_done_refreshes_fail_cancels (id : mtpRequestId) (bot : UserId)
    (enabled : bool) (callback : ToggleCallback) (w : World) :
  lookup_request id w = Some (MTPmessages_ToggleBotInAttachMenu bot enabled callback) ->
  step (Done id MTPbool) w
  = run_callback callback (requestBots (upd (set_requestId 0) (complete id w)))
  ∧ (∀ w', step (Done id MTPbool) w = Ok w' ->
       count is_bots (sent w')
       = count is_bots (sent w) + (if decide (_botsRequestId (self w) = 0) then 1 else 0)
       ∧ count is_toggle (sent w') = count is_toggle (sent w))
  ∧ (∀ error,
       step (Fail id error) w = Ok (cancel (complete id w))
       ∧ sent (cancel (complete id w)) = sent w).
Proof.
  intros Hreq.
  assert (Hdone : step (Done id MTPbool) w
    = run_callback callback (requestBots (upd (set_requestId 0) (complete id w)))).
  { cbn [step]. by rewrite Hreq. }
  split_and!.
  - exact Hdone.
  - intros w' Hstep. rewrite Hdone in Hstep. apply sends_run_callback in Hstep.
    split.
    + rewrite (sends_count is_open is_bots _ _ Hstep) by (by intros []).
      by rewrite count_sent_requestBots.
    + rewrite (sends_count is_open is_toggle _ _ Hstep) by (by intros []).
      rewrite count_sent_requestBots. cbn [is_toggle].
      change (sent (upd _ (complete id w))) with (sent w). case_decide; lia.
  - intros error. cbn [step]. by rewrite Hreq.
Qed.

(** ** A rejected bot *)

(** C8. When [MTPmessages_RequestWebView] fails with [BOT_INVALID], whether
    it was sent by [request] or from the bot menu, the handler clears the
    handle and calls [requestBots] once: one directory request is sent unless
    one is already in flight, and no open request. *)
Theorem request_fail_BOT_INVALID_refreshes_without_retry (id : mtpRequestId)
    (flags : list Flag) (peer : PeerId) (bot : UserId) (u start_param t : string)
    (error : MTPError) (w : World) :
  lookup_request id w
  = Some (MTPmessages_RequestWebView flags peer bot u start_param t) ->
  type error = "BOT_INVALID"%string ->
  let w' := requestBots (upd (set_requestId 0) (complete id w)) in
  step (Fail id error) w = Ok w'
  ∧ count is_bots (sent w')
    = count is_bots (sent w) + (if decide (_botsRequestId (self w) = 0) then 1 else 0)
  ∧ count is_open (sent w') = count is_open (sent w)
  ∧ count is_open (pending w') ≤ count is_open (pending w)
  ∧ _requestId (self w') = 0.
Proof.
  intros Hreq Htype w'. split_and!.
  - cbn [step]. rewrite Hreq. cbn [on_fail]. unfold request_fail. cbv zeta.
    by rewrite (bool_decide_eq_true_2 _ Htype).
  - subst w'. by rewrite count_sent_requestBots.
  - subst w'. rewrite count_sent_requestBots. cbn [is_open].
    change (sent (upd _ (complete id w))) with (sent w). case_decide; lia.
  - subst w'. unfold requestBots. cbv zeta. case_decide.
    + apply count_filter_le.
    + change (pending (upd ?f (api_send ?r ?v))) with (pending v ++ [(next_id v, r)]).
      rewrite count_app.
      change (count is_open [(_, MTPmessages_GetAttachMenuBots _)]) with 0.
      change (pending (upd _ (complete id w))) with (pending (complete id w)).
      pose proof (count_filter_le is_open (λ p, p.1 ≠ id) (pending w)) as Hle.
      change (filter _ (pending w)) with (pending (complete id w)) in Hle. lia.
  - subst w'. unfold requestBots. cbv zeta. by case_decide.
Qed.

Lemma run_reachable es w w' : run es w = Ok w' -> reachable w -> reachable w'.
Proof.
  revert w. induction es as [ | e es IH]; intros w Hrun Hw; cbn in Hrun.
  - by injection Hrun as <-.
  - destruct (step e w) as [w1 | | ] eqn:Hstep; try done.
    apply (IH w1 Hrun). by eapply reachable_step.
Qed.

Lemma after_reachable es : reachable (after es).
Proof.
  unfold after. destruct (run es scenario) as [w | | ] eqn:Hrun;
    try apply reachable_start.
  eapply run_reachable; [exact Hrun | apply reachable_start].
Qed.

(** ** Opening again while the panel is shown *)

(** With the panel shown for the same peer and bot, [request] activates the
    panel and then goes on as for any other call. *)
Lemma request_same_pair_with_panel c peer bot btn p w :
  _peer (self w) = Some peer -> _bot (self w) = Some bot -> _panel (self w) = Some p ->
  request c peer bot btn w
  = let w := cancel (log RequestActivate w) in
    let w := upd (set_peer (Some peer)) (upd (set_bot (Some bot)) w) in
    match c with
    | Some c => confirmOpen c (DoRequest btn) w
    | None => request_button btn w
    end.
Proof.
  intros Hpeer Hbot Hpanel. unfold request. rewrite Hpeer, Hbot, Hpanel.
  by rewrite !bool_decide_eq_true_2.
Qed.

(** The overload that takes a username only activates the panel. *)
Lemma request_username_same_context_activates peer botUsername startCommand bot p w :
  botUsername ≠ ""%string ->
  _peer (self w) = Some peer -> _bot (self w) = Some bot -> _panel (self w) = Some p ->
  toLower (username (userData bot w)) = toLower botUsername ->
  _startCommand (self w) = startCommand ->
  request_username peer botUsername startCommand w = Ok (log RequestActivate w).
Proof.
  intros Hne Hpeer Hbot Hpanel Hname Hstart. unfold request_username, isEmpty.
  rewrite (bool_decide_eq_false_2 _ Hne), Hpeer, Hbot, Hpanel.
  by rewrite !bool_decide_eq_true_2.
Qed.

(** C1. In the scenario, bot 7 is opened in [chat] and the panel is shown.
    Opening bot 7 in [chat] again activates the panel, then cancels the
    session (the panel is destroyed and the object leaves [ActiveWebViews])
    and sends a second [MTPmessages_RequestWebView]. *)
Theorem request_again_while_live_cancels_and_reopens :
  let live := after [CallRequest None chat 7 button;
                     Done 1 (MTPwebViewResultUrl 55 "https://x.example/app")] in
  is_Some (_panel (self live))
  ∧ _peer (self live) = Some chat
  ∧ _bot (self live) = Some 7
  ∧ elements (ActiveWebViews live) = [this live]
  ∧ count is_open (sent live) = 1
  ∧ ∃ w', step (CallRequest None chat 7 button) live = Ok w'
          ∧ ui w' = [RequestActivate]
          ∧ _panel (self w') = None
          ∧ elements (ActiveWebViews w') = []
          ∧ count is_open (sent w') = 2
          ∧ pending w' = [(2, MTPmessages_RequestWebView [f_theme_params] chat 7
                                "" "" "Open")].
Proof.
  cbv zeta. split_and!; try (vm_compute; reflexivity).
  - eexists. vm_compute. reflexivity.
  - eexists. split_and!; vm_compute; reflexivity.
Qed.

(** ** The keepalive of a simple session *)

(** C2, as stated, fails: a session opened with [requestSimple] has query id
    zero, its panel carries the keepalive timer all the same, and a tick sends
    [MTPmessages_ProlongWebView] with query id zero. *)
Lemma simple_session_runs_keepalive :
  let live := after [CallRequestSimple 0 7 button;
                     Done 1 (MTPsimpleWebViewResultUrl "https://x.example/app")] in
  (lifetime <$> _panel (self live))
  = Some [WebViewResultSentFilter 0; TimerEach 60000 0]
  ∧ requests is_prolong (sent live) = []
  ∧ match step TimerTick live with
    | Ok w' => requests is_prolong (sent w')
               = [(2, MTPmessages_ProlongWebView [f_reply_to_msg_id; f_silent]
                        (asPeer 7) 7 0 0)]
    | _ => False
    end.
Proof. cbv zeta. split_and!; vm_compute; reflexivity. Qed.

(** Every panel that [show] creates carries the keepalive timer with the
    query id it was shown with, zero included; [requestSimple] shows its
    panel with query id zero.  The first tick of that timer sends one
    [MTPmessages_ProlongWebView] with that query id. *)
Lemma show_installs_the_keepalive (queryId : N) (u t : string)
    (w w' : World) :
  show queryId u t w = Ok w' ->
  requestSimple_done t (MTPsimpleWebViewResultUrl u) w
  = show 0 u t (upd (set_requestId 0) w)
  ∧ (∃ p, _panel (self w') = Some p
          ∧ lifetime p = [WebViewResultSentFilter queryId;
                          TimerEach kProlongTimeout queryId])
  ∧ ∃ peer bot w'',
      step TimerTick w' = Ok w''
      ∧ sent w'' = List.app (sent w')
                     [(next_id w', MTPmessages_ProlongWebView
                                     [f_reply_to_msg_id; f_silent] peer bot queryId
                                     (_replyToMsgId (self w')))]
      ∧ _prolongId (self w'') = next_id w'.
Proof.
  intros Hshow. split; [reflexivity | ].
  unfold show, started in Hshow.
  destruct (_bot (self w)) as [b | ] eqn:Hb; [ | done].
  destruct (_peer (self w)) as [p | ] eqn:Hp; [ | done].
  cbn [upd self set_self set_ActiveWebViews _peer _bot _panel set_panel] in Hshow.
  rewrite Hb, Hp in Hshow. injection Hshow as <-. split.
  - eexists. split; reflexivity.
  - exists p, b. eexists. cbn [step]. unfold prolong. cbv zeta.
    cbn [upd self set_self set_ActiveWebViews _peer _bot _panel set_panel
         api_cancel set_pending set_prolongId lifetime attach List.find is_timer app].
    rewrite Hb, Hp. split_and!; reflexivity.
Qed.

(** ** Two open requests in flight *)

Lemma lookup_request_none id w :
  (∀ p, p ∈ pending w -> p.1 ≠ id) -> lookup_request id w = None.
Proof.
  intros Hall. unfold lookup_request.
  destruct (List.find _ _) as [p | ] eqn:Hf; [exfalso | done].
  apply List.find_some in Hf as [Hin Heq]. apply bool_decide_eq_true in Heq.
  by apply (Hall p); [apply list_elem_of_In | ].
Qed.

Lemma pending_cancel_requestId w p :
  p ∈ pending (cancel w) -> _requestId (self w) ≠ 0 -> p.1 ≠ _requestId (self w).
Proof.
  intros Hp Hid. unfold cancel in Hp. cbv zeta in Hp.
  change (pending (upd ?f ?v)) with (pending v) in Hp.
  apply pending_api_cancel in Hp as [Hp _].
  change (pending (upd ?f ?v)) with (pending v) in Hp.
  apply pending_api_cancel in Hp as [_ [Hz | Hne]]; [ | exact Hne].
  by destruct Hid.
Qed.

Lemma pending_run_done done v w' p :
  run_done done v = Ok w' -> p ∈ pending w' -> p ∈ pending v ∨ p.1 = next_id v.
Proof.
  unfold run_done, request_button, requestSimple_button, requestMenu_confirmed.
  intros H Hp. destruct done; cbv zeta in H.
  all: repeat match type of H with
         | match ?x with _ => _ end = _ => destruct x; [ | discriminate H]
         end.
  all: injection H as <-.
  all: apply elem_of_app in Hp as [Hp | ->%list_elem_of_singleton];
         [by left | by right].
Qed.

Lemma pending_confirmOpen c done v w' p :
  confirmOpen c done v = Ok w' -> p ∈ pending w' -> p ∈ pending v ∨ p.1 = next_id v.
Proof.
  unfold confirmOpen. intros H Hp.
  destruct (_bot (self v)); [ | injection H as <-; by left].
  destruct (_ || _); [by eapply pending_run_done | ].
  injection H as <-. by left.
Qed.

(** When the new call names another peer or bot, [request] cancels the
    request the object holds before anything else. *)
Lemma request_cancels_what_it_holds c peer bot btn w w' :
  _peer (self w) ≠ Some peer ∨ _bot (self w) ≠ Some bot ->
  request c peer bot btn w = Ok w' ->
  _requestId (self w) ≠ 0 -> _requestId (self w) ≠ next_id w ->
  lookup_request (_requestId (self w)) w' = None.
Proof.
  intros Hdiff Hreq Hid Hfresh. apply lookup_request_none. intros p Hp.
  unfold request in Hreq. cbv zeta in Hreq.
  assert (Hnot : bool_decide (_peer (self w) = Some peer)
                 && bool_decide (_bot (self w) = Some bot) = false).
  { destruct Hdiff as [Hne | Hne]; rewrite (bool_decide_eq_false_2 _ Hne);
      [done | apply andb_false_r]. }
  rewrite Hnot in Hreq.
  assert (Hor : p ∈ pending (cancel w) ∨ p.1 = next_id w).
  { destruct c as [c | ].
    - exact (pending_confirmOpen _ _ _ _ _ Hreq Hp).
    - exact (pending_run_done (DoRequest btn) _ _ _ Hreq Hp). }
  destruct Hor as [Hin | Heq].
  - by apply pending_cancel_requestId.
  - intros Heq'. apply Hfresh. by rewrite <- Heq', Heq.
Qed.

(** C3. In the scenario, bot 7 is opened in [chat] and its request 1 is in
    flight.  Bot 8 is removed from the menu; when that toggle succeeds its
    handler zeroes [_requestId], though the handle it held was request 1.
    Opening bot 8 in [chat2] then cancels nothing: requests 1 and 4 are both
    in flight, and request 1 can still complete and show its panel. *)
Theorem toggle_done_leaks_the_open_request :
  let w := after [CallRequest None chat 7 button;
                  CallRemoveFromMenu 8;
                  Done 2 MTPbool;
                  CallRequest None chat2 8 button] in
  requests is_open (pending w)
  = [(1, MTPmessages_RequestWebView [f_theme_params] chat 7 "" "" "Open");
     (4, MTPmessages_RequestWebView [f_theme_params] chat2 8 "" "" "Open")]
  ∧ _requestId (self w) = 4
  ∧ ∃ w', step (Done 1 (MTPwebViewResultUrl 55 "https://x.example/app")) w = Ok w'
          ∧ (panel_url <$> _panel (self w')) = Some "https://x.example/app"%string
          ∧ _bot (self w') = Some 8
          ∧ _requestId (self w') = 0
          ∧ count is_open (pending w') = 1.
Proof.
  cbv zeta. split_and!; try (vm_compute; reflexivity).
  eexists. split_and!; vm_compute; reflexivity.
Qed.

(** A consent box outlives [cancel]: confirmed after another bot was opened,
    it trusts that other bot and sends a second open request. *)
Lemma stale_consent_box_sends_a_second_open :
  let w := after [CallRequest (Some 0) chat 8 button;
                  CallRequest None chat2 9 button;
                  BoxConfirmed 0] in
  requests is_open (pending w)
  = [(1, MTPmessages_RequestWebView [f_theme_params] chat2 9 "" "" "Open");
     (2, MTPmessages_RequestWebView [f_theme_params] chat2 9 "" "" "Open")]
  ∧ elements (trusted w) = [9; 7].
Proof. cbv zeta. split; vm_compute; reflexivity. Qed.

(** ** A consent box accepted after another bot was opened *)

(** C6. In the scenario, bot 8, neither verified nor trusted, is opened in
    [chat] from a window: the consent box naming it is shown and nothing is
    sent.  Bot 9 is then opened in [chat2] without a controller: no box is
    shown for it and it is not trusted.  Accepting the box that names bot 8
    records the trust for bot 9, which [_bot] holds at the click, and sends a
    second open request for bot 9; bot 8 stays untrusted. *)
Theorem accepted_box_trusts_the_bot_held_at_the_click :
  ∃ w1 w2 w3,
    run [CallRequest (Some 0) chat 8 button] scenario = Ok w1
    ∧ boxes w1 = [ConfirmOpenBox 0 (lng_allow_bot_webview (name ybot)) (DoRequest button)]
    ∧ sent w1 = []
    ∧ isBotTrustedOpenWebView 8 w1 = false
    ∧ step (CallRequest None chat2 9 button) w1 = Ok w2
    ∧ boxes w2 = boxes w1
    ∧ _bot (self w2) = Some 9
    ∧ isVerified (userData 9 w2) = false
    ∧ isBotTrustedOpenWebView 9 w2 = false
    ∧ step (BoxConfirmed 0) w2 = Ok w3
    ∧ isBotTrustedOpenWebView 9 w3 = true
    ∧ isBotTrustedOpenWebView 8 w3 = false
    ∧ boxes w3 = []
    ∧ requests is_open (sent w3)
      = [(1, MTPmessages_RequestWebView [f_theme_params] chat2 9 "" "" "Open");
         (2, MTPmessages_RequestWebView [f_theme_params] chat2 9 "" "" "Open")].
Proof.
  exists (after [CallRequest (Some 0) chat 8 button]),
         (after [CallRequest (Some 0) chat 8 button; CallRequest None chat2 9 button]),
         (after [CallRequest (Some 0) chat 8 button; CallRequest None chat2 9 button;
                 BoxConfirmed 0]).
  split_and!; vm_compute; reflexivity.
Qed.

(** ** The theorems at work in the scenario *)

Example two_ticks_leave_one_prolong :
  let w := after [CallRequest None chat 7 button;
                  Done 1 (MTPwebViewResultUrl 55 "https://x.example/app");
                  TimerTick; TimerTick] in
  pending w = [(3, MTPmessages_ProlongWebView [f_reply_to_msg_id; f_silent] chat 7 55 0)]
  ∧ count is_prolong (sent w) = 2.
Proof. cbv zeta. split; vm_compute; reflexivity. Qed.

Lemma confirmOpen_prompts_unless_trusted_witness :
  let w := after [CallRequest (Some 0) chat 8 button] in
  _bot (self w) = Some 8
  ∧ confirmOpen 0 (DoRequest button) w
    = Ok (set_boxes
            (boxes w ++ [ConfirmOpenBox 0 (lng_allow_bot_webview (name (userData 8 w)))
                           (DoRequest button)]) w).
Proof.
  cbv zeta.
  assert (Hbot : _bot (self (after [CallRequest (Some 0) chat 8 button])) = Some 8)
    by (vm_compute; reflexivity).
  split; [exact Hbot | ].
  apply (confirmOpen_prompts_unless_trusted 0 (DoRequest button) 8 _ Hbot).
  - vm_compute. reflexivity.
  - eapply (bool_decide_eq_false_1 _). vm_compute. reflexivity.
Defined.

Example consent_box_names_the_bot :
  boxes (after [CallRequest (Some 0) chat 8 button])
  = [ConfirmOpenBox 0 (lng_allow_bot_webview "Y Bot") (DoRequest button)]
  ∧ sent (after [CallRequest (Some 0) chat 8 button]) = []
  ∧ sent (after [CallRequest (Some 0) chat 8 button; BoxClosed 0]) = []
  ∧ elements (trusted (after [CallRequest (Some 0) chat 8 button; BoxClosed 0])) = [7]
  ∧ elements (trusted (after [CallRequest (Some 0) chat 8 button; BoxConfirmed 0]))
    = [8; 7]
  ∧ count is_open (sent (after [CallRequest (Some 0) chat 8 button; BoxConfirmed 0])) = 1
  ∧ boxes (after [CallRequest (Some 0) chat 7 button]) = []
  ∧ count is_open (sent (after [CallRequest (Some 0) chat 7 button])) = 1.
Proof. split_and!; vm_compute; reflexivity. Qed.

Lemma toggleInMenu_done_refreshes_fail_cancels_witness :
  let w := after [CallRemoveFromMenu 8] in
  lookup_request 1 w = Some (MTPmessages_ToggleBotInAttachMenu 8 false RemovedToast)
  ∧ step (Done 1 MTPbool) w
    = run_callback RemovedToast (requestBots (upd (set_requestId 0) (complete 1 w))).
Proof.
  cbv zeta.
  assert (Hreq : lookup_request 1 (after [CallRemoveFromMenu 8])
                 = Some (MTPmessages_ToggleBotInAttachMenu 8 false RemovedToast))
    by (vm_compute; reflexivity).
  split; [exact Hreq | ].
  apply (toggleInMenu_done_refreshes_fail_cancels 1 8 false RemovedToast _ Hreq).
Defined.

Example toggle_then_refresh :
  requests is_bots (sent (after [CallRemoveFromMenu 8; Done 1 MTPbool]))
  = [(2, MTPmessages_GetAttachMenuBots 0)]
  ∧ ui (after [CallRemoveFromMenu 8; Done 1 MTPbool])
    = [ShowMultilineToast lng_bot_remove_from_menu_done]
  ∧ count is_toggle (sent (after [CallRemoveFromMenu 8; Done 1 MTPbool])) = 1
  ∧ count is_toggle
      (sent (after [CallRemoveFromMenu 8; Fail 1 {| code := 400; type := "X" |}])) = 1
  ∧ count is_bots
      (sent (after [CallRemoveFromMenu 8; Fail 1 {| code := 400; type := "X" |}])) = 0.
Proof. split_and!; vm_compute; reflexivity. Qed.

Lemma request_fail_BOT_INVALID_refreshes_without_retry_witness :
  let w := after [CallRequest None chat 7 button] in
  let error := {| code := 400; type := "BOT_INVALID" |} in
  lookup_request 1 w
  = Some (MTPmessages_RequestWebView [f_theme_params] chat 7 "" "" "Open")
  ∧ type error = "BOT_INVALID"%string
  ∧ step (Fail 1 error) w = Ok (requestBots (upd (set_requestId 0) (complete 1 w))).
Proof.
  cbv zeta.
  assert (Hreq : lookup_request 1 (after [CallRequest None chat 7 button])
                 = Some (MTPmessages_RequestWebView [f_theme_params] chat 7 "" "" "Open"))
    by (vm_compute; reflexivity).
  split_and!; [exact Hreq | reflexivity | ].
  apply (request_fail_BOT_INVALID_refreshes_without_retry 1 _ _ _ _ _ _
           {| code := 400; type := "BOT_INVALID" |} _ Hreq eq_refl).
Defined.

Example bot_invalid_in_both_variants :
  requests (λ _, true)
    (sent (after [CallRequest None chat 7 button;
                  Fail 1 {| code := 400; type := "BOT_INVALID" |}]))
  = [(1, MTPmessages_RequestWebView [f_theme_params] chat 7 "" "" "Open");
     (2, MTPmessages_GetAttachMenuBots 0)]
  ∧ requests (λ _, true)
      (sent (after [CallRequestMenu 0 7;
                    Fail 1 {| code := 400; type := "BOT_INVALID" |}]))
    = [(1, MTPmessages_RequestWebView [f_theme_params; f_url; f_from_bot_menu]
             (asPeer 7) 7 "https://x.example/menu" "" "Menu");
       (2, MTPmessages_GetAttachMenuBots 0)]
  ∧ requests (λ _, true)
      (sent (after [CallRequest None chat 7 button;
                    Fail 1 {| code := 500; type := "TIMEOUT" |}]))
    = [(1, MTPmessages_RequestWebView [f_theme_params] chat 7 "" "" "Open")].
Proof. split_and!; vm_compute; reflexivity. Qed.

Example directory_snapshot_replaces_the_bots :
  let snapshot :=
    MTPattachMenuBots 5
      [ {| vbot_id := 7; vshort_name := "X"%string; is_inactive := false;
           vicons := [ {| vname := "default_static"; vicon := 41 |} ] |};
        {| vbot_id := 8; vshort_name := "Y"%string; is_inactive := true; vicons := [] |} ]
      [] in
  count is_bots (sent (after [CallRequestBots; CallRequestBots])) = 1
  ∧ _attachBots (self (after [CallRequestBots; Done 1 snapshot]))
    = [ {| user := 7; icon := Some 41; media := Some 41; short_name := "X"%string;
           inactive := false |} ]
  ∧ _botsHash (self (after [CallRequestBots; Done 1 snapshot])) = 5%N
  ∧ ui (after [CallRequestBots; Done 1 snapshot]) = [AttachBotsUpdates]
  ∧ _attachBots (self (after [CallRequestBots; Done 1 snapshot; CallRequestBots;
                              Done 2 MTPattachMenuBotsNotModified]))
    = _attachBots (self (after [CallRequestBots; Done 1 snapshot]))
  ∧ ui (after [CallRequestBots; Done 1 snapshot; CallRequestBots;
               Fail 2 {| code := 500; type := "TIMEOUT" |}])
    = [AttachBotsUpdates].
Proof. cbv zeta. split_and!; vm_compute; reflexivity. Qed.

Example data_is_sent_from_a_simple_session_only :
  let simple := [CallRequestSimple 0 7 button;
                 Done 1 (MTPsimpleWebViewResultUrl "https://x.example/app")] in
  let general := [CallRequest None chat 7 button;
                  Done 1 (MTPwebViewResultUrl 55 "https://x.example/app")] in
  requests is_sendData (sent (after (simple ++ [PanelSendData "data" 99])))
  = [(2, MTPmessages_SendWebViewData 7 99 "Open" "data")]
  ∧ _panel (self (after (simple ++ [PanelSendData "data" 99]))) = None
  ∧ requests is_sendData (sent (after (general ++ [PanelSendData "data" 99]))) = []
  ∧ is_Some (_panel (self (after (general ++ [PanelSendData "data" 99])))).
Proof.
  cbv zeta. split_and!; try (vm_compute; reflexivity).
  eexists. vm_compute. reflexivity.
Qed.

(** * More of the class

    The rest of this file covers what the methods of [AttachWebView] do
    besides the properties above. *)

(** ** More of the source *)

(** [!bot->isBot() || !bot->botInfo->supportsAttachMenu], negated. *)
Definition supportsMenu (bot : UserId) (w : World) : bool :=
  isBot (userData bot w)
  && match botInfo (userData bot w) with
     | Some i => supportsAttachMenu i
     | None => false
     end.

(** The world in which the success handler of the registration query looks
    at the response. *)
Definition addToMenu_taken (w : World) : World :=
  upd (set_addToMenuStartCommand "")
    (upd (set_addToMenuPeer None)
       (upd (set_addToMenuBot None) (upd (set_addToMenuId 0) w))).

(** [const auto username = _bot ? _bot->username : _botUsername]. *)
Definition current_username (w : World) : string :=
  match _bot (self w) with
  | Some b => username (userData b w)
  | None => _botUsername (self w)
  end.

(** The world in which [request(peer, botUsername, startCommand)] calls
    [resolve]. *)
Definition resolving (peer : PeerId) (botUsername startCommand : string) (w : World)
  : World :=
  upd (set_startCommand startCommand)
    (upd (set_botUsername botUsername) (upd (set_peer (Some peer)) (cancel w))).

(** The world that [show] leaves. *)
Definition shown (queryId : N) (u t : string) (bot : UserId) (w : World) : World :=
  upd (set_panel
         (Some {| panel_url := u; panel_title := bot;
                  panel_bottom := String "@" (username (userData bot w));
                  sendData_queryId := queryId; sendData_buttonText := t;
                  lifetime := [WebViewResultSentFilter queryId;
                               TimerEach kProlongTimeout queryId] |}))
    (set_ActiveWebViews ({[this w]} ∪ ActiveWebViews w) w).

(** The world that the closure of the timer leaves. *)
Definition prolonged (queryId : N) (peer : PeerId) (bot : UserId) (w : World) : World :=
  upd (set_prolongId (next_id w))
    (api_send (MTPmessages_ProlongWebView [f_reply_to_msg_id; f_silent] peer bot
                 queryId (_replyToMsgId (self w)))
       (api_cancel (_prolongId (self w)) (upd (set_prolongId 0) w))).

(** What the loop of [requestBots] keeps of one bot of the snapshot. *)
Definition kept (w : World) (bot : MTPattachMenuBot) : option AttachWebViewBot :=
  match ParseAttachBot bot w with
  | Some parsed => if inactive parsed then None else Some (with_media parsed)
  | None => None
  end.

(** The label of a fixed action of the menu. *)
Inductive MenuText :=
| lng_attach_photo_or_video
| lng_attach_document.

(** An action that [refresh] adds to the menu: a fixed one, which calls
    [attach] with the given argument, or the [BotAction] of a bot. *)
Inductive MenuAction :=
| AttachAction (t : MenuText) (arg : bool)
| BotActionFor (bot : AttachWebViewBot).

(** The lambda [refresh] of [MakeAttachBotsMenu], over [bots->attachBots()]. *)
Definition refresh (w : World) : list MenuAction :=
  [AttachAction lng_attach_photo_or_video true;
   AttachAction lng_attach_document false]
  ++ (BotActionFor <$> _attachBots (self w)).

(** The [callback] of a bot's action; [active] is the peer of the history of
    [controller->activeChatCurrent()], when it has one. *)
Definition callback (active : option PeerId) (bot : AttachWebViewBot) (w : World)
  : Outcome :=
  match active with
  | Some peer =>
    request None peer (user bot) {| text := ""; startCommand := ""; url := "" |} w
  | None => Ok w
  end.

(** [BotAction], the menu item of a bot. *)
Module BotAction.

(** [std::clamp(v, lo, hi)], which is [(v < lo) ? lo : (hi < v) ? hi : v]. *)
Definition clamp (v lo hi : Z) : Z :=
  if (v <? lo)%Z then lo else if (hi <? v)%Z then hi else v.

(** The metrics of [style::Menu] that [prepare] reads; they are [int]s. *)
Record Menu := {
  itemPadding_left : Z;
  itemPadding_right : Z;
  widthMin : Z;
  widthMax : Z }.

(** What [prepare] leaves: [_textWidth] and the argument of [setMinWidth]. *)
Record Prepared := {
  _textWidth : Z;
  minWidth : Z }.

(** [maxWidth] is [_text.maxWidth()] of the bot's name. *)
Definition prepare (_st : Menu) (maxWidth : Z) : Prepared :=
  let textWidth := maxWidth in
  let goodWidth := (itemPadding_left _st + textWidth + itemPadding_right _st)%Z in
  let w := clamp goodWidth (widthMin _st) (widthMax _st) in
  {| _textWidth := (w - (goodWidth - textWidth))%Z; minWidth := w |}.

(** The values of an [int]. *)
Definition is_int (z : Z) : Prop := (- 2 ^ 31 ≤ z < 2 ^ 31)%Z.

End BotAction.

(** ** Primitive transitions

    Every method is a sequence of a few kinds of updates.  [prim w w'] is one
    of them; the fields that no invariant below reads (peer, bot, username,
    start commands, hash, user data, trust store, boxes, log, queue) may
    change freely in a [prim_field] transition. *)

Definition is_addToMenu (r : Request) : bool :=
  match r with MTPmessages_GetAttachMenuBot _ => true | _ => false end.

Definition is_resolve (r : Request) : bool :=
  match r with MTPcontacts_ResolveUsername _ => true | _ => false end.

(** A panel as [show] and [started] leave it: one filter and one timer, both
    for the query id that [sendData] captured. *)
Definition panel_wf (p : Panel) : Prop :=
  lifetime p = [WebViewResultSentFilter (sendData_queryId p);
                TimerEach kProlongTimeout (sendData_queryId p)].

(** A bot as [requestBots] stores it. *)
Definition bot_ok (b : AttachWebViewBot) : Prop :=
  inactive b = false ∧ media b = icon b.

(** The fields that the invariants read. *)
Definition kshape (w : World) :=
  (next_id w, pending w, sent w,
   (_requestId (self w), _prolongId (self w), _botsRequestId (self w),
    _addToMenuId (self w), _addToMenuBot (self w)),
   (this w, ActiveWebViews w, _panel (self w)), _attachBots (self w)).

Inductive prim : World -> World -> Prop :=
| prim_field w w' : kshape w' = kshape w -> prim w w'
| prim_send r w :
    is_bots r = false -> is_addToMenu r = false -> is_open r = false ->
    is_resolve r = false -> is_prolong r = false ->
    prim w (api_send r w)
| prim_send_request r w :
    is_open r || is_resolve r = true ->
    prim w (upd (set_requestId (next_id w)) (api_send r w))
| prim_send_prolong r w :
    is_prolong r = true ->
    prim w (upd (set_prolongId (next_id w)) (api_send r w))
| prim_send_bots h w :
    _botsRequestId (self w) = 0 ->
    prim w (upd (set_botsRequestId (next_id w))
              (api_send (MTPmessages_GetAttachMenuBots h) w))
| prim_send_addToMenu b w :
    _addToMenuId (self w) = 0 ->
    prim w (upd (set_addToMenuId (next_id w))
              (api_send (MTPmessages_GetAttachMenuBot b)
                 (upd (set_addToMenuBot (Some b)) w)))
| prim_take_request w :
    prim w (api_cancel (_requestId (self w)) (upd (set_requestId 0) w))
| prim_take_prolong w :
    prim w (api_cancel (_prolongId (self w)) (upd (set_prolongId 0) w))
| prim_take_addToMenu w :
    prim w (api_cancel (_addToMenuId (self w)) (upd (set_addToMenuId 0) w))
| prim_zero_request w : prim w (upd (set_requestId 0) w)
| prim_zero_prolong w : prim w (upd (set_prolongId 0) w)
| prim_complete id r w :
    lookup_request id w = Some r -> is_bots r = false -> is_addToMenu r = false ->
    prim w (complete id w)
| prim_complete_bots id h w :
    lookup_request id w = Some (MTPmessages_GetAttachMenuBots h) ->
    prim w (upd (set_botsRequestId 0) (complete id w))
| prim_complete_addToMenu id b w :
    lookup_request id w = Some (MTPmessages_GetAttachMenuBot b) ->
    prim w (upd (set_addToMenuBot None) (upd (set_addToMenuId 0) (complete id w)))
| prim_attachBots l w : Forall bot_ok l -> prim w (upd (set_attachBots l) w)
| prim_hide w :
    prim w (upd (set_panel None) (set_ActiveWebViews (ActiveWebViews w ∖ {[this w]}) w))
| prim_show p w :
    panel_wf p ->
    prim w (upd (set_panel (Some p))
              (set_ActiveWebViews ({[this w]} ∪ ActiveWebViews w) w)).

(** A sequence of primitive transitions. *)
Definition steps : World -> World -> Prop := rtc prim.

(** Handles are fresh and distinct; [_requestId] names an open or resolve
    request and [_prolongId] a prolong request, if they name one in flight;
    the directory and registration requests in flight are exactly the ones
    that [_botsRequestId] and [_addToMenuId] name. *)
Record api_wf (w : World) : Prop := {
  wf_ids : ∀ p, p ∈ pending w -> 0 < p.1 < next_id w;
  wf_nodup : NoDup (pending w).*1;
  wf_handles :
    0 < next_id w
    ∧ _requestId (self w) < next_id w ∧ _prolongId (self w) < next_id w
    ∧ _botsRequestId (self w) < next_id w ∧ _addToMenuId (self w) < next_id w;
  wf_request :
    ∀ p, p ∈ pending w -> p.1 = _requestId (self w) ->
         is_open p.2 || is_resolve p.2 = true;
  wf_prolong :
    ∀ p, p ∈ pending w -> p.1 = _prolongId (self w) -> is_prolong p.2 = true;
  wf_bots :
    ∀ p, p ∈ pending w -> is_bots p.2 = true -> p.1 = _botsRequestId (self w);
  wf_bots_live :
    _botsRequestId (self w) ≠ 0 ->
    ∃ h, (_botsRequestId (self w), MTPmessages_GetAttachMenuBots h) ∈ pending w;
  wf_addToMenu :
    ∀ id b, (id, MTPmessages_GetAttachMenuBot b) ∈ pending w ->
            id = _addToMenuId (self w) ∧ _addToMenuBot (self w) = Some b;
  wf_addToMenu_live :
    _addToMenuId (self w) ≠ 0 ->
    ∃ b, (_addToMenuId (self w), MTPmessages_GetAttachMenuBot b) ∈ pending w }.

(** What [api_wf] reads of a world. *)
Definition ashape (w : World) :=
  (next_id w, pending w,
   (_requestId (self w), _prolongId (self w), _botsRequestId (self w),
    _addToMenuId (self w), _addToMenuBot (self w))).

(** The object is registered in [ActiveWebViews] exactly while its panel is
    shown, and the panel carries the subscriptions of [started]. *)
Definition panel_inv (w : World) : Prop :=
  (this w ∈ ActiveWebViews w ↔ is_Some (_panel (self w)))
  ∧ (∀ p, _panel (self w) = Some p -> panel_wf p).

Definition bots_inv (w : World) : Prop := Forall bot_ok (_attachBots (self w)).

(** The four fields of the registration query. *)
Definition addToMenu_state (w : World) :=
  (_addToMenuId (self w), _addToMenuBot (self w), _addToMenuPeer (self w),
   _addToMenuStartCommand (self w)).

(** ** The methods as sequences of primitive transitions *)

Lemma steps_refl w : steps w w.
Proof. apply rtc_refl. Qed.

Lemma steps_trans w1 w2 w3 : steps w1 w2 -> steps w2 w3 -> steps w1 w3.
Proof. apply rtc_trans. Qed.

Lemma steps_r w1 w2 w3 : steps w1 w2 -> prim w2 w3 -> steps w1 w3.
Proof. intros H12 H23. eapply rtc_r; eassumption. Qed.

(** [cancel] hides the panel, then gives up the two handles. *)
Lemma steps_cancel w : steps w (cancel w).
Proof.
  set (w1 := upd (set_panel None)
               (set_ActiveWebViews (ActiveWebViews w ∖ {[this w]}) w)).
  set (w2 := api_cancel (_requestId (self w1)) (upd (set_requestId 0) w1)).
  set (w3 := api_cancel (_prolongId (self w2)) (upd (set_prolongId 0) w2)).
  apply (steps_r w w3).
  - apply (steps_r w w2); [ | apply prim_take_prolong].
    apply (steps_r w w1); [ | apply prim_take_request].
    apply (steps_r w w); [apply steps_refl | apply prim_hide].
  - apply prim_field. reflexivity.
Qed.

Lemma Forall_push_parsed w bots acc :
  Forall bot_ok acc -> Forall bot_ok (foldl (push_parsed w) acc bots).
Proof.
  revert acc. induction bots as [ | bot bots IH]; intros acc Hacc; [done | ].
  cbn [foldl]. apply IH. unfold push_parsed.
  destruct (ParseAttachBot bot w) as [parsed | ]; [ | done].
  destruct (inactive parsed) eqn:Hin; [done | ].
  apply Forall_app. split; [done | ]. by repeat constructor.
Qed.

(** Peel the outermost update off the world reached. *)
Ltac peel :=
  lazymatch goal with
  | |- steps ?w ?w => apply steps_refl
  | |- steps _ (cancel ?v) => apply (steps_trans _ v); [ | apply steps_cancel]
  | |- steps _ (upd (set_requestId _) (api_send ?r ?v)) =>
    apply (steps_r _ v); [ | apply (prim_send_request r v); reflexivity]
  | |- steps _ (upd (set_prolongId _) (api_send ?r ?v)) =>
    apply (steps_r _ v); [ | apply (prim_send_prolong r v); reflexivity]
  | |- steps _ (api_cancel _ (upd (set_requestId 0) ?v)) =>
    apply (steps_r _ v); [ | apply (prim_take_request v)]
  | |- steps _ (api_cancel _ (upd (set_prolongId 0) ?v)) =>
    apply (steps_r _ v); [ | apply (prim_take_prolong v)]
  | |- steps _ (upd (set_requestId 0) ?v) =>
    apply (steps_r _ v); [ | apply (prim_zero_request v)]
  | |- steps _ (upd (set_prolongId 0) ?v) =>
    apply (steps_r _ v); [ | apply (prim_zero_prolong v)]
  | |- steps _ (upd (set_addToMenuBot None) (upd (set_addToMenuId 0) (complete ?id ?v))) =>
    apply (steps_r _ v); [ | eapply prim_complete_addToMenu; eassumption]
  | |- steps _ (upd (set_botsRequestId 0) (complete ?id ?v)) =>
    apply (steps_r _ v); [ | eapply prim_complete_bots; eassumption]
  | |- steps _ (complete ?id ?v) =>
    apply (steps_r _ v);
    [ | eapply prim_complete; [eassumption | reflexivity | reflexivity] ]
  | |- steps _ (upd (set_attachBots ?l) ?v) =>
    apply (steps_r _ v);
    [ | apply prim_attachBots; first [apply Forall_nil_2 | apply Forall_push_parsed; apply Forall_nil_2] ]
  | |- steps _ (api_send ?r ?v) =>
    apply (steps_r _ v); [ | apply (prim_send r v); reflexivity]
  | |- steps _ (?f ?a ?b ?c ?v) =>
    apply (steps_r _ v); [ | apply prim_field; reflexivity]
  | |- steps _ (?f ?a ?b ?v) =>
    apply (steps_r _ v); [ | apply prim_field; reflexivity]
  | |- steps _ (?f ?a ?v) =>
    apply (steps_r _ v); [ | apply prim_field; reflexivity]
  | |- steps _ (?f ?v) =>
    apply (steps_r _ v); [ | apply prim_field; reflexivity]
  end.

(** [peel] to the end, through callees [l1] and [l2] that returned [Ok]. *)
Ltac peels l1 l2 :=
  repeat first
    [ match goal with
      | H : _ = Ok ?w' |- steps _ ?w' =>
        eapply steps_trans; [ | first [eapply l1; exact H | eapply l2; exact H] ]
      end
    | peel ].

Lemma steps_requestBots w : steps w (requestBots w).
Proof.
  unfold requestBots. cbv zeta. case_decide as Hid; [apply steps_refl | ].
  apply (steps_r w w); [apply steps_refl | ].
  apply prim_send_bots. by destruct (decide (_botsRequestId (self w) = 0)).
Qed.

Lemma steps_show queryId u t w w' : show queryId u t w = Ok w' -> steps w w'.
Proof.
  unfold show, started. intros H.
  destruct (_bot (self w)) as [b | ] eqn:Hb; [ | done].
  destruct (_peer (self w)) as [p | ] eqn:Hp; [ | done].
  cbn [upd self set_self set_ActiveWebViews _peer _bot _panel set_panel] in H.
  rewrite Hb, Hp in H. injection H as <-.
  apply (steps_r w w); [apply steps_refl | ].
  match goal with |- prim _ (upd (set_panel (Some ?p)) _) =>
    apply (prim_show p w) end.
  reflexivity.
Qed.

Lemma steps_run_done done w w' : run_done done w = Ok w' -> steps w w'.
Proof.
  unfold run_done, request_button, requestSimple_button, requestMenu_confirmed.
  intros H. cbv zeta in H. crunch; peels I I.
Qed.

Lemma steps_confirmOpen c done w w' : confirmOpen c done w = Ok w' -> steps w w'.
Proof. unfold confirmOpen. intros H. cbv zeta in H. crunch; peels steps_run_done I. Qed.

Lemma steps_confirmOpen_callback c done w w' :
  confirmOpen_callback c done w = Ok w' -> steps w w'.
Proof.
  unfold confirmOpen_callback. intros H. cbv zeta in H.
  crunch; peels steps_run_done I.
Qed.

Lemma steps_request c peer bot button w w' :
  request c peer bot button w = Ok w' -> steps w w'.
Proof.
  unfold request. intros H. cbv zeta in H.
  crunch; peels steps_confirmOpen (steps_run_done (DoRequest button)).
Qed.

Lemma steps_requestSimple c bot button w w' :
  requestSimple c bot button w = Ok w' -> steps w w'.
Proof. unfold requestSimple. intros H. cbv zeta in H. peels steps_confirmOpen I. Qed.

Lemma steps_requestMenu c bot w w' : requestMenu c bot w = Ok w' -> steps w w'.
Proof.
  unfold requestMenu. intros H. cbv zeta in H. crunch. peels steps_confirmOpen I.
Qed.

Lemma steps_open c w w' : (open c w).2 = Ok w' -> steps w w'.
Proof.
  unfold open. intros H. repeat case_match; cbn [snd] in H; crunch;
    peels steps_request I.
Qed.

Lemma steps_run_callback callback w w' : run_callback callback w = Ok w' -> steps w w'.
Proof. unfold run_callback, bind. intros H. crunch; peels steps_open I. Qed.

Lemma steps_requestAddToMenu peer bot startCommand w :
  steps w (requestAddToMenu peer bot startCommand w).
Proof.
  unfold requestAddToMenu.
  match goal with |- context [negb ?b] => destruct b end; cbn [negb];
    [ | peels I I].
  set (w1 := upd (set_addToMenuPeer peer) (upd (set_addToMenuStartCommand startCommand) w)).
  assert (Hw1 : steps w w1) by (subst w1; peels I I).
  assert (Hsend : ∀ v, _addToMenuId (self v) = 0 -> steps w v ->
    steps w (upd (set_addToMenuId (next_id (upd (set_addToMenuBot (Some bot)) v)))
               (api_send (MTPmessages_GetAttachMenuBot bot)
                  (upd (set_addToMenuBot (Some bot)) v)))).
  { intros v Hz Hv. apply (steps_r w v); [done | ]. exact (prim_send_addToMenu bot v Hz). }
  cbv zeta. case_decide as Hid; [case_match | ].
  - done.
  - apply Hsend; [reflexivity | ].
    apply (steps_r w w1); [done | apply prim_take_addToMenu].
  - apply Hsend; [ | done].
    by destruct (decide (_addToMenuId (self w1) = 0)).
Qed.

Lemma steps_confirmAddToMenu bot callback w : steps w (confirmAddToMenu bot callback w).
Proof. unfold confirmAddToMenu. cbv zeta. crunch; peels I I. Qed.

Lemma steps_resolve_done bot w : steps w (resolve_done bot w).
Proof.
  unfold resolve_done. cbv zeta. crunch; [ | peels I I].
  eapply steps_trans; [ | apply steps_requestAddToMenu]. peels I I.
Qed.

(** As [peels], with the methods that always return. *)
Ltac peels' l1 l2 :=
  repeat first
    [ match goal with
      | |- steps _ (requestBots ?v) =>
        apply (steps_trans _ v); [ | apply steps_requestBots]
      | |- steps _ (requestAddToMenu _ _ _ ?v) =>
        apply (steps_trans _ v); [ | apply steps_requestAddToMenu]
      | |- steps _ (confirmAddToMenu _ _ ?v) =>
        apply (steps_trans _ v); [ | apply steps_confirmAddToMenu]
      | |- steps _ (resolve_done _ ?v) =>
        apply (steps_trans _ v); [ | apply steps_resolve_done]
      | H : _ = Ok ?w' |- steps _ ?w' =>
        eapply steps_trans; [ | first [eapply l1; exact H | eapply l2; exact H] ]
      end
    | peel ].

Lemma steps_resolveUsername uname w w' : resolveUsername uname w = Ok w' -> steps w w'.
Proof. unfold resolveUsername. intros H. cbv zeta in H. crunch; peels' I I. Qed.

Lemma steps_request_username peer botUsername startCommand w w' :
  request_username peer botUsername startCommand w = Ok w' -> steps w w'.
Proof.
  unfold request_username, resolve. intros H. cbv zeta in H.
  crunch; peels' steps_resolveUsername I.
Qed.

Lemma steps_sendData queryId buttonText data randomId w w' :
  sendData queryId buttonText data randomId w = Ok w' -> steps w w'.
Proof. unfold sendData. intros H. crunch; peels' I I. Qed.

Lemma steps_prolong queryId w w' : prolong queryId w = Ok w' -> steps w w'.
Proof. unfold prolong. intros H. cbv zeta in H. crunch. peels' I I. Qed.

Lemma steps_on_fail id r error w :
  lookup_request id w = Some r -> steps w (on_fail r error (complete id w)).
Proof.
  intros Hr. destruct r; cbn [on_fail].
  all: unfold request_fail, requestSimple_fail, resolveUsername_fail, requestBots_fail,
         requestAddToMenu_fail, toggleInMenu_fail; cbv zeta.
  all: try case_match; peels' I I.
Qed.

Lemma steps_on_done id r result w w' :
  lookup_request id w = Some r ->
  on_done r result (complete id w) = Ok w' -> steps w w'.
Proof.
  intros Hr H. destruct r; cbn [on_done] in H.
  - unfold request_done in H. cbv zeta in H. crunch. peels' steps_show I.
  - unfold requestSimple_done in H. cbv zeta in H. crunch. peels' steps_show I.
  - unfold resolveUsername_done in H. cbv zeta in H. crunch; peels' I I.
  - unfold requestBots_done in H. cbv zeta in H. crunch; peels' I I.
  - unfold requestAddToMenu_done, bind in H. cbv zeta in H.
    crunch; peels' steps_open I.
  - unfold toggleInMenu_done in H. cbv zeta in H. crunch.
    peels' steps_run_callback I.
  - crunch. unfold prolong_done. peels' I I.
  - crunch. peels' I I.
Qed.

(** Every event is a sequence of primitive transitions. *)
Lemma steps_step e w w' : step e w = Ok w' -> steps w w'.
Proof.
  destruct e; cbn [step]; intros H.
  - peels' steps_request_username I.
  - peels' steps_request I.
  - peels' steps_requestSimple I.
  - peels' steps_requestMenu I.
  - crunch. peels' I I.
  - crunch. peels' I I.
  - crunch. peels' I I.
  - crunch. unfold removeFromMenu, toggleInMenu. peels' I I.
  - crunch. by eapply steps_on_done.
  - crunch. by eapply steps_on_fail.
  - crunch.
    + peels' steps_confirmOpen_callback I.
    + unfold confirmAddToMenu_done, toggleInMenu. peels' I I.
  - crunch. peels' I I.
  - crunch. peels' steps_prolong I.
  - crunch. peels' steps_sendData I.
  - crunch. unfold close. peels' I I.
  - crunch. peels' I I.
  - crunch; peels' I I.
  - crunch. peels' I I.
Qed.

(** ** Handles and the requests they name *)

Lemma pending_unique (l : list (nat * Request)) id r1 r2 :
  NoDup l.*1 -> (id, r1) ∈ l -> (id, r2) ∈ l -> r1 = r2.
Proof.
  induction l as [ | [i r] l IH]; cbn; intros Hnd H1 H2.
  - by apply elem_of_nil in H1.
  - apply NoDup_cons in Hnd as [Hnot Hnd].
    assert (Hin : ∀ q, (i, q) ∈ l -> False).
    { intros q Hq. apply Hnot. apply list_elem_of_fmap. by exists (i, q). }
    apply elem_of_cons in H1 as [H1 | H1]; apply elem_of_cons in H2 as [H2 | H2].
    + congruence.
    + injection H1 as -> ->. by destruct (Hin r2).
    + injection H2 as -> ->. by destruct (Hin r1).
    + by apply IH.
Qed.

Lemma NoDup_filter_fst (l : list (nat * Request)) (Q : nat * Request -> Prop)
    `{∀ p, Decision (Q p)} :
  NoDup l.*1 -> NoDup (filter Q l).*1.
Proof.
  induction l as [ | p l IH]; intros Hnd; [done | ].
  rewrite fmap_cons in Hnd. apply NoDup_cons in Hnd as [Hnot Hnd].
  rewrite filter_cons. destruct (decide (Q p)); [ | by apply IH].
  rewrite fmap_cons. apply NoDup_cons. split; [ | by apply IH].
  intros ([i r] & Hi & [_ Hin]%list_elem_of_filter)%list_elem_of_fmap.
  apply Hnot. apply list_elem_of_fmap. by exists (i, r).
Qed.

Lemma NoDup_snoc_fst (l : list (nat * Request)) n r :
  (∀ p, p ∈ l -> p.1 < n) -> NoDup l.*1 -> NoDup (l ++ [(n, r)]).*1.
Proof.
  intros Hlt Hnd. rewrite fmap_app. apply NoDup_app. split_and!; [done | | ].
  - intros i ([j q] & -> & Hin)%list_elem_of_fmap Hi. cbn in Hi.
    apply list_elem_of_singleton in Hi. specialize (Hlt _ Hin). cbn in *. lia.
  - cbn. apply NoDup_singleton.
Qed.

(** Unfold the primitive updates down to the fields of the world. *)
Ltac expose :=
  cbn [pending next_id self upd set_self api_send api_cancel complete set_pending
       set_next_id set_sent _requestId _prolongId _botsRequestId _addToMenuId
       _addToMenuBot set_requestId set_prolongId set_botsRequestId set_addToMenuId
       set_addToMenuBot set_attachBots set_panel set_ActiveWebViews] in *.

(** Case analysis on where a request in flight comes from. *)
Ltac mem H :=
  repeat match type of H with
         | _ ∈ _ ++ [_] =>
           apply elem_of_app in H as [H | H];
           [ | apply list_elem_of_singleton in H; try subst ]
         | _ ∈ filter _ _ => apply list_elem_of_filter in H as [? H]
         | _ ∈ (if decide ?P then _ else _) => destruct (decide P)
         end.

Lemma api_wf_ashape w w' : ashape w' = ashape w -> api_wf w -> api_wf w'.
Proof.
  unfold ashape. intros Hs [Hids Hnd Hh Hreq Hpro Hbots Hbl Hadd Hal].
  injection Hs as Hn Hp H1 H2 H3 H4 H5. constructor.
  all: rewrite ?Hn, ?Hp, ?H1, ?H2, ?H3, ?H4, ?H5; assumption.
Qed.

Lemma kshape_ashape w w' : kshape w' = kshape w -> ashape w' = ashape w.
Proof. unfold kshape, ashape. intros Hs. injection Hs as -> -> _ -> -> -> -> -> . done. Qed.

Lemma api_wf_send r w :
  is_bots r = false -> is_addToMenu r = false -> is_open r = false ->
  is_resolve r = false -> is_prolong r = false ->
  api_wf w -> api_wf (api_send r w).
Proof.
  intros Hb Ha Ho Hr Hp [Hids Hnd Hh Hreq Hpro Hbots Hbl Hadd Hal].
  constructor; expose.
  - intros p Hp'. mem Hp'; [specialize (Hids _ Hp') | cbn]; lia.
  - apply NoDup_snoc_fst; [ | done]. intros p Hp'. apply Hids in Hp'. lia.
  - lia.
  - intros p Hp' Heq. mem Hp'; [by apply Hreq | cbn in Heq; lia].
  - intros p Hp' Heq. mem Hp'; [by apply Hpro | cbn in Heq; lia].
  - intros p Hp' Hk. mem Hp'; [by apply Hbots | cbn in Hk; congruence].
  - intros Hne. destruct (Hbl Hne) as [h Hin]. exists h. apply elem_of_app. by left.
  - intros id b Hin. mem Hin; [by apply Hadd | injection Hin as -> <-; discriminate Ha].
  - intros Hne. destruct (Hal Hne) as [b Hin]. exists b. apply elem_of_app. by left.
Qed.

Lemma api_wf_send_request r w :
  is_open r || is_resolve r = true ->
  api_wf w -> api_wf (upd (set_requestId (next_id w)) (api_send r w)).
Proof.
  intros Hk [Hids Hnd Hh Hreq Hpro Hbots Hbl Hadd Hal].
  constructor; expose.
  - intros p Hp'. mem Hp'; [specialize (Hids _ Hp') | cbn]; lia.
  - apply NoDup_snoc_fst; [ | done]. intros p Hp'. apply Hids in Hp'. lia.
  - lia.
  - intros p Hp' Heq. mem Hp'; [apply Hids in Hp'; lia | done].
  - intros p Hp' Heq. mem Hp'; [by apply Hpro | cbn in Heq; lia].
  - intros p Hp' Hb. mem Hp'; [by apply Hbots | ].
    cbn in Hb. by destruct r.
  - intros Hne. destruct (Hbl Hne) as [h Hin]. exists h. apply elem_of_app. by left.
  - intros id b Hin. mem Hin; [by apply Hadd | injection Hin as -> <-; discriminate Hk].
  - intros Hne. destruct (Hal Hne) as [b Hin]. exists b. apply elem_of_app. by left.
Qed.

Lemma api_wf_send_prolong r w :
  is_prolong r = true ->
  api_wf w -> api_wf (upd (set_prolongId (next_id w)) (api_send r w)).
Proof.
  intros Hk [Hids Hnd Hh Hreq Hpro Hbots Hbl Hadd Hal].
  constructor; expose.
  - intros p Hp'. mem Hp'; [specialize (Hids _ Hp') | cbn]; lia.
  - apply NoDup_snoc_fst; [ | done]. intros p Hp'. apply Hids in Hp'. lia.
  - lia.
  - intros p Hp' Heq. mem Hp'; [by apply Hreq | cbn in Heq; lia].
  - intros p Hp' Heq. mem Hp'; [apply Hids in Hp'; lia | done].
  - intros p Hp' Hb. mem Hp'; [by apply Hbots | ].
    cbn in Hb. by destruct r.
  - intros Hne. destruct (Hbl Hne) as [h Hin]. exists h. apply elem_of_app. by left.
  - intros id b Hin. mem Hin; [by apply Hadd | injection Hin as -> <-; discriminate Hk].
  - intros Hne. destruct (Hal Hne) as [b Hin]. exists b. apply elem_of_app. by left.
Qed.

Lemma api_wf_send_bots h w :
  _botsRequestId (self w) = 0 ->
  api_wf w ->
  api_wf (upd (set_botsRequestId (next_id w))
            (api_send (MTPmessages_GetAttachMenuBots h) w)).
Proof.
  intros Hz [Hids Hnd Hh Hreq Hpro Hbots Hbl Hadd Hal].
  constructor; expose.
  - intros p Hp'. mem Hp'; [specialize (Hids _ Hp') | cbn]; lia.
  - apply NoDup_snoc_fst; [ | done]. intros p Hp'. apply Hids in Hp'. lia.
  - lia.
  - intros p Hp' Heq. mem Hp'; [by apply Hreq | cbn in Heq; lia].
  - intros p Hp' Heq. mem Hp'; [by apply Hpro | cbn in Heq; lia].
  - intros p Hp' Hb. mem Hp'; [ | done].
    apply Hbots in Hb; [ | done]. apply Hids in Hp'. lia.
  - intros _. exists h. apply elem_of_app. right. by apply list_elem_of_singleton.
  - intros id b Hin. mem Hin; [by apply Hadd | discriminate Hin].
  - intros Hne. destruct (Hal Hne) as [b Hin]. exists b. apply elem_of_app. by left.
Qed.

Lemma api_wf_send_addToMenu b w :
  _addToMenuId (self w) = 0 ->
  api_wf w ->
  api_wf (upd (set_addToMenuId (next_id w))
            (api_send (MTPmessages_GetAttachMenuBot b)
               (upd (set_addToMenuBot (Some b)) w))).
Proof.
  intros Hz [Hids Hnd Hh Hreq Hpro Hbots Hbl Hadd Hal].
  constructor; expose.
  - intros p Hp'. mem Hp'; [specialize (Hids _ Hp') | cbn]; lia.
  - apply NoDup_snoc_fst; [ | done]. intros p Hp'. apply Hids in Hp'. lia.
  - lia.
  - intros p Hp' Heq. mem Hp'; [by apply Hreq | cbn in Heq; lia].
  - intros p Hp' Heq. mem Hp'; [by apply Hpro | cbn in Heq; lia].
  - intros p Hp' Hb. mem Hp'; [by apply Hbots | discriminate Hb].
  - intros Hne. destruct (Hbl Hne) as [h Hin]. exists h. apply elem_of_app. by left.
  - intros id b' Hin. mem Hin; [ | by injection Hin as -> ->].
    destruct (Hadd _ _ Hin) as [-> _]. apply Hids in Hin. cbn in Hin. lia.
  - intros _. exists b. apply elem_of_app. right. by apply list_elem_of_singleton.
Qed.

Lemma api_wf_take_request w :
  api_wf w -> api_wf (api_cancel (_requestId (self w)) (upd (set_requestId 0) w)).
Proof.
  intros [Hids Hnd Hh Hreq Hpro Hbots Hbl Hadd Hal].
  constructor; expose.
  - intros p Hp'. mem Hp'; by apply Hids.
  - destruct (decide _); [done | by apply NoDup_filter_fst].
  - lia.
  - intros p Hp' Heq. mem Hp'; apply Hids in Hp'; lia.
  - intros p Hp' Heq. mem Hp'; by apply Hpro.
  - intros p Hp' Hb. mem Hp'; by apply Hbots.
  - intros Hne. destruct (Hbl Hne) as [h Hin]. exists h.
    destruct (decide _); [done | ]. apply list_elem_of_filter. split; [ | done].
    cbn. intros Heq. by specialize (Hreq _ Hin Heq).
  - intros id b Hin. mem Hin; by apply Hadd.
  - intros Hne. destruct (Hal Hne) as [b Hin]. exists b.
    destruct (decide _); [done | ]. apply list_elem_of_filter. split; [ | done].
    cbn. intros Heq. by specialize (Hreq _ Hin Heq).
Qed.

Lemma api_wf_take_prolong w :
  api_wf w -> api_wf (api_cancel (_prolongId (self w)) (upd (set_prolongId 0) w)).
Proof.
  intros [Hids Hnd Hh Hreq Hpro Hbots Hbl Hadd Hal].
  constructor; expose.
  - intros p Hp'. mem Hp'; by apply Hids.
  - destruct (decide _); [done | by apply NoDup_filter_fst].
  - lia.
  - intros p Hp' Heq. mem Hp'; by apply Hreq.
  - intros p Hp' Heq. mem Hp'; apply Hids in Hp'; lia.
  - intros p Hp' Hb. mem Hp'; by apply Hbots.
  - intros Hne. destruct (Hbl Hne) as [h Hin]. exists h.
    destruct (decide _); [done | ]. apply list_elem_of_filter. split; [ | done].
    cbn. intros Heq. by specialize (Hpro _ Hin Heq).
  - intros id b Hin. mem Hin; by apply Hadd.
  - intros Hne. destruct (Hal Hne) as [b Hin]. exists b.
    destruct (decide _); [done | ]. apply list_elem_of_filter. split; [ | done].
    cbn. intros Heq. by specialize (Hpro _ Hin Heq).
Qed.

Lemma api_wf_take_addToMenu w :
  api_wf w -> api_wf (api_cancel (_addToMenuId (self w)) (upd (set_addToMenuId 0) w)).
Proof.
  intros [Hids Hnd Hh Hreq Hpro Hbots Hbl Hadd Hal].
  constructor; expose.
  - intros p Hp'. mem Hp'; by apply Hids.
  - destruct (decide _); [done | by apply NoDup_filter_fst].
  - lia.
  - intros p Hp' Heq. mem Hp'; by apply Hreq.
  - intros p Hp' Heq. mem Hp'; by apply Hpro.
  - intros p Hp' Hb. mem Hp'; by apply Hbots.
  - intros Hne. destruct (Hbl Hne) as [h Hin]. exists h.
    destruct (decide _) as [ | Hnz]; [done | ].
    apply list_elem_of_filter. split; [ | done].
    cbn. intros Heq. destruct (Hal Hnz) as [b Hb]. rewrite <- Heq in Hb.
    by pose proof (pending_unique _ _ _ _ Hnd Hin Hb).
  - intros id b Hin. exfalso. mem Hin.
    + destruct (Hadd _ _ Hin) as [-> _]. apply Hids in Hin. cbn in Hin. lia.
    + destruct (Hadd _ _ Hin) as [-> _]. done.
  - done.
Qed.

Lemma api_wf_zero_request w : api_wf w -> api_wf (upd (set_requestId 0) w).
Proof.
  intros [Hids Hnd Hh Hreq Hpro Hbots Hbl Hadd Hal].
  constructor; expose; try done; [lia | ].
  intros p Hp' Heq. apply Hids in Hp'. lia.
Qed.

Lemma api_wf_zero_prolong w : api_wf w -> api_wf (upd (set_prolongId 0) w).
Proof.
  intros [Hids Hnd Hh Hreq Hpro Hbots Hbl Hadd Hal].
  constructor; expose; try done; [lia | ].
  intros p Hp' Heq. apply Hids in Hp'. lia.
Qed.

Lemma api_wf_complete id r w :
  lookup_request id w = Some r -> is_bots r = false -> is_addToMenu r = false ->
  api_wf w -> api_wf (complete id w).
Proof.
  intros Hr%lookup_request_elem Hb Ha [Hids Hnd Hh Hreq Hpro Hbots Hbl Hadd Hal].
  constructor; expose.
  - intros p Hp'. mem Hp'; by apply Hids.
  - by apply NoDup_filter_fst.
  - lia.
  - intros p Hp' Heq. mem Hp'; by apply Hreq.
  - intros p Hp' Heq. mem Hp'; by apply Hpro.
  - intros p Hp' Hb'. mem Hp'; by apply Hbots.
  - intros Hne. destruct (Hbl Hne) as [h Hin]. exists h.
    apply list_elem_of_filter. split; [ | done].
    cbn. intros Heq. rewrite Heq in Hin.
    pose proof (pending_unique _ _ _ _ Hnd Hin Hr) as <-. discriminate Hb.
  - intros id' b Hin. mem Hin; by apply Hadd.
  - intros Hne. destruct (Hal Hne) as [b Hin]. exists b.
    apply list_elem_of_filter. split; [ | done].
    cbn. intros Heq. rewrite Heq in Hin.
    pose proof (pending_unique _ _ _ _ Hnd Hin Hr) as <-. discriminate Ha.
Qed.

Lemma api_wf_complete_bots id h w :
  lookup_request id w = Some (MTPmessages_GetAttachMenuBots h) ->
  api_wf w -> api_wf (upd (set_botsRequestId 0) (complete id w)).
Proof.
  intros Hr%lookup_request_elem [Hids Hnd Hh Hreq Hpro Hbots Hbl Hadd Hal].
  pose proof (Hbots _ Hr eq_refl) as Hid. cbn in Hid.
  constructor; expose.
  - intros p Hp'. mem Hp'; by apply Hids.
  - by apply NoDup_filter_fst.
  - lia.
  - intros p Hp' Heq. mem Hp'; by apply Hreq.
  - intros p Hp' Heq. mem Hp'; by apply Hpro.
  - intros p Hp' Hb'. exfalso. mem Hp'. apply Hbots in Hb'; [ | done]. congruence.
  - done.
  - intros id' b Hin. mem Hin; by apply Hadd.
  - intros Hne. destruct (Hal Hne) as [b Hin]. exists b.
    apply list_elem_of_filter. split; [ | done].
    cbn. intros Heq. rewrite Heq in Hin.
    by pose proof (pending_unique _ _ _ _ Hnd Hin Hr).
Qed.

Lemma api_wf_complete_addToMenu id b w :
  lookup_request id w = Some (MTPmessages_GetAttachMenuBot b) ->
  api_wf w ->
  api_wf (upd (set_addToMenuBot None) (upd (set_addToMenuId 0) (complete id w))).
Proof.
  intros Hr%lookup_request_elem [Hids Hnd Hh Hreq Hpro Hbots Hbl Hadd Hal].
  destruct (Hadd _ _ Hr) as [Hid _].
  constructor; expose.
  - intros p Hp'. mem Hp'; by apply Hids.
  - by apply NoDup_filter_fst.
  - lia.
  - intros p Hp' Heq. mem Hp'; by apply Hreq.
  - intros p Hp' Heq. mem Hp'; by apply Hpro.
  - intros p Hp' Hb'. mem Hp'; by apply Hbots.
  - intros Hne. destruct (Hbl Hne) as [h Hin]. exists h.
    apply list_elem_of_filter. split; [ | done].
    cbn. intros Heq. rewrite Heq in Hin.
    by pose proof (pending_unique _ _ _ _ Hnd Hin Hr).
  - intros id' b' Hin. exfalso. mem Hin.
    destruct (Hadd _ _ Hin) as [-> _]. cbn in *. congruence.
  - done.
Qed.

(** Every primitive transition keeps the handles well formed. *)
Lemma api_wf_prim w w' : prim w w' -> api_wf w -> api_wf w'.
Proof.
  intros Hprim Hw.
  destruct Hprim as
    [w w' Hs | r w | r w | r w | h w | b w | w | w | w | w | w | id r w | id h w
    | id b w | l w | w | p w].
  - by eapply api_wf_ashape; [apply kshape_ashape | ].
  - by apply api_wf_send.
  - by apply api_wf_send_request.
  - by apply api_wf_send_prolong.
  - by apply api_wf_send_bots.
  - by apply api_wf_send_addToMenu.
  - by apply api_wf_take_request.
  - by apply api_wf_take_prolong.
  - by apply api_wf_take_addToMenu.
  - by apply api_wf_zero_request.
  - by apply api_wf_zero_prolong.
  - by eapply api_wf_complete.
  - by eapply api_wf_complete_bots.
  - by eapply api_wf_complete_addToMenu.
  - by apply (api_wf_ashape w).
  - by apply (api_wf_ashape w).
  - by apply (api_wf_ashape w).
Qed.

Lemma panel_inv_prim w w' : prim w w' -> panel_inv w -> panel_inv w'.
Proof.
  intros Hprim [Hreg Hwf].
  destruct Hprim as
    [w w' Hs | r w | r w | r w | h w | b w | w | w | w | w | w | id r w | id h w
    | id b w | l w | w | p w]; try (split; [exact Hreg | exact Hwf]).
  - unfold kshape in Hs. injection Hs as _ _ _ _ _ _ _ _ Ht Ha Hp _.
    unfold panel_inv. by rewrite Ht, Ha, Hp.
  - split.
    + change (this w ∈ ActiveWebViews w ∖ {[this w]} ↔ is_Some (@None Panel)).
      split; [set_solver | by intros [? ?]].
    + intros p. change (None = Some p -> panel_wf p). done.
  - split.
    + change (this w ∈ {[this w]} ∪ ActiveWebViews w ↔ is_Some (Some p)).
      split; [by eexists | set_solver].
    + intros q. change (Some p = Some q -> panel_wf q). by intros [= <-].
Qed.

Lemma bots_inv_prim w w' : prim w w' -> bots_inv w -> bots_inv w'.
Proof.
  intros Hprim Hb.
  destruct Hprim as
    [w w' Hs | r w | r w | r w | h w | b w | w | w | w | w | w | id r w | id h w
    | id b w | l w | w | p w]; try exact Hb.
  - unfold kshape in Hs. injection Hs as _ _ _ _ _ _ _ _ _ _ _ Hl.
    unfold bots_inv. by rewrite Hl.
  - assumption.
Qed.

Lemma api_wf_start a us cs tr win : api_wf (start a us cs tr win).
Proof.
  constructor; cbn; try (intros; lia); try done.
  - intros p Hp. by apply elem_of_nil in Hp.
  - apply NoDup_nil_2.
  - intros p Hp. by apply elem_of_nil in Hp.
  - intros p Hp. by apply elem_of_nil in Hp.
  - intros p Hp. by apply elem_of_nil in Hp.
  - intros id b Hp. by apply elem_of_nil in Hp.
Qed.

Lemma panel_inv_start a us cs tr win : panel_inv (start a us cs tr win).
Proof.
  split.
  - change (a ∈ (∅ : gset nat) ↔ is_Some (@None Panel)).
    split; [set_solver | by intros [? ?]].
  - intros p. change (None = Some p -> panel_wf p). done.
Qed.

Lemma bots_inv_start a us cs tr win : bots_inv (start a us cs tr win).
Proof. apply Forall_nil_2. Qed.

(** An invariant of the primitive transitions holds in every reachable
    world. *)
Lemma reachable_prim_ind (P : World -> Prop) :
  (∀ a us cs tr win, P (start a us cs tr win)) ->
  (∀ w w', prim w w' -> P w -> P w') ->
  ∀ w, reachable w -> P w.
Proof.
  intros Hstart Hprim w Hw. induction Hw as [ | e w w' _ IH Hstep].
  - apply Hstart.
  - apply steps_step in Hstep. revert IH.
    induction Hstep as [ | w1 w2 w3 H12 _ IH23]; [done | ].
    intros H1. apply IH23. by eapply Hprim.
Qed.

Lemma api_wf_reachable w : reachable w -> api_wf w.
Proof. apply reachable_prim_ind; [apply api_wf_start | apply api_wf_prim]. Qed.

Lemma panel_inv_reachable w : reachable w -> panel_inv w.
Proof. apply reachable_prim_ind; [apply panel_inv_start | apply panel_inv_prim]. Qed.

Lemma bots_inv_reachable w : reachable w -> bots_inv w.
Proof. apply reachable_prim_ind; [apply bots_inv_start | apply bots_inv_prim]. Qed.

Lemma api_wf_steps w w' : steps w w' -> api_wf w -> api_wf w'.
Proof.
  induction 1 as [ | w1 w2 w3 H12 _ IH]; [done | ].
  intros H1. apply IH. by eapply api_wf_prim.
Qed.

(** ** Counting the requests a handle names *)

Lemma count_pos P (l : list (nat * Request)) p :
  p ∈ l -> P p.2 = true -> 1 ≤ count P l.
Proof.
  intros Hin HP. induction Hin as [p l | p q l _ IH].
  - change (p :: l) with ([p] ++ l). rewrite count_app. unfold count at 1. cbn.
    rewrite HP. cbn. lia.
  - change (q :: l) with ([q] ++ l). rewrite count_app. specialize (IH HP). lia.
Qed.

Lemma count_le_1 P (l : list (nat * Request)) k :
  NoDup l.*1 -> (∀ p, p ∈ l -> P p.2 = true -> p.1 = k) -> count P l ≤ 1.
Proof.
  induction l as [ | a l IH]; intros Hnd Hk; [unfold count; cbn; lia | ].
  rewrite fmap_cons in Hnd. apply NoDup_cons in Hnd as [Hnot Hnd].
  change (a :: l) with ([a] ++ l). rewrite count_app.
  destruct (P a.2) eqn:Ha.
  - rewrite (count_zero P l); [unfold count; cbn; rewrite Ha; cbn; lia | ].
    intros p Hp. destruct (P p.2) eqn:HPp; [exfalso | done]. apply Hnot.
    apply list_elem_of_fmap. exists p. split; [ | done].
    rewrite (Hk a (list_elem_of_here _ _) Ha). symmetry. apply Hk; [by right | done].
  - unfold count at 1. cbn. rewrite Ha. cbn.
    apply IH; [done | ]. intros p Hp. apply Hk. by right.
Qed.

(** ** The directory request *)

(** X1. In every reachable world at most one directory request is in flight;
    it is the one [_botsRequestId] names, and the handle is non-null exactly
    while that request is in flight.  After [requestBots] there is exactly
    one. *)
Theorem directory_request_is_single_flight (w : World) :
  reachable w ->
  count is_bots (pending w) ≤ 1
  ∧ (∀ id h, (id, MTPmessages_GetAttachMenuBots h) ∈ pending w ->
       id = _botsRequestId (self w))
  ∧ (_botsRequestId (self w) ≠ 0
     ↔ ∃ h, (_botsRequestId (self w), MTPmessages_GetAttachMenuBots h) ∈ pending w)
  ∧ count is_bots (pending (requestBots w)) = 1.
Proof.
  intros Hw.
  assert (Hall : ∀ w, api_wf w ->
    count is_bots (pending w) ≤ 1
    ∧ (∀ id h, (id, MTPmessages_GetAttachMenuBots h) ∈ pending w ->
         id = _botsRequestId (self w))
    ∧ (_botsRequestId (self w) ≠ 0
       ↔ ∃ h, (_botsRequestId (self w), MTPmessages_GetAttachMenuBots h) ∈ pending w)).
  { clear w Hw. intros w [Hids Hnd Hh Hreq Hpro Hbots Hbl Hadd Hal]. split_and!.
    - by apply (count_le_1 _ _ (_botsRequestId (self w))).
    - intros id h Hin. by apply (Hbots _ Hin).
    - split; [exact Hbl | ]. intros [h Hin]. apply Hids in Hin. cbn in Hin. lia. }
  pose proof (api_wf_reachable _ Hw) as Hwf.
  destruct (Hall w Hwf) as (Hle & Hid & Hlive). split_and!; try done.
  assert (Hwf' : api_wf (requestBots w)).
  { eapply api_wf_steps; [apply steps_requestBots | done]. }
  destruct (Hall _ Hwf') as (Hle' & _ & Hlive').
  assert (Hne : _botsRequestId (self (requestBots w)) ≠ 0).
  { unfold requestBots. case_decide as Hz; [done | ].
    destruct Hwf as [_ _ Hh _ _ _ _ _ _]. cbn. lia. }
  apply Hlive' in Hne as [h Hin]. pose proof (count_pos is_bots _ _ Hin eq_refl). lia.
Qed.

Lemma directory_request_is_single_flight_witness :
  count is_bots (pending (requestBots (after [CallRequestBots; CallRequestBots]))) = 1.
Proof. apply directory_request_is_single_flight, after_reachable. Defined.

(** ** The registration query *)

(** X2. In every reachable world at most one [MTPmessages_GetAttachMenuBot]
    is in flight; it is the one [_addToMenuId] names and it asks for
    [_addToMenuBot]; the handle is non-null exactly while it is in flight. *)
Theorem registration_query_is_single_flight (w : World) :
  reachable w ->
  count is_addToMenu (pending w) ≤ 1
  ∧ (∀ id b, (id, MTPmessages_GetAttachMenuBot b) ∈ pending w ->
       id = _addToMenuId (self w) ∧ _addToMenuBot (self w) = Some b)
  ∧ (_addToMenuId (self w) ≠ 0
     ↔ ∃ b, (_addToMenuId (self w), MTPmessages_GetAttachMenuBot b) ∈ pending w).
Proof.
  intros [Hids Hnd Hh Hreq Hpro Hbots Hbl Hadd Hal]%api_wf_reachable. split_and!.
  - apply (count_le_1 _ _ (_addToMenuId (self w))); [done | ].
    intros [id r] Hin Hk. destruct r; try discriminate Hk. by destruct (Hadd _ _ Hin).
  - exact Hadd.
  - split; [exact Hal | ]. intros [b Hin]. apply Hids in Hin. cbn in Hin. lia.
Qed.

Lemma registration_query_is_single_flight_witness :
  count is_addToMenu
    (pending (after [CallRequestAddToMenu None 7 ""%string;
                     CallRequestAddToMenu None 8 ""%string])) ≤ 1.
Proof. apply registration_query_is_single_flight, after_reachable. Defined.

(** ** What [cancel] leaves in flight *)

(** X3. In every reachable world [cancel] takes out of flight only open,
    resolve and keepalive requests: a directory request, a registration
    query, a toggle or a data request stays in flight, and nothing is
    sent. *)
Theorem cancel_spares_the_other_requests (w : World) (p : mtpRequestId * Request) :
  reachable w -> p ∈ pending w ->
  is_open p.2 = false -> is_resolve p.2 = false -> is_prolong p.2 = false ->
  p ∈ pending (cancel w) ∧ sent (cancel w) = sent w.
Proof.
  intros [Hids Hnd Hh Hreq Hpro Hbots Hbl Hadd Hal]%api_wf_reachable Hin Ho Hr Hk.
  split; [ | reflexivity].
  assert (H1 : p.1 ≠ _requestId (self w)).
  { intros Heq. specialize (Hreq _ Hin Heq). rewrite Ho, Hr in Hreq. discriminate. }
  assert (H2 : p.1 ≠ _prolongId (self w)).
  { intros Heq. specialize (Hpro _ Hin Heq). congruence. }
  unfold cancel. cbv zeta.
  change (p ∈ (if decide (_prolongId (self w) = 0)
               then (if decide (_requestId (self w) = 0) then pending w
                     else filter (λ p, p.1 ≠ _requestId (self w)) (pending w))
               else filter (λ p, p.1 ≠ _prolongId (self w))
                      (if decide (_requestId (self w) = 0) then pending w
                       else filter (λ p, p.1 ≠ _requestId (self w)) (pending w)))).
  repeat case_decide; repeat (apply list_elem_of_filter; split; [done | ]); done.
Qed.

Lemma cancel_spares_the_other_requests_witness :
  let w := after [CallRequest None chat 7 button; CallRequestBots] in
  (2, MTPmessages_GetAttachMenuBots 0) ∈ pending (cancel w).
Proof.
  cbv zeta.
  apply (cancel_spares_the_other_requests
           (after [CallRequest None chat 7 button; CallRequestBots])
           (2, MTPmessages_GetAttachMenuBots 0)).
  - apply after_reachable.
  - vm_compute. right. left.
  - reflexivity.
  - reflexivity.
  - reflexivity.
Defined.

(** ** The panel *)

(** X4. In every reachable world the object is in [ActiveWebViews] exactly
    while its panel is shown, and the panel carries the two subscriptions of
    [started] for the query id that [show] was given: the timer runs the
    keepalive for that id, and a [WebViewResultSent] cancels the session for
    that id and no other. *)
Theorem panel_is_registered_and_subscribed (w : World) :
  reachable w ->
  (this w ∈ ActiveWebViews w ↔ is_Some (_panel (self w)))
  ∧ ∀ p, _panel (self w) = Some p ->
      step TimerTick w = prolong (sendData_queryId p) w
      ∧ ∀ q, step (WebViewResultSent q) w
             = Ok (if decide (q = sendData_queryId p) then cancel w else w).
Proof.
  intros [Hreg Hwf]%panel_inv_reachable. split; [exact Hreg | ].
  intros p Hp. specialize (Hwf p Hp). unfold panel_wf in Hwf.
  cbn [step]. rewrite Hp, Hwf. split; [reflexivity | ].
  intros q. cbn [existsb is_filter orb]. rewrite orb_false_r.
  case_decide as Hq.
  - by rewrite bool_decide_eq_true_2.
  - by rewrite bool_decide_eq_false_2 by congruence.
Qed.

Lemma panel_is_registered_and_subscribed_witness :
  let w := after [CallRequest None chat 7 button;
                  Done 1 (MTPwebViewResultUrl 55 "https://x.example/app")] in
  this w ∈ ActiveWebViews w ↔ is_Some (_panel (self w)).
Proof. cbv zeta. apply panel_is_registered_and_subscribed, after_reachable. Defined.

(** ** The cached bots *)

(** X5. In every reachable world each bot of [_attachBots] is active and its
    media view is the one created from its icon. *)
Theorem cached_bots_are_active_with_media (w : World) (b : AttachWebViewBot) :
  reachable w -> b ∈ _attachBots (self w) ->
  inactive b = false ∧ media b = icon b.
Proof.
  intros Hw%bots_inv_reachable Hb. unfold bots_inv in Hw.
  by apply (proj1 (Forall_forall _ _) Hw).
Qed.

Lemma cached_bots_are_active_with_media_witness :
  let b := {| user := 7; icon := Some 41; media := Some 41;
              short_name := "X"%string; inactive := false |} in
  inactive b = false ∧ media b = icon b.
Proof.
  cbv zeta.
  apply (cached_bots_are_active_with_media
           (after [CallRequestBots;
                   Done 1 (MTPattachMenuBots 5
                     [ {| vbot_id := 7; vshort_name := "X"%string; is_inactive := false;
                          vicons := [ {| vname := "default_static"%string;
                                         vicon := 41 |} ] |};
                       {| vbot_id := 8; vshort_name := "Y"%string; is_inactive := true;
                          vicons := [] |} ]
                     [])])).
  - apply after_reachable.
  - vm_compute. left.
Defined.

(** ** The expectations of the entry points *)

Lemma run_done_ok done w :
  is_Some (_peer (self w)) -> is_Some (_bot (self w)) -> ∃ w', run_done done w = Ok w'.
Proof.
  intros [peer Hp] [bot Hb].
  unfold run_done, request_button, requestSimple_button, requestMenu_confirmed.
  destruct done; rewrite ?Hp, ?Hb; by eexists.
Qed.

Lemma confirmOpen_ok c done w :
  is_Some (_peer (self w)) -> is_Some (_bot (self w)) ->
  ∃ w', confirmOpen c done w = Ok w'.
Proof.
  intros Hp Hb. unfold confirmOpen. destruct (_bot (self w)) as [bot | ] eqn:Hbot.
  - destruct (_ || _); [ | by eexists]. apply run_done_ok; [done | by rewrite Hbot].
  - by eexists.
Qed.

Lemma request_ok c peer bot button w : ∃ w', request c peer bot button w = Ok w'.
Proof.
  unfold request. cbv zeta.
  assert (Hgo : ∀ v, ∃ w',
    match c with
    | Some c =>
      confirmOpen c (DoRequest button)
        (upd (set_peer (Some peer)) (upd (set_bot (Some bot)) (cancel v)))
    | None =>
      request_button button
        (upd (set_peer (Some peer)) (upd (set_bot (Some bot)) (cancel v)))
    end = Ok w').
  { intros v. destruct c as [c | ].
    - apply confirmOpen_ok; by eexists.
    - apply (run_done_ok (DoRequest button)); by eexists. }
  destruct (_ && _); [ | apply Hgo].
  destruct (_panel (self w)); [apply Hgo | ].
  case_decide; [by eexists | apply Hgo].
Qed.

Lemma userData_cancel bot w : userData bot (cancel w) = userData bot w.
Proof. reflexivity. Qed.

(** X6. [request], [requestSimple] and the overload of [request] that takes
    a username always return: they set [_peer] and [_bot] (or [_peer]) before
    anything that expects them.  [requestMenu] dereferences [bot->botInfo] and
    fails exactly when the bot has none. *)
Theorem entry_points_meet_their_expectations (c : option nat) (controller : nat)
    (peer : PeerId) (bot : UserId) (button : WebViewButton)
    (botUsername startCommand : string) (w : World) :
  (∃ w', request c peer bot button w = Ok w')
  ∧ (∃ w', requestSimple controller bot button w = Ok w')
  ∧ (∃ w', request_username peer botUsername startCommand w = Ok w')
  ∧ (requestMenu controller bot w = Crash ↔ botInfo (userData bot w) = None).
Proof.
  split_and!.
  - apply request_ok.
  - unfold requestSimple. cbv zeta. apply confirmOpen_ok; by eexists.
  - unfold request_username. destruct (isEmpty botUsername); [by eexists | ].
    destruct (_ && _).
    + destruct (_panel (self w)); by eexists.
    + cbv zeta. unfold resolve, resolveUsername.
      change (_peer (self (upd (set_startCommand startCommand) ?v)))
        with (_peer (self v)).
      change (_peer (self (upd (set_botUsername botUsername) ?v)))
        with (_peer (self v)).
      change (_peer (self (upd (set_peer (Some peer)) ?v))) with (Some peer).
      cbv beta iota. destruct (peerByUsername _ _); by eexists.
  - unfold requestMenu. cbv zeta.
    change (userData bot (upd ?f (upd ?g (cancel w)))) with (userData bot w).
    destruct (botInfo (userData bot w)) as [i | ]; [ | done].
    split; [ | done]. intros Hcrash. exfalso.
    destruct (confirmOpen_ok controller
                (DoRequestMenu (botMenuButtonUrl i) (botMenuButtonText i))
                (upd (set_peer (Some (asPeer bot))) (upd (set_bot (Some bot)) (cancel w))))
      as [w' Hw']; [by eexists | by eexists | ].
    rewrite Hw' in Hcrash. discriminate Hcrash.
Qed.

(** ** Opening without a window controller *)

(** X7. With a null controller (the call of the attach menu and of the
    add-to-menu flow) [request] never shows the consent box and never touches
    the trust store.  When the same peer and bot are being opened, with a
    request in flight and no panel, it does nothing; otherwise it sends one
    [MTPmessages_RequestWebView] for the peer and the bot, with the url flag
    exactly when the button has a url and the start-parameter flag exactly
    when it has a start command, and holds it in [_requestId]. *)
Theorem request_without_controller (peer : PeerId) (bot : UserId)
    (button : WebViewButton) (w : World) :
  let busy := _peer (self w) = Some peer ∧ _bot (self w) = Some bot
              ∧ _panel (self w) = None ∧ _requestId (self w) ≠ 0 in
  ∃ w', request None peer bot button w = Ok w'
    ∧ boxes w' = boxes w
    ∧ trusted w' = trusted w
    ∧ (busy -> w' = w)
    ∧ (¬ busy ->
       ∃ flags,
         sent w' = (sent w ++ [(next_id w,
                     MTPmessages_RequestWebView flags peer bot (url button)
                       (startCommand button) (text button))])%list
         ∧ (∀ f, f ∈ flags
                 ↔ f = f_theme_params
                   ∨ (f = f_url ∧ url button ≠ ""%string)
                   ∨ (f = f_start_param ∧ startCommand button ≠ ""%string))
         ∧ _requestId (self w') = next_id w
         ∧ _peer (self w') = Some peer
         ∧ _bot (self w') = Some bot
         ∧ _startCommand (self w') = startCommand button
         ∧ _panel (self w') = None
         ∧ this w' ∉ ActiveWebViews w').
Proof.
  cbv zeta.
  assert (Hflags : ∀ f,
    f ∈ ([f_theme_params] ++ (if isEmpty (url button) then [] else [f_url])
         ++ (if isEmpty (startCommand button) then [] else [f_start_param]))%list
    ↔ f = f_theme_params
      ∨ (f = f_url ∧ url button ≠ ""%string)
      ∨ (f = f_start_param ∧ startCommand button ≠ ""%string)).
  { intros f. unfold isEmpty. rewrite !elem_of_app, list_elem_of_singleton.
    do 2 case_bool_decide;
      rewrite ?list_elem_of_singleton, ?elem_of_nil; naive_solver. }
  assert (Hgo : ∀ v, this v = this w -> sent v = sent w -> next_id v = next_id w ->
    boxes v = boxes w -> trusted v = trusted w ->
    ∃ w', request_button button
            (upd (set_peer (Some peer)) (upd (set_bot (Some bot)) (cancel v))) = Ok w'
      ∧ boxes w' = boxes w ∧ trusted w' = trusted w
      ∧ ∃ flags,
         sent w' = (sent w ++ [(next_id w,
                     MTPmessages_RequestWebView flags peer bot (url button)
                       (startCommand button) (text button))])%list
         ∧ (∀ f, f ∈ flags
                 ↔ f = f_theme_params
                   ∨ (f = f_url ∧ url button ≠ ""%string)
                   ∨ (f = f_start_param ∧ startCommand button ≠ ""%string))
         ∧ _requestId (self w') = next_id w
         ∧ _peer (self w') = Some peer
         ∧ _bot (self w') = Some bot
         ∧ _startCommand (self w') = startCommand button
         ∧ _panel (self w') = None
         ∧ this w' ∉ ActiveWebViews w').
  { intros v Ht Hs Hn Hb Htr. eexists. split; [reflexivity | ].
    split; [exact Hb | ]. split; [exact Htr | ]. eexists. split_and!.
    - change (sent (upd ?f (api_send ?r ?x))) with (sent x ++ [(next_id x, r)]).
      change (sent (upd ?f ?x)) with (sent x).
      change (next_id (upd ?f ?x)) with (next_id x).
      change (sent (upd ?f ?x)) with (sent x).
      change (next_id (upd ?f ?x)) with (next_id x).
      change (sent (upd ?f ?x)) with (sent x).
      change (next_id (upd ?f ?x)) with (next_id x).
      change (sent (cancel v)) with (sent v).
      change (next_id (cancel v)) with (next_id v).
      rewrite Hs, Hn. reflexivity.
    - exact Hflags.
    - exact Hn.
    - reflexivity.
    - reflexivity.
    - reflexivity.
    - reflexivity.
    - change (this v ∉ ActiveWebViews v ∖ {[this v]}). set_solver. }
  unfold request. cbv zeta.
  destruct (bool_decide (_peer (self w) = Some peer)) eqn:Hp;
    [apply bool_decide_eq_true in Hp | apply bool_decide_eq_false in Hp].
  2:{ destruct (Hgo w) as (w' & Hw' & Hb & Htr & Hrest); try done.
      exists w'. split_and!; try done. by intros (? & _). }
  destruct (bool_decide (_bot (self w) = Some bot)) eqn:Hbt;
    [apply bool_decide_eq_true in Hbt | apply bool_decide_eq_false in Hbt].
  2:{ destruct (Hgo w) as (w' & Hw' & Hb & Htr & Hrest); try done.
      exists w'. split_and!; try done. by intros (_ & ? & _). }
  cbn [andb]. destruct (_panel (self w)) as [p | ] eqn:Hpanel.
  { destruct (Hgo (log RequestActivate w)) as (w' & Hw' & Hb & Htr & Hrest); try done.
    exists w'. split_and!; try done. by intros (_ & _ & ? & _). }
  case_decide as Hid.
  - exists w. split_and!; try done. intros Hnot. by destruct Hnot.
  - destruct (Hgo w) as (w' & Hw' & Hb & Htr & Hrest); try done.
    exists w'. split_and!; try done. by intros (_ & _ & _ & ?).
Qed.

(** ** A consent box that outlives its session *)

Lemma boxes_cancel w : boxes (cancel w) = boxes w.
Proof. reflexivity. Qed.

(** X8. [cancel] leaves the consent box of [confirmOpen] on screen, and the
    box's callback dereferences [_bot], which [cancel] has reset: confirming
    the box after the session was cancelled fails. *)
Theorem consent_box_confirmed_after_cancel_crashes (i controller : nat) (t : LangText)
    (done : OpenDone) (w : World) :
  boxes w !! i = Some (ConfirmOpenBox controller t done) ->
  boxes (cancel w) !! i = Some (ConfirmOpenBox controller t done)
  ∧ step (BoxConfirmed i) (cancel w) = Crash.
Proof.
  intros Hbox. rewrite boxes_cancel. split; [exact Hbox | ].
  unfold step. rewrite boxes_cancel, Hbox. unfold confirmOpen_callback.
  by replace (_bot (self (set_boxes (delete i (boxes w)) (cancel w)))) with (@None UserId).
Qed.

Lemma consent_box_confirmed_after_cancel_crashes_witness :
  let w := after [CallRequest (Some 0) chat 8 button] in
  step (BoxConfirmed 0) (cancel w) = Crash.
Proof.
  cbv zeta.
  apply (consent_box_confirmed_after_cancel_crashes 0 0
           (lng_allow_bot_webview "Y Bot") (DoRequest button)
           (after [CallRequest (Some 0) chat 8 button])).
  vm_compute. reflexivity.
Defined.

(** ** Closing the panel *)

(** X9. The [close] closure of the panel tears nothing down by itself: the
    panel, the handles and the requests in flight stay as they are until the
    main queue runs the posted [cancel], which is then the [cancel] of the
    world the panel was closed in. *)
Theorem close_defers_cancel_to_the_main_queue (p : Panel) (w : World) :
  _panel (self w) = Some p ->
  step PanelClose w = Ok (close w)
  ∧ self (close w) = self w
  ∧ pending (close w) = pending w
  ∧ ActiveWebViews (close w) = ActiveWebViews w
  ∧ step MainQueue (close w) = Ok (cancel w).
Proof.
  intros Hp. split_and!; try reflexivity.
  cbn [step]. by rewrite Hp.
Qed.

Lemma close_defers_cancel_to_the_main_queue_witness :
  let w := after [CallRequest None chat 7 button;
                  Done 1 (MTPwebViewResultUrl 55 "https://x.example/app")] in
  step MainQueue (close w) = Ok (cancel w).
Proof.
  cbv zeta.
  eapply close_defers_cancel_to_the_main_queue. vm_compute. reflexivity.
Defined.

(** ** The add-to-menu flow *)

Lemma addToMenu_state_run_done done w w' :
  run_done done w = Ok w' -> addToMenu_state w' = addToMenu_state w.
Proof.
  unfold run_done, request_button, requestSimple_button, requestMenu_confirmed.
  intros H. cbv zeta in H. crunch; reflexivity.
Qed.

Lemma addToMenu_state_request c peer bot button w w' :
  request c peer bot button w = Ok w' -> addToMenu_state w' = addToMenu_state w.
Proof.
  unfold request, confirmOpen. intros H. cbv zeta in H. crunch; try reflexivity.
  all: first [ apply addToMenu_state_run_done in H
             | apply (addToMenu_state_run_done (DoRequest button)) in H ].
  all: by rewrite H.
Qed.

Lemma addToMenu_state_toast t w : addToMenu_state (toast t w) = addToMenu_state w.
Proof. reflexivity. Qed.

Lemma addToMenu_state_requestBots w :
  addToMenu_state (requestBots w) = addToMenu_state w.
Proof. unfold requestBots. by case_decide. Qed.

Lemma addToMenu_state_confirmAddToMenu bot callback w :
  addToMenu_state (confirmAddToMenu bot callback w) = addToMenu_state w.
Proof. unfold confirmAddToMenu. by destruct (activeWindow w). Qed.

Lemma addToMenu_state_open c w w' :
  (open c w).2 = Ok w' -> addToMenu_state w' = addToMenu_state w.
Proof.
  unfold open. destruct (contextPeer c); [ | by intros [= <-]].
  destruct (open_bot c); [ | done]. apply addToMenu_state_request.
Qed.

Lemma requestAddToMenu_done_eq result w :
  requestAddToMenu_done result w
  = let open_ := {| contextPeer := _addToMenuPeer (self w);
                    open_bot := _addToMenuBot (self w);
                    open_startCommand := _addToMenuStartCommand (self w) |} in
    match result with
    | MTPattachMenuBotsBot data us =>
      let v := processUsers us (addToMenu_taken w) in
      match ParseAttachBot data v with
      | Some parsed =>
        if bool_decide (_addToMenuBot (self w) = Some (user parsed))
        then
          if inactive parsed then Ok (confirmAddToMenu parsed open_ v)
          else
            let r := open open_ (requestBots v) in
            if r.1 then r.2
            else bind r.2 (λ w, Ok (toast lng_bot_menu_already_added w))
        else Ok v
      | None => Ok v
      end
    | _ => Disabled
    end.
Proof. reflexivity. Qed.

(** X10. Whatever the response to the registration query, its handlers leave
    the four fields of the flow reset: the success handler takes them before
    it looks at the response, and neither [requestBots], [request] nor the
    confirm box writes them. *)
Theorem registration_completion_resets_the_flow (result : Response) (w w' : World) :
  requestAddToMenu_done result w = Ok w' ∨ requestAddToMenu_fail w = w' ->
  _addToMenuId (self w') = 0
  ∧ _addToMenuBot (self w') = None
  ∧ _addToMenuPeer (self w') = None
  ∧ _addToMenuStartCommand (self w') = ""%string.
Proof.
  intros H.
  assert (Hst : addToMenu_state w' = (0, None, None, ""%string));
    [ | by injection Hst as -> -> -> ->].
  destruct H as [H | <-]; [ | reflexivity].
  rewrite requestAddToMenu_done_eq in H. cbv zeta in H.
  destruct result as [ | | | | | data us | | ]; try discriminate H.
  assert (Hv : addToMenu_state (processUsers us (addToMenu_taken w))
               = (0, None, None, ""%string)) by reflexivity.
  revert H Hv. generalize (processUsers us (addToMenu_taken w)). intros v H Hv.
  destruct (ParseAttachBot data v) as [parsed | ]; [ | by injection H as <-].
  destruct (bool_decide _); [ | by injection H as <-].
  destruct (inactive parsed).
  { injection H as <-. by rewrite addToMenu_state_confirmAddToMenu. }
  destruct (open _ (requestBots v)) as [[ | ] o] eqn:Hopen; cbn [fst snd] in H.
  - apply (f_equal snd) in Hopen. cbn [snd] in Hopen. rewrite H in Hopen.
    apply addToMenu_state_open in Hopen.
    by rewrite Hopen, addToMenu_state_requestBots.
  - apply (f_equal snd) in Hopen. cbn [snd] in Hopen.
    destruct o as [v' | | ]; try discriminate H. cbn [bind] in H. injection H as <-.
    apply addToMenu_state_open in Hopen.
    by rewrite addToMenu_state_toast, Hopen, addToMenu_state_requestBots.
Qed.

Lemma registration_completion_resets_the_flow_witness :
  let w := after [CallRequestAddToMenu (Some chat) 7 "go"%string] in
  _addToMenuId (self (requestAddToMenu_fail w)) = 0.
Proof.
  cbv zeta.
  apply (registration_completion_resets_the_flow MTPbool
           (after [CallRequestAddToMenu (Some chat) 7 "go"%string])).
  right. reflexivity.
Defined.

Lemma requestAddToMenu_eq peer bot sc w :
  requestAddToMenu peer bot sc w
  = if negb (supportsMenu bot w) then toast lng_bot_menu_not_supported w
    else
      let v := upd (set_addToMenuPeer peer) (upd (set_addToMenuStartCommand sc) w) in
      if decide (_addToMenuId (self w) ≠ 0)
      then
        if bool_decide (_addToMenuBot (self w) = Some bot) then v
        else
          upd (set_addToMenuId (next_id w))
            (api_send (MTPmessages_GetAttachMenuBot bot)
               (upd (set_addToMenuBot (Some bot))
                  (api_cancel (_addToMenuId (self w)) (upd (set_addToMenuId 0) v))))
      else
        upd (set_addToMenuId (next_id w))
          (api_send (MTPmessages_GetAttachMenuBot bot)
             (upd (set_addToMenuBot (Some bot)) v)).
Proof. reflexivity. Qed.

(** X11. [requestAddToMenu] for a bot that does not support the attach menu
    only shows a toast.  For one that does, in every reachable world, it
    leaves exactly one registration query in flight, the one [_addToMenuId]
    names, asking for this bot, and remembers the peer and the start
    command; when a query for this bot was in flight already, nothing is
    sent. *)
Theorem requestAddToMenu_asks_once_for_the_bot (peer : option PeerId) (bot : UserId)
    (sc : string) (w : World) :
  reachable w ->
  let w' := requestAddToMenu peer bot sc w in
  (supportsMenu bot w = false -> w' = toast lng_bot_menu_not_supported w)
  ∧ (supportsMenu bot w = true ->
       (_addToMenuId (self w'), MTPmessages_GetAttachMenuBot bot) ∈ pending w'
       ∧ count is_addToMenu (pending w') = 1
       ∧ _addToMenuBot (self w') = Some bot
       ∧ _addToMenuPeer (self w') = peer
       ∧ _addToMenuStartCommand (self w') = sc
       ∧ ui w' = ui w
       ∧ (_addToMenuId (self w) ≠ 0 -> _addToMenuBot (self w) = Some bot ->
          sent w' = sent w)).
Proof.
  intros Hw w'.
  assert (Hwf' : api_wf w').
  { eapply api_wf_steps; [apply steps_requestAddToMenu | by apply api_wf_reachable]. }
  apply api_wf_reachable in Hw as [_ _ Hh _ _ _ _ _ _].
  subst w'. rewrite requestAddToMenu_eq in *. split.
  { by intros ->. }
  intros Hs. rewrite Hs in *. cbn [negb] in *. cbv zeta in *.
  assert (Hfields :
    ∀ v, api_wf v -> _addToMenuId (self v) ≠ 0 -> _addToMenuBot (self v) = Some bot ->
      (_addToMenuId (self v), MTPmessages_GetAttachMenuBot bot) ∈ pending v
      ∧ count is_addToMenu (pending v) = 1).
  { intros v [Hids Hnd _ _ _ _ _ Hadd Hal] Hne Hbot.
    destruct (Hal Hne) as [b Hin]. destruct (Hadd _ _ Hin) as [_ Hb].
    assert (b = bot) as -> by congruence. split; [done | ].
    pose proof (count_pos is_addToMenu _ _ Hin eq_refl).
    assert (count is_addToMenu (pending v) ≤ 1); [ | lia].
    apply (count_le_1 _ _ (_addToMenuId (self v))); [done | ].
    intros [id r] Hp Hk. destruct r; try discriminate Hk. by destruct (Hadd _ _ Hp). }
  case_decide as Hid; [case_bool_decide as Hbot | ].
  - destruct (Hfields _ Hwf' Hid Hbot). by split_and!.
  - destruct (Hfields _ Hwf') as [? ?]; [cbn; lia | done | ]. by split_and!.
  - destruct (Hfields _ Hwf') as [? ?]; [cbn; lia | done | ]. by split_and!.
Qed.

Lemma requestAddToMenu_asks_once_for_the_bot_witness :
  let w := after [CallRequestAddToMenu None 8 ""%string] in
  let w' := requestAddToMenu (Some chat) 7 "go"%string w in
  count is_addToMenu (pending w') = 1.
Proof.
  cbv zeta.
  apply (requestAddToMenu_asks_once_for_the_bot (Some chat) 7 "go"%string
           (after [CallRequestAddToMenu None 8 ""%string])).
  - apply after_reachable.
  - vm_compute. reflexivity.
Defined.

(** ** Opening by username *)

Lemma request_username_eq peer botUsername startCommand w :
  request_username peer botUsername startCommand w
  = if isEmpty botUsername then Ok w
    else if bool_decide (_peer (self w) = Some peer)
            && bool_decide (toLower (current_username w) = toLower botUsername)
            && bool_decide (_startCommand (self w) = startCommand)
    then match _panel (self w) with
         | Some _ => Ok (log RequestActivate w)
         | None => Ok w
         end
    else
      let v := resolving peer botUsername startCommand w in
      match peerByUsername botUsername w with
      | Some p => Ok (resolve_done p v)
      | None =>
        Ok (upd (set_requestId (next_id w))
              (api_send (MTPcontacts_ResolveUsername botUsername) v))
      end.
Proof.
  unfold request_username. destruct (isEmpty botUsername); [done | ].
  change (match _bot (self w) with
          | Some b => username (userData b w)
          | None => _botUsername (self w)
          end) with (current_username w).
  destruct (_ && _); [done | ]. cbv zeta. unfold resolve, resolveUsername.
  fold (resolving peer botUsername startCommand w).
  replace (_peer (self (resolving peer botUsername startCommand w)))
    with (Some peer) by reflexivity.
  replace (_botUsername (self (resolving peer botUsername startCommand w)))
    with botUsername by reflexivity.
  replace (peerByUsername botUsername (resolving peer botUsername startCommand w))
    with (peerByUsername botUsername w) by reflexivity.
  destruct (peerByUsername botUsername w); reflexivity.
Qed.

Lemma sends_requestAddToMenu peer bot sc w :
  sends is_addToMenu w (requestAddToMenu peer bot sc w).
Proof.
  rewrite requestAddToMenu_eq. destruct (negb _); [by apply sends_nothing | ].
  cbv zeta. case_decide; [case_bool_decide | ].
  - by apply sends_nothing.
  - by apply (sends_one _ (MTPmessages_GetAttachMenuBot bot)).
  - by apply (sends_one _ (MTPmessages_GetAttachMenuBot bot)).
Qed.

Lemma sends_resolve_done p v : sends is_addToMenu v (resolve_done p v).
Proof.
  unfold resolve_done. cbv zeta.
  destruct (_bot (self (upd (set_bot (asUser p)) v))) as [b | ].
  - eapply sends_trans; [ | apply sends_requestAddToMenu]. by apply sends_nothing.
  - by apply sends_nothing.
Qed.

Lemma fields_requestAddToMenu peer b sc v :
  (_peer (self (requestAddToMenu peer b sc v)),
   _botUsername (self (requestAddToMenu peer b sc v)),
   _startCommand (self (requestAddToMenu peer b sc v)),
   _panel (self (requestAddToMenu peer b sc v)))
  = (_peer (self v), _botUsername (self v), _startCommand (self v), _panel (self v)).
Proof.
  rewrite requestAddToMenu_eq. destruct (negb _); [reflexivity | ].
  cbv zeta. case_decide; [case_bool_decide | ]; reflexivity.
Qed.

Lemma resolve_done_user b v :
  resolve_done (inl b) v
  = requestAddToMenu (_peer (self v)) b (_startCommand (self v)) (upd (set_bot (Some b)) v).
Proof. reflexivity. Qed.

Lemma resolve_done_chat c v :
  resolve_done (inr c) v = toast lng_bot_menu_not_supported (upd (set_bot None) v).
Proof. reflexivity. Qed.

Lemma resolving_fields peer botUsername startCommand w :
  _peer (self (resolving peer botUsername startCommand w)) = Some peer
  ∧ _botUsername (self (resolving peer botUsername startCommand w)) = botUsername
  ∧ _startCommand (self (resolving peer botUsername startCommand w)) = startCommand
  ∧ _panel (self (resolving peer botUsername startCommand w)) = None
  ∧ _bot (self (resolving peer botUsername startCommand w)) = None
  ∧ sent (resolving peer botUsername startCommand w) = sent w
  ∧ ui (resolving peer botUsername startCommand w) = ui w
  ∧ next_id (resolving peer botUsername startCommand w) = next_id w
  ∧ pending (resolving peer botUsername startCommand w) = pending (cancel w).
Proof. by split_and!. Qed.

(** X12. [request(peer, botUsername, startCommand)] does nothing for an empty
    username.  For another context than the current one it cancels the
    session and remembers the peer, the username and the start command; a
    username found in the local cache goes to the add-to-menu flow without
    any [MTPcontacts_ResolveUsername] (a cached chat only gets the "not
    supported" toast), and an unknown one sends exactly one resolve request,
    held in [_requestId].  No open request is sent either way. *)
Theorem request_username_resolves_locally_first (peer : PeerId)
    (botUsername startCommand : string) (w : World) :
  request_username peer ""%string startCommand w = Ok w
  ∧ (botUsername ≠ ""%string ->
     ¬ (_peer (self w) = Some peer
        ∧ toLower (current_username w) = toLower botUsername
        ∧ _startCommand (self w) = startCommand) ->
     ∃ w', request_username peer botUsername startCommand w = Ok w'
       ∧ _peer (self w') = Some peer
       ∧ _botUsername (self w') = botUsername
       ∧ _startCommand (self w') = startCommand
       ∧ _panel (self w') = None
       ∧ count is_open (sent w') = count is_open (sent w)
       ∧ match peerByUsername botUsername w with
         | Some (inl b) =>
           w' = requestAddToMenu (Some peer) b startCommand
                  (upd (set_bot (Some b)) (resolving peer botUsername startCommand w))
           ∧ count is_resolve (sent w') = count is_resolve (sent w)
         | Some (inr _) =>
           sent w' = sent w
           ∧ ui w' = (ui w ++ [ShowMultilineToast lng_bot_menu_not_supported])%list
           ∧ _bot (self w') = None
         | None =>
           sent w' = (sent w ++ [(next_id w, MTPcontacts_ResolveUsername botUsername)])%list
           ∧ pending w'
             = (pending (cancel w)
                ++ [(next_id w, MTPcontacts_ResolveUsername botUsername)])%list
           ∧ _requestId (self w') = next_id w
           ∧ _bot (self w') = None
         end).
Proof.
  split; [reflexivity | ]. intros Hne Hctx. rewrite request_username_eq.
  unfold isEmpty. rewrite (bool_decide_eq_false_2 _ Hne).
  assert (Hb : bool_decide (_peer (self w) = Some peer)
               && bool_decide (toLower (current_username w) = toLower botUsername)
               && bool_decide (_startCommand (self w) = startCommand) = false).
  { apply not_true_is_false. intros Ht. apply Hctx.
    apply andb_prop in Ht as [Ht H3]. apply andb_prop in Ht as [H1 H2].
    by apply bool_decide_eq_true in H1, H2, H3. }
  rewrite Hb. cbv zeta.
  destruct (resolving_fields peer botUsername startCommand w)
    as (Hp & Hu & Hc & Hpanel & Hbot & Hsent & Hui & Hnext & Hpend).
  revert Hp Hu Hc Hpanel Hbot Hsent Hui Hnext Hpend.
  generalize (resolving peer botUsername startCommand w).
  intros v Hp Hu Hc Hpanel Hbot Hsent Hui Hnext Hpend.
  destruct (peerByUsername botUsername w) as [[b | c] | ].
  - eexists. split; [reflexivity | ].
    pose proof (sends_resolve_done (inl b) v) as Hs.
    rewrite resolve_done_user in *. rewrite Hp, Hc in *.
    pose proof (fields_requestAddToMenu (Some peer) b startCommand
                  (upd (set_bot (Some b)) v)) as Hf.
    injection Hf as -> -> -> ->.
    split_and!; try done.
    + by rewrite (sends_count is_addToMenu is_open _ _ Hs), Hsent by (by intros []).
    + by rewrite (sends_count is_addToMenu is_resolve _ _ Hs), Hsent by (by intros []).
  - eexists. split; [reflexivity | ]. rewrite resolve_done_chat.
    split_and!; try done.
    + replace (sent (toast lng_bot_menu_not_supported (upd (set_bot None) v)))
        with (sent v) by reflexivity. by rewrite Hsent.
    + replace (ui (toast lng_bot_menu_not_supported (upd (set_bot None) v)))
        with (ui v ++ [ShowMultilineToast lng_bot_menu_not_supported])
        by reflexivity.
      by rewrite Hui.
  - eexists. split; [reflexivity | ].
    assert (Hs : sent (upd (set_requestId (next_id w))
                         (api_send (MTPcontacts_ResolveUsername botUsername) v))
                 = sent w ++ [(next_id w, MTPcontacts_ResolveUsername botUsername)]).
    { replace (sent (upd (set_requestId (next_id w))
                       (api_send (MTPcontacts_ResolveUsername botUsername) v)))
        with (sent v ++ [(next_id v, MTPcontacts_ResolveUsername botUsername)])
        by reflexivity.
      by rewrite Hsent, Hnext. }
    split_and!; try done.
    + rewrite Hs, count_app. unfold count at 2. cbn. lia.
    + replace (pending (upd (set_requestId (next_id w))
                          (api_send (MTPcontacts_ResolveUsername botUsername) v)))
        with (pending v ++ [(next_id v, MTPcontacts_ResolveUsername botUsername)])
        by reflexivity.
      by rewrite Hpend, Hnext.
Qed.

Lemma request_username_resolves_locally_first_witness :
  ∃ w', request_username chat "zbot"%string "go"%string scenario = Ok w'
        ∧ _peer (self w') = Some chat.
Proof.
  destruct (request_username_resolves_locally_first chat "zbot"%string "go"%string
              scenario) as [_ H].
  destruct H as (w' & Hw' & Hp & _).
  - discriminate.
  - intros (Hp & _). vm_compute in Hp. discriminate Hp.
  - by exists w'.
Defined.

(** ** A directory snapshot *)

Lemma foldl_push_parsed w acc bots :
  foldl (push_parsed w) acc bots = acc ++ omap (kept w) bots.
Proof.
  revert acc. induction bots as [ | bot bots IH]; intros acc.
  - by rewrite app_nil_r.
  - cbn [foldl]. rewrite IH.
    assert (Hpush : push_parsed w acc bot
                    = acc ++ from_option (λ y, [y]) [] (kept w bot)).
    { unfold push_parsed, kept. destruct (ParseAttachBot bot w) as [parsed | ];
        [destruct (inactive parsed) | ]; cbn [from_option]; by rewrite ?app_nil_r. }
    rewrite Hpush, <- app_assoc. f_equal.
    replace (omap (kept w) (bot :: bots))
      with (match kept w bot with
            | Some y => y :: omap (kept w) bots
            | None => omap (kept w) bots
            end) by reflexivity.
    by destruct (kept w bot).
Qed.

(** X13. When a directory request completes with a snapshot, the session
    ingests the users of the snapshot and the cached bots become, in the
    order of the snapshot, the bots that parse against the updated users
    (a loaded user that is a bot and supports the attach menu) and are not
    inactive, each with its media view; the hash is the one of the snapshot
    and the handle is cleared. *)
Theorem snapshot_keeps_the_active_parsed_bots (id : mtpRequestId) (h hash : N)
    (bots : list MTPattachMenuBot) (us : list (nat * UserData)) (w : World) :
  lookup_request id w = Some (MTPmessages_GetAttachMenuBots h) ->
  ∃ w', step (Done id (MTPattachMenuBots hash bots us)) w = Ok w'
    ∧ users w' = users (processUsers us w)
    ∧ _attachBots (self w') = omap (kept w') bots
    ∧ (∀ b, b ∈ _attachBots (self w')
            ↔ ∃ bot u, bot ∈ bots
                ∧ users w' !! vbot_id bot = Some u
                ∧ isBot u = true
                ∧ (supportsAttachMenu <$> botInfo u) = Some true
                ∧ is_inactive bot = false
                ∧ b = {| user := vbot_id bot; icon := ResolveIcon bot;
                         media := ResolveIcon bot; short_name := vshort_name bot;
                         inactive := false |})
    ∧ _botsHash (self w') = hash
    ∧ _botsRequestId (self w') = 0
    ∧ ui w' = (ui w ++ [AttachBotsUpdates])%list.
Proof.
  intros Hreq. eexists. split.
  { unfold step. rewrite Hreq. cbn [on_done]. unfold requestBots_done. cbv zeta.
    reflexivity. }
  split; [reflexivity | ]. split.
  { set (v := upd (set_attachBots []) _).
    change (foldl (push_parsed v) [] bots = omap (kept (log AttachBotsUpdates
             (upd (set_attachBots (foldl (push_parsed v) [] bots)) v))) bots).
    rewrite foldl_push_parsed. reflexivity. }
  split; [ | by split_and!].
  intros b. set (v := upd (set_attachBots []) _).
  change (b ∈ foldl (push_parsed v) [] bots ↔
          ∃ bot u, bot ∈ bots ∧ users v !! vbot_id bot = Some u ∧ isBot u = true
            ∧ (supportsAttachMenu <$> botInfo u) = Some true
            ∧ is_inactive bot = false
            ∧ b = {| user := vbot_id bot; icon := ResolveIcon bot;
                     media := ResolveIcon bot; short_name := vshort_name bot;
                     inactive := false |}).
  rewrite foldl_push_parsed. cbn [app]. rewrite list_elem_of_omap.
  generalize v. clear. intros v. split.
  - intros (bot & Hin & Hk). unfold kept, ParseAttachBot in Hk.
    destruct (users v !! vbot_id bot) as [u | ] eqn:Hu; [ | done].
    destruct (isBot u) eqn:Hbot; [ | done]. cbn [andb] in Hk.
    destruct (botInfo u) as [i | ] eqn:Hi; [ | done].
    destruct (supportsAttachMenu i) eqn:Hs; [ | done]. cbv zeta in Hk.
    cbn [inactive] in Hk. destruct (is_inactive bot) eqn:Hina; [done | ].
    injection Hk as <-. exists bot, u. rewrite Hi. cbn. rewrite Hs.
    by split_and!.
  - intros (bot & u & Hin & Hu & Hbot & Hs & Hina & ->). exists bot.
    split; [done | ]. unfold kept, ParseAttachBot. rewrite Hu, Hbot.
    destruct (botInfo u) as [i | ]; [ | done]. cbn in Hs. injection Hs as ->.
    cbn [andb inactive]. by rewrite Hina.
Qed.

Lemma snapshot_keeps_the_active_parsed_bots_witness :
  ∃ w', step (Done 1 (MTPattachMenuBots 5 [] [])) (after [CallRequestBots]) = Ok w'
        ∧ _botsRequestId (self w') = 0.
Proof.
  destruct (snapshot_keeps_the_active_parsed_bots 1 0 5 [] [] (after [CallRequestBots]))
    as (w' & Hstep & _ & _ & _ & _ & Hid & _).
  - vm_compute. reflexivity.
  - by exists w'.
Defined.

(** ** Removing a bot from the menu *)

Lemma find_snoc_fresh (l : list (nat * Request)) n r :
  (∀ p, p ∈ l -> p.1 < n) ->
  List.find (λ p, bool_decide (p.1 = n)) (l ++ [(n, r)]) = Some (n, r).
Proof.
  induction l as [ | a l IH]; intros Hlt; cbn.
  - by rewrite bool_decide_eq_true_2.
  - rewrite bool_decide_eq_false_2.
    + apply IH. intros p Hp. apply Hlt. by right.
    + specialize (Hlt a (list_elem_of_here _ _)). lia.
Qed.

Lemma filter_snoc_fresh (l : list (nat * Request)) n r :
  (∀ p, p ∈ l -> p.1 < n) -> filter (λ p, p.1 ≠ n) (l ++ [(n, r)]) = l.
Proof.
  intros Hlt. rewrite filter_app, filter_cons, decide_False by (cbn; lia).
  rewrite filter_nil, app_nil_r. induction l as [ | a l IH]; [done | ].
  rewrite filter_cons, decide_True.
  - f_equal. apply IH. intros p Hp. apply Hlt. by right.
  - specialize (Hlt a (list_elem_of_here _ _)). lia.
Qed.

(** A request that was just sent is the one its handle answers for, and its
    completion leaves the other requests in flight. *)
Lemma lookup_request_api_send r w :
  api_wf w ->
  lookup_request (next_id w) (api_send r w) = Some r
  ∧ pending (complete (next_id w) (api_send r w)) = pending w.
Proof.
  intros [Hids _ _ _ _ _ _ _ _]. split.
  - unfold lookup_request.
    replace (pending (api_send r w)) with (pending w ++ [(next_id w, r)])
      by reflexivity.
    rewrite find_snoc_fresh; [done | ]. intros p Hp. apply Hids in Hp. lia.
  - replace (pending (complete (next_id w) (api_send r w)))
      with (filter (λ p, p.1 ≠ next_id w) (pending w ++ [(next_id w, r)]))
      by reflexivity.
    apply filter_snoc_fresh. intros p Hp. apply Hids in Hp. lia.
Qed.

Lemma count_bots_requestBots w :
  api_wf w -> count is_bots (pending (requestBots w)) = 1.
Proof.
  intros Hwf.
  assert (Hwf' : api_wf (requestBots w)).
  { eapply api_wf_steps; [apply steps_requestBots | done]. }
  assert (Hne : _botsRequestId (self (requestBots w)) ≠ 0).
  { unfold requestBots. case_decide as Hz; [done | ].
    destruct Hwf as [_ _ Hh _ _ _ _ _ _]. cbn. lia. }
  destruct Hwf' as [_ Hnd _ _ _ Hbots Hbl _ _].
  destruct (Hbl Hne) as [h Hin]. pose proof (count_pos is_bots _ _ Hin eq_refl).
  pose proof (count_le_1 is_bots _ _ Hnd Hbots). lia.
Qed.

Lemma pending_requestBots P w :
  P (MTPmessages_GetAttachMenuBots (_botsHash (self w))) = false ->
  count P (pending (requestBots w)) = count P (pending w).
Proof.
  intros HP. unfold requestBots. case_decide; [done | ]. cbv zeta.
  replace (pending (upd (set_botsRequestId (next_id w))
                      (api_send (MTPmessages_GetAttachMenuBots (_botsHash (self w))) w)))
    with (pending w ++ [(next_id w, MTPmessages_GetAttachMenuBots (_botsHash (self w)))])
    by reflexivity.
  rewrite count_app. unfold count at 2. cbn. rewrite HP. cbn. lia.
Qed.

(** X14. In every reachable world [removeFromMenu] sends one toggle request
    that no handle of the object holds.  When it succeeds, the handler clears
    [_requestId], leaves exactly one directory request in flight and shows
    the "removed" toast; the cached bots stay as they are until the directory
    arrives. *)
Theorem removeFromMenu_round_trip (bot : UserId) (w : World) :
  reachable w ->
  let w1 := removeFromMenu bot w in
  lookup_request (next_id w) w1
  = Some (MTPmessages_ToggleBotInAttachMenu bot false RemovedToast)
  ∧ self w1 = self w
  ∧ ∃ w2, step (Done (next_id w) MTPbool) w1 = Ok w2
      ∧ ui w2 = (ui w ++ [ShowMultilineToast lng_bot_remove_from_menu_done])%list
      ∧ _requestId (self w2) = 0
      ∧ count is_bots (pending w2) = 1
      ∧ count is_toggle (pending w2) = count is_toggle (pending w)
      ∧ _attachBots (self w2) = _attachBots (self w).
Proof.
  intros Hwf%api_wf_reachable w1. subst w1. unfold removeFromMenu, toggleInMenu.
  destruct (lookup_request_api_send
              (MTPmessages_ToggleBotInAttachMenu bot false RemovedToast) w Hwf)
    as [Hlook Hpend].
  split; [exact Hlook | ]. split; [reflexivity | ].
  unfold step. rewrite Hlook. cbn [on_done]. unfold toggleInMenu_done. cbv zeta.
  cbn [run_callback]. eexists. split; [reflexivity | ].
  set (v := upd (set_requestId 0) (complete (next_id w) (api_send _ w))) in *.
  assert (Hv : api_wf v).
  { apply api_wf_zero_request. eapply api_wf_complete; [exact Hlook | done | done | ].
    by apply api_wf_send. }
  assert (Hpv : pending v = pending w) by exact Hpend.
  assert (Huv : ui v = ui w) by reflexivity.
  assert (Hrv : _requestId (self v) = 0) by reflexivity.
  assert (Hbv : _attachBots (self v) = _attachBots (self w)) by reflexivity.
  clearbody v. split_and!.
  - replace (ui (toast lng_bot_remove_from_menu_done (requestBots v)))
      with (ui (requestBots v) ++ [ShowMultilineToast lng_bot_remove_from_menu_done])
      by reflexivity.
    f_equal. rewrite <- Huv. unfold requestBots. by case_decide.
  - replace (_requestId (self (toast lng_bot_remove_from_menu_done (requestBots v))))
      with (_requestId (self (requestBots v))) by reflexivity.
    rewrite <- Hrv. unfold requestBots. by case_decide.
  - replace (pending (toast lng_bot_remove_from_menu_done (requestBots v)))
      with (pending (requestBots v)) by reflexivity.
    by apply count_bots_requestBots.
  - replace (pending (toast lng_bot_remove_from_menu_done (requestBots v)))
      with (pending (requestBots v)) by reflexivity.
    by rewrite pending_requestBots, Hpv.
  - replace (_attachBots (self (toast lng_bot_remove_from_menu_done (requestBots v))))
      with (_attachBots (self (requestBots v))) by reflexivity.
    rewrite <- Hbv. unfold requestBots. by case_decide.
Qed.

Lemma removeFromMenu_round_trip_witness :
  let w := after [CallRequest None chat 7 button] in
  lookup_request (next_id w) (removeFromMenu 8 w)
  = Some (MTPmessages_ToggleBotInAttachMenu 8 false RemovedToast).
Proof.
  cbv zeta. apply (removeFromMenu_round_trip 8 (after [CallRequest None chat 7 button])).
  apply after_reachable.
Defined.

(** ** The attach menu *)

Lemma request_None_sends peer bot button w :
  ∃ w', request None peer bot button w = Ok w'
    ∧ boxes w' = boxes w
    ∧ (w' = w
       ∨ sent w'
         = sent w
           ++ [(next_id w,
                MTPmessages_RequestWebView
                  ([f_theme_params]
                   ++ (if isEmpty (url button) then [] else [f_url])
                   ++ (if isEmpty (startCommand button) then [] else [f_start_param]))
                  peer bot (url button) (startCommand button) (text button))]).
Proof.
  assert (Hgo : ∀ v, sent v = sent w -> next_id v = next_id w -> boxes v = boxes w ->
    ∃ w', request_button button
            (upd (set_peer (Some peer)) (upd (set_bot (Some bot)) (cancel v))) = Ok w'
      ∧ boxes w' = boxes w
      ∧ (w' = w
         ∨ sent w'
           = sent w
             ++ [(next_id w,
                  MTPmessages_RequestWebView
                    ([f_theme_params]
                     ++ (if isEmpty (url button) then [] else [f_url])
                     ++ (if isEmpty (startCommand button) then [] else [f_start_param]))
                    peer bot (url button) (startCommand button) (text button))])).
  { intros v Hs Hn Hb. eexists. split; [reflexivity | ]. split; [exact Hb | ]. right.
    rewrite <- Hs, <- Hn. reflexivity. }
  unfold request. cbv zeta. destruct (_ && _); [ | by apply Hgo].
  destruct (_panel (self w)); [by apply Hgo | ].
  case_decide; [ | by apply Hgo]. exists w. split_and!; [done | done | by left].
Qed.

(** X15. The attach menu lists the two fixed actions and then one action per
    cached bot, in the order of the cache; in every reachable world each of
    these bots is active.  The action of a bot does nothing without an active
    chat; with one, it opens the bot in that chat without any consent box:
    either nothing changes (the same bot is already being opened there) or one
    [MTPmessages_RequestWebView] is sent with the theme flag only and an empty
    url, start parameter and button text. *)
Theorem menu_lists_and_opens_the_cached_bots (w : World) :
  reachable w ->
  refresh w
  = AttachAction lng_attach_photo_or_video true
    :: AttachAction lng_attach_document false
    :: (BotActionFor <$> _attachBots (self w))
  ∧ refresh w !! 0 = Some (AttachAction lng_attach_photo_or_video true)
  ∧ refresh w !! 1 = Some (AttachAction lng_attach_document false)
  ∧ (∀ i, refresh w !! (2 + i) = BotActionFor <$> (_attachBots (self w) !! i))
  ∧ List.length (refresh w) = 2 + List.length (_attachBots (self w))
  ∧ ∀ bot, BotActionFor bot ∈ refresh w ->
      bot ∈ _attachBots (self w)
      ∧ inactive bot = false
      ∧ callback None bot w = Ok w
      ∧ ∀ peer, ∃ w', callback (Some peer) bot w = Ok w'
          ∧ boxes w' = boxes w
          ∧ (w' = w
             ∨ sent w'
               = sent w
                 ++ [(next_id w,
                      MTPmessages_RequestWebView [f_theme_params] peer (user bot)
                        "" "" "")]).
Proof.
  intros Hw%bots_inv_reachable. split_and!.
  - reflexivity.
  - reflexivity.
  - reflexivity.
  - intros i.
    change (refresh w !! (2 + i)) with ((BotActionFor <$> _attachBots (self w)) !! i).
    apply list_lookup_fmap.
  - unfold refresh. by rewrite length_app, length_fmap.
  - intros bot Hin. unfold refresh in Hin.
    apply elem_of_app in Hin as [Hin | Hin].
    { apply elem_of_cons in Hin as [Hin | Hin]; [discriminate Hin | ].
      apply list_elem_of_singleton in Hin. discriminate Hin. }
    apply list_elem_of_fmap in Hin as (b & [= <-] & Hin).
    split; [done | ]. split.
    { by apply (proj1 (Forall_forall _ _) Hw). }
    split; [reflexivity | ]. intros peer.
    exact (request_None_sends peer (user bot)
             {| text := ""; startCommand := ""; url := "" |} w).
Qed.

Lemma menu_lists_and_opens_the_cached_bots_witness :
  ∃ w,
    run [CallRequestBots;
         Done 1 (MTPattachMenuBots 5
                   [ {| vbot_id := 8; vshort_name := "Y"%string; is_inactive := false;
                        vicons := [] |};
                     {| vbot_id := 7; vshort_name := "X"%string; is_inactive := false;
                        vicons := [ {| vname := "default_static"%string;
                                       vicon := 41 |} ] |} ]
                   [])] scenario = Ok w
    ∧ refresh w
      = [AttachAction lng_attach_photo_or_video true;
         AttachAction lng_attach_document false;
         BotActionFor {| user := 8; icon := None; media := None;
                         short_name := "Y"%string; inactive := false |};
         BotActionFor {| user := 7; icon := Some 41; media := Some 41;
                         short_name := "X"%string; inactive := false |}].
Proof.
  set (es := [CallRequestBots;
              Done 1 (MTPattachMenuBots 5
                        [ {| vbot_id := 8; vshort_name := "Y"%string;
                             is_inactive := false; vicons := [] |};
                          {| vbot_id := 7; vshort_name := "X"%string;
                             is_inactive := false;
                             vicons := [ {| vname := "default_static"%string;
                                            vicon := 41 |} ] |} ]
                        [])]).
  assert (Hrun : run es scenario = Ok (after es)) by (vm_compute; reflexivity).
  assert (Hbots : _attachBots (self (after es))
                  = [ {| user := 8; icon := None; media := None;
                         short_name := "Y"%string; inactive := false |};
                      {| user := 7; icon := Some 41; media := Some 41;
                         short_name := "X"%string; inactive := false |} ])
    by (vm_compute; reflexivity).
  destruct (menu_lists_and_opens_the_cached_bots (after es) (after_reachable es))
    as (Hmenu & _).
  exists (after es). split; [exact Hrun | ]. by rewrite Hmenu, Hbots.
Defined.

(** ** From the request to the panel *)

Lemma lookup_request_held r v :
  api_wf v ->
  lookup_request (next_id v) (upd (set_requestId (next_id v)) (api_send r v)) = Some r
  ∧ pending (complete (next_id v) (upd (set_requestId (next_id v)) (api_send r v)))
    = pending v.
Proof. intros Hv. exact (lookup_request_api_send r v Hv). Qed.

Lemma pending_cancel_eq w :
  pending (cancel w)
  = if decide (_prolongId (self w) = 0)
    then (if decide (_requestId (self w) = 0) then pending w
          else filter (λ p, p.1 ≠ _requestId (self w)) (pending w))
    else filter (λ p, p.1 ≠ _prolongId (self w))
           (if decide (_requestId (self w) = 0) then pending w
            else filter (λ p, p.1 ≠ _requestId (self w)) (pending w)).
Proof. reflexivity. Qed.

(** The world in which [request] sends, when it does not return early. *)
Lemma request_None_opening peer bot button w :
  ¬ (_peer (self w) = Some peer ∧ _bot (self w) = Some bot
     ∧ _panel (self w) = None ∧ _requestId (self w) ≠ 0) ->
  ∃ v, request None peer bot button w
       = Ok (upd (set_requestId (next_id v))
               (api_send (MTPmessages_RequestWebView
                            ([f_theme_params]
                             ++ (if isEmpty (url button) then [] else [f_url])
                             ++ (if isEmpty (startCommand button) then []
                                 else [f_start_param]))
                            peer bot (url button) (startCommand button) (text button))
                  v))
    ∧ steps w v
    ∧ next_id v = next_id w
    ∧ pending v = pending (cancel w)
    ∧ users v = users w
    ∧ this v = this w
    ∧ ActiveWebViews v = ActiveWebViews w ∖ {[this w]}
    ∧ _peer (self v) = Some peer
    ∧ _bot (self v) = Some bot.
Proof.
  intros Hbusy.
  assert (Hgo : ∀ w0, kshape w0 = kshape w -> users w0 = users w ->
    ∃ v, request_button button
           (upd (set_peer (Some peer)) (upd (set_bot (Some bot)) (cancel w0)))
         = Ok (upd (set_requestId (next_id v))
                 (api_send (MTPmessages_RequestWebView
                              ([f_theme_params]
                               ++ (if isEmpty (url button) then [] else [f_url])
                               ++ (if isEmpty (startCommand button) then []
                                   else [f_start_param]))
                              peer bot (url button) (startCommand button)
                              (text button))
                    v))
      ∧ steps w v
      ∧ next_id v = next_id w
      ∧ pending v = pending (cancel w)
      ∧ users v = users w
      ∧ this v = this w
      ∧ ActiveWebViews v = ActiveWebViews w ∖ {[this w]}
      ∧ _peer (self v) = Some peer
      ∧ _bot (self v) = Some bot).
  { intros w0 Hk Hu.
    exists (upd (set_startCommand (startCommand button))
              (upd (set_peer (Some peer)) (upd (set_bot (Some bot)) (cancel w0)))).
    split; [reflexivity | ].
    assert (Hsteps : steps w (upd (set_startCommand (startCommand button))
              (upd (set_peer (Some peer)) (upd (set_bot (Some bot)) (cancel w0))))).
    { eapply steps_trans; [apply rtc_once, prim_field, Hk | ].
      eapply steps_trans; [apply steps_cancel | ].
      apply rtc_once, prim_field. reflexivity. }
    split; [exact Hsteps | ].
    unfold kshape in Hk. injection Hk as Hn Hp _ Hr Hpr _ _ _ Ht Ha _ _.
    split_and!; try done.
    - replace (pending (upd (set_startCommand (startCommand button))
                 (upd (set_peer (Some peer)) (upd (set_bot (Some bot)) (cancel w0)))))
        with (pending (cancel w0)) by reflexivity.
      rewrite !pending_cancel_eq.
      rewrite Hp, Hr, Hpr. reflexivity.
    - replace (ActiveWebViews (upd (set_startCommand (startCommand button))
                 (upd (set_peer (Some peer)) (upd (set_bot (Some bot)) (cancel w0)))))
        with (ActiveWebViews w0 ∖ {[this w0]}) by reflexivity.
      by rewrite Ha, Ht. }
  unfold request. cbv zeta.
  destruct (bool_decide (_peer (self w) = Some peer)) eqn:Hp;
    [apply bool_decide_eq_true in Hp | by apply Hgo].
  destruct (bool_decide (_bot (self w) = Some bot)) eqn:Hb;
    [apply bool_decide_eq_true in Hb | by apply Hgo].
  cbn [andb]. destruct (_panel (self w)) as [p | ] eqn:Hpanel; [by apply Hgo | ].
  case_decide as Hid; [ | by apply Hgo]. by destruct Hbusy.
Qed.

Lemma show_eq queryId u t bot peer w :
  _bot (self w) = Some bot -> _peer (self w) = Some peer ->
  show queryId u t w = Ok (shown queryId u t bot w).
Proof.
  intros Hb Hp. unfold show, started. rewrite Hb, Hp.
  cbn [upd self set_self set_ActiveWebViews _peer _bot _panel set_panel].
  rewrite Hb, Hp. reflexivity.
Qed.

(** X16. In every reachable world, when [request] with a null controller
    sends its request and the server answers it with a url, the object shows
    a panel for that url, titled with the bot and with the bot's username at
    the bottom, whose closures hold the query id and the button text of the
    call; the object is registered in [ActiveWebViews], [_requestId] is
    cleared, and what is in flight is what [cancel] left. *)
Theorem request_then_result_shows_the_panel (peer : PeerId) (bot : UserId)
    (button : WebViewButton) (query_id : N) (u : string) (w : World) :
  reachable w ->
  ¬ (_peer (self w) = Some peer ∧ _bot (self w) = Some bot
     ∧ _panel (self w) = None ∧ _requestId (self w) ≠ 0) ->
  ∃ w1 w2,
    request None peer bot button w = Ok w1
    ∧ _requestId (self w1) = next_id w
    ∧ step (Done (next_id w) (MTPwebViewResultUrl query_id u)) w1 = Ok w2
    ∧ _panel (self w2)
      = Some {| panel_url := u; panel_title := bot;
                panel_bottom := String "@" (username (userData bot w));
                sendData_queryId := query_id;
                sendData_buttonText := text button;
                lifetime := [WebViewResultSentFilter query_id;
                             TimerEach kProlongTimeout query_id] |}
    ∧ this w2 ∈ ActiveWebViews w2
    ∧ _requestId (self w2) = 0
    ∧ _peer (self w2) = Some peer
    ∧ _bot (self w2) = Some bot
    ∧ pending w2 = pending (cancel w).
Proof.
  intros Hw Hbusy.
  destruct (request_None_opening peer bot button w Hbusy)
    as (v & Hreq & Hsteps & Hn & Hp & Hu & Ht & Ha & Hpeer & Hbot).
  assert (Hv : api_wf v).
  { eapply api_wf_steps; [exact Hsteps | by apply api_wf_reachable]. }
  rewrite Hreq. rewrite <- Hn. clear Hreq.
  set (r := MTPmessages_RequestWebView _ peer bot (url button) (startCommand button)
              (text button)).
  destruct (lookup_request_held r v Hv) as [Hlook Hpend].
  set (w1 := upd (set_requestId (next_id v)) (api_send r v)) in *.
  set (c := upd (set_requestId 0) (complete (next_id v) w1)).
  assert (Hc : _peer (self c) = Some peer ∧ _bot (self c) = Some bot
               ∧ pending c = pending (cancel w) ∧ users c = users w
               ∧ _requestId (self c) = 0).
  { split_and!; try done. by rewrite <- Hp, <- Hpend. }
  destruct Hc as (Hcp & Hcb & Hcpend & Hcu & Hcr).
  assert (Hstep : step (Done (next_id v) (MTPwebViewResultUrl query_id u)) w1
                  = Ok (shown query_id u (text button) bot c)).
  { unfold step. rewrite Hlook. subst r. cbn [on_done]. unfold request_done.
    cbv zeta. fold c. by apply show_eq with peer. }
  assert (Hheld : _requestId (self w1) = next_id v) by reflexivity.
  exists w1, (shown query_id u (text button) bot c).
  clearbody c. clearbody w1.
  split; [reflexivity | ]. split; [exact Hheld | ]. split; [exact Hstep | ].
  split_and!; try done.
  - replace (userData bot w) with (userData bot c); [reflexivity | ].
    unfold userData. by rewrite Hcu.
  - replace (this (shown query_id u (text button) bot c)) with (this c) by reflexivity.
    replace (ActiveWebViews (shown query_id u (text button) bot c))
      with ({[this c]} ∪ ActiveWebViews c) by reflexivity.
    set_solver.
Qed.

Lemma request_then_result_shows_the_panel_witness :
  ∃ w1 w2,
    request None chat 7 button scenario = Ok w1
    ∧ _requestId (self w1) = next_id scenario
    ∧ step (Done (next_id scenario) (MTPwebViewResultUrl 55 "https://x.example/app")) w1
      = Ok w2.
Proof.
  destruct (request_then_result_shows_the_panel chat 7 button 55
              "https://x.example/app" scenario)
    as (w1 & w2 & H1 & H2 & H3 & _).
  - apply reachable_start.
  - intros (Hp & _). vm_compute in Hp. discriminate Hp.
  - by exists w1, w2.
Defined.

(** ** The keepalive in every reachable world *)

Lemma prolong_eq queryId w :
  prolong queryId w
  = match _peer (self w), _bot (self w) with
    | Some peer, Some bot => Ok (prolonged queryId peer bot w)
    | _, _ => Crash
    end.
Proof. reflexivity. Qed.

(** With its panel shown, a reachable world takes a tick as [prolong] for the
    query id of the panel. *)
Lemma tick_eq w p :
  reachable w -> _panel (self w) = Some p ->
  lifetime p = [WebViewResultSentFilter (sendData_queryId p);
                TimerEach kProlongTimeout (sendData_queryId p)]
  ∧ step TimerTick w = prolong (sendData_queryId p) w.
Proof.
  intros [_ Hwf]%panel_inv_reachable Hp. specialize (Hwf p Hp).
  unfold panel_wf in Hwf. split; [exact Hwf | ].
  cbn [step]. by rewrite Hp, Hwf.
Qed.

Lemma prolonged_fields queryId peer bot w :
  pending (prolonged queryId peer bot w)
  = pending (api_cancel (_prolongId (self w)) (upd (set_prolongId 0) w))
    ++ [(next_id w, MTPmessages_ProlongWebView [f_reply_to_msg_id; f_silent] peer bot
                      queryId (_replyToMsgId (self w)))]
  ∧ sent (prolonged queryId peer bot w)
    = sent w
      ++ [(next_id w, MTPmessages_ProlongWebView [f_reply_to_msg_id; f_silent] peer bot
                        queryId (_replyToMsgId (self w)))]
  ∧ _prolongId (self (prolonged queryId peer bot w)) = next_id w
  ∧ _panel (self (prolonged queryId peer bot w)) = _panel (self w)
  ∧ _peer (self (prolonged queryId peer bot w)) = _peer (self w)
  ∧ _bot (self (prolonged queryId peer bot w)) = _bot (self w).
Proof. by split_and!. Qed.

(** C5. In every reachable world at most one prolong request is in flight,
    and it is the one [_prolongId] names.  With the panel shown and the peer
    and the bot set, a keepalive tick returns: it has first cancelled the
    prolong request in flight, leaving none, and then sent one for the query
    id of the panel, which [_prolongId] names from then on; without a peer
    or a bot the tick fails.  The timer that [show] starts on every panel
    ticks every [kProlongTimeout], sixty seconds. *)
Theorem at_most_one_prolong_in_flight (w : World) :
  reachable w ->
  count is_prolong (pending w) ≤ 1
  ∧ (∀ id r, (id, r) ∈ pending w -> is_prolong r = true -> id = _prolongId (self w))
  ∧ (∀ p, _panel (self w) = Some p ->
       let taken := api_cancel (_prolongId (self w)) (upd (set_prolongId 0) w) in
       count is_prolong (pending taken) = 0
       ∧ (∀ q, q ∈ pending w -> is_prolong q.2 = true -> q ∉ pending taken)
       ∧ (∀ peer bot, _peer (self w) = Some peer -> _bot (self w) = Some bot ->
            let r := MTPmessages_ProlongWebView [f_reply_to_msg_id; f_silent] peer bot
                       (sendData_queryId p) (_replyToMsgId (self w)) in
            ∃ w', step TimerTick w = Ok w'
              ∧ pending w' = (pending taken ++ [(next_id w, r)])%list
              ∧ sent w' = (sent w ++ [(next_id w, r)])%list
              ∧ _prolongId (self w') = next_id w
              ∧ count is_prolong (pending w') = 1
              ∧ count is_prolong (sent w') = S (count is_prolong (sent w)))
       ∧ (_peer (self w) = None ∨ _bot (self w) = None -> step TimerTick w = Crash))
  ∧ (∀ w', step TimerTick w = Ok w' ->
       count is_prolong
         (pending (api_cancel (_prolongId (self w)) (upd (set_prolongId 0) w))) = 0
       ∧ count is_prolong (pending w') = 1
       ∧ count is_prolong (sent w') = S (count is_prolong (sent w)))
  ∧ (∀ queryId u t w', show queryId u t w = Ok w' ->
       ∃ p, _panel (self w') = Some p
            ∧ List.find is_timer (lifetime p) = Some (TimerEach kProlongTimeout queryId))
  ∧ kProlongTimeout = 60000%Z.
Proof.
  intros Hw.
  destruct (prolong_in_flight_facts w Hw) as (Hle & Hid & Htick & Hshow & Hk).
  split_and!; try done.
  intros p Hp taken.
  destruct (take_prolongId_clears w (prolong_inv_reachable w Hw)) as [_ Hzero].
  fold taken in Hzero.
  destruct (tick_eq w p Hw Hp) as [_ Hstep]. rewrite prolong_eq in Hstep.
  split_and!.
  - exact Hzero.
  - intros q Hq Hpr Hin. pose proof (count_pos is_prolong _ _ Hin Hpr). lia.
  - intros peer bot Hpeer Hbot r. rewrite Hpeer, Hbot in Hstep.
    exists (prolonged (sendData_queryId p) peer bot w).
    destruct (prolonged_fields (sendData_queryId p) peer bot w)
      as (Hpend & Hsent & Hpid & _).
    destruct (Htick _ Hstep) as (_ & Hone & Hsentcount).
    by split_and!.
  - intros [Hnone | Hnone]; rewrite Hstep, Hnone; [done | ].
    by destruct (_peer (self w)).
Qed.

Lemma at_most_one_prolong_in_flight_witness :
  ∃ w w',
    run [CallRequest None chat 7 button;
         Done 1 (MTPwebViewResultUrl 55 "https://x.example/app");
         TimerTick] scenario = Ok w
    ∧ pending w
      = [(2, MTPmessages_ProlongWebView [f_reply_to_msg_id; f_silent] chat 7 55 0)]
    ∧ step TimerTick w = Ok w'
    ∧ pending w'
      = [(3, MTPmessages_ProlongWebView [f_reply_to_msg_id; f_silent] chat 7 55 0)]
    ∧ count is_prolong (pending w') = 1
    ∧ count is_prolong (sent w') = 2.
Proof.
  set (es := [CallRequest None chat 7 button;
              Done 1 (MTPwebViewResultUrl 55 "https://x.example/app");
              TimerTick]).
  assert (Hrun : run es scenario = Ok (after es)) by (vm_compute; reflexivity).
  assert (Hw : reachable (after es)) by apply after_reachable.
  assert (Hpanel : _panel (self (after es))
                   = Some {| panel_url := "https://x.example/app"; panel_title := 7;
                             panel_bottom := "@xbot"; sendData_queryId := 55;
                             sendData_buttonText := "Open";
                             lifetime := [WebViewResultSentFilter 55;
                                          TimerEach kProlongTimeout 55] |})
    by (vm_compute; reflexivity).
  assert (Hpeer : _peer (self (after es)) = Some chat) by (vm_compute; reflexivity).
  assert (Hbot : _bot (self (after es)) = Some 7) by (vm_compute; reflexivity).
  destruct (at_most_one_prolong_in_flight (after es) Hw) as (_ & _ & Htick & _).
  destruct (Htick _ Hpanel) as (_ & _ & Hsend & _).
  destruct (Hsend chat 7 Hpeer Hbot) as (w' & Hstep & Hpend & Hsent & _ & Hone & Htwo).
  exists (after es), w'. split_and!.
  - exact Hrun.
  - vm_compute. reflexivity.
  - exact Hstep.
  - rewrite Hpend. vm_compute. reflexivity.
  - exact Hone.
  - rewrite Htwo. vm_compute. reflexivity.
Defined.

(** C2, amended.  In every reachable world the panel that is shown carries
    the keepalive timer for the query id it was shown with, whatever that
    id.  While the peer and the bot are set, a tick of that timer sends
    exactly one [MTPmessages_ProlongWebView] with that query id and leaves
    the panel, the peer and the bot in place for the next tick.  [show]
    creates every panel with this timer and with the peer and the bot set,
    and [requestSimple] shows its panel with query id zero. *)
Theorem every_shown_session_runs_keepalive (w : World) (p : Panel) :
  reachable w -> _panel (self w) = Some p ->
  lifetime p = [WebViewResultSentFilter (sendData_queryId p);
                TimerEach kProlongTimeout (sendData_queryId p)]
  ∧ (∀ peer bot, _peer (self w) = Some peer -> _bot (self w) = Some bot ->
       ∃ w', step TimerTick w = Ok w'
         ∧ sent w' = (sent w
                      ++ [(next_id w, MTPmessages_ProlongWebView
                                        [f_reply_to_msg_id; f_silent] peer bot
                                        (sendData_queryId p) (_replyToMsgId (self w)))])%list
         ∧ _prolongId (self w') = next_id w
         ∧ reachable w'
         ∧ _panel (self w') = Some p
         ∧ _peer (self w') = Some peer
         ∧ _bot (self w') = Some bot)
  ∧ (∀ queryId u t v v', show queryId u t v = Ok v' ->
       requestSimple_done t (MTPsimpleWebViewResultUrl u) v
       = show 0 u t (upd (set_requestId 0) v)
       ∧ (∃ p', _panel (self v') = Some p'
                ∧ sendData_queryId p' = queryId
                ∧ lifetime p' = [WebViewResultSentFilter queryId;
                                 TimerEach kProlongTimeout queryId])
       ∧ is_Some (_peer (self v'))
       ∧ is_Some (_bot (self v'))
       ∧ ∃ peer bot w'',
           step TimerTick v' = Ok w''
           ∧ sent w'' = List.app (sent v')
                          [(next_id v', MTPmessages_ProlongWebView
                                          [f_reply_to_msg_id; f_silent] peer bot queryId
                                          (_replyToMsgId (self v')))]
           ∧ _prolongId (self w'') = next_id v').
Proof.
  intros Hw Hp. destruct (tick_eq w p Hw Hp) as [Hlife Hstep].
  rewrite prolong_eq in Hstep. split_and!.
  - exact Hlife.
  - intros peer bot Hpeer Hbot. rewrite Hpeer, Hbot in Hstep.
    exists (prolonged (sendData_queryId p) peer bot w).
    destruct (prolonged_fields (sendData_queryId p) peer bot w)
      as (_ & Hsent & Hpid & Hpanel & Hpeer' & Hbot').
    split_and!.
    + exact Hstep.
    + exact Hsent.
    + exact Hpid.
    + by apply (reachable_step TimerTick w).
    + by rewrite Hpanel.
    + by rewrite Hpeer'.
    + by rewrite Hbot'.
  - intros queryId u t v v' Hshow.
    destruct (show_installs_the_keepalive queryId u t v v' Hshow)
      as (Hsimple & _ & Hfirst).
    split; [exact Hsimple | ].
    assert (Hv : ∃ bot peer, _bot (self v) = Some bot ∧ _peer (self v) = Some peer).
    { unfold show in Hshow.
      destruct (_bot (self v)) as [bot | ]; [ | discriminate Hshow].
      destruct (_peer (self v)) as [peer | ]; [ | discriminate Hshow].
      by exists bot, peer. }
    destruct Hv as (bot & peer & Hbot & Hpeer).
    rewrite (show_eq queryId u t bot peer v Hbot Hpeer) in Hshow.
    injection Hshow as <-. split_and!.
    + eexists. split_and!; reflexivity.
    + exists peer. exact Hpeer.
    + exists bot. exact Hbot.
    + exact Hfirst.
Qed.

Lemma every_shown_session_runs_keepalive_witness :
  ∃ w w',
    run [CallRequestSimple 0 7 button;
         Done 1 (MTPsimpleWebViewResultUrl "https://x.example/app")] scenario = Ok w
    ∧ (sendData_queryId <$> _panel (self w)) = Some 0%N
    ∧ step TimerTick w = Ok w'
    ∧ sent w'
      = (sent w ++ [(2, MTPmessages_ProlongWebView [f_reply_to_msg_id; f_silent]
                          (asPeer 7) 7 0 0)])%list.
Proof.
  set (es := [CallRequestSimple 0 7 button;
              Done 1 (MTPsimpleWebViewResultUrl "https://x.example/app")]).
  assert (Hrun : run es scenario = Ok (after es)) by (vm_compute; reflexivity).
  assert (Hw : reachable (after es)) by apply after_reachable.
  assert (Hpanel : _panel (self (after es))
                   = Some {| panel_url := "https://x.example/app"; panel_title := 7;
                             panel_bottom := "@xbot"; sendData_queryId := 0;
                             sendData_buttonText := "Open";
                             lifetime := [WebViewResultSentFilter 0;
                                          TimerEach kProlongTimeout 0] |})
    by (vm_compute; reflexivity).
  assert (Hpeer : _peer (self (after es)) = Some (asPeer 7)) by (vm_compute; reflexivity).
  assert (Hbot : _bot (self (after es)) = Some 7) by (vm_compute; reflexivity).
  assert (Hnext : next_id (after es) = 2) by (vm_compute; reflexivity).
  assert (Hreply : _replyToMsgId (self (after es)) = 0%Z) by (vm_compute; reflexivity).
  destruct (every_shown_session_runs_keepalive (after es) _ Hw Hpanel) as (_ & Htick & _).
  destruct (Htick (asPeer 7) 7 Hpeer Hbot) as (w' & Hstep & Hsent & _).
  exists (after es), w'. split_and!.
  - exact Hrun.
  - by rewrite Hpanel.
  - exact Hstep.
  - rewrite Hsent, Hnext, Hreply. reflexivity.
Defined.

(** ** The answer to the registration query *)

(** X17. In every reachable world the registration query in flight asks for
    the bot that [_addToMenuBot] holds, so the closure [open] that its
    success handler builds never calls [request] with a null bot: the
    handler returns for every answer of the server. *)
Theorem registration_answer_is_always_handled (id : mtpRequestId) (b : UserId)
    (w : World) :
  reachable w ->
  lookup_request id w = Some (MTPmessages_GetAttachMenuBot b) ->
  _addToMenuBot (self w) = Some b
  ∧ id = _addToMenuId (self w)
  ∧ ∀ data us, ∃ w', step (Done id (MTPattachMenuBotsBot data us)) w = Ok w'.
Proof.
  intros [_ _ _ _ _ _ _ Hadd _]%api_wf_reachable Hlook.
  destruct (Hadd _ _ (lookup_request_elem _ _ _ Hlook)) as [Hid Hbot].
  split; [exact Hbot | ]. split; [exact Hid | ]. intros data us.
  unfold step. rewrite Hlook. cbn [on_done]. rewrite requestAddToMenu_done_eq.
  cbv zeta.
  replace (_addToMenuBot (self (complete id w))) with (_addToMenuBot (self w))
    by reflexivity.
  rewrite Hbot.
  generalize (processUsers us (addToMenu_taken (complete id w))). intros v.
  destruct (ParseAttachBot data v) as [parsed | ]; [ | by eexists].
  destruct (bool_decide _); [ | by eexists].
  destruct (inactive parsed); [by eexists | ].
  unfold open. cbn [contextPeer open_bot open_startCommand].
  destruct (_addToMenuPeer (self (complete id w))) as [peer | ]; cbn [fst snd].
  - apply request_ok.
  - cbn [bind]. by eexists.
Qed.

Lemma registration_answer_is_always_handled_witness :
  let w := after [CallRequestAddToMenu (Some chat) 7 "go"%string] in
  _addToMenuBot (self w) = Some 7.
Proof.
  cbv zeta.
  apply (registration_answer_is_always_handled 1 7
           (after [CallRequestAddToMenu (Some chat) 7 "go"%string])).
  - apply after_reachable.
  - vm_compute. reflexivity.
Defined.

(** ** The menu item of a bot *)

(** X18. For metrics that are not negative, with [widthMin ≤ widthMax] and a
    natural width of the item that fits an [int], [BotAction::prepare] sets a
    minimal width within [widthMin] and [widthMax], and a text width that is
    this width less the two paddings.  The text keeps at least its natural
    width when the item fits [widthMax] and is cut below it otherwise; every
    value computed on the way is an [int]. *)
Theorem prepare_clamps_the_item_width (_st : BotAction.Menu) (maxWidth : Z) :
  (0 ≤ BotAction.itemPadding_left _st)%Z -> (0 ≤ BotAction.itemPadding_right _st)%Z ->
  (0 ≤ maxWidth)%Z -> (0 ≤ BotAction.widthMin _st ≤ BotAction.widthMax _st)%Z ->
  BotAction.is_int (BotAction.itemPadding_left _st + maxWidth + BotAction.itemPadding_right _st) ->
  BotAction.is_int (BotAction.widthMax _st) ->
  let goodWidth := (BotAction.itemPadding_left _st + maxWidth + BotAction.itemPadding_right _st)%Z in
  let r := BotAction.prepare _st maxWidth in
  (BotAction.widthMin _st ≤ BotAction.minWidth r ≤ BotAction.widthMax _st)%Z
  ∧ BotAction._textWidth r = (BotAction.minWidth r - BotAction.itemPadding_left _st - BotAction.itemPadding_right _st)%Z
  ∧ ((goodWidth ≤ BotAction.widthMax _st)%Z -> (maxWidth ≤ BotAction._textWidth r)%Z)
  ∧ ((BotAction.widthMin _st ≤ goodWidth ≤ BotAction.widthMax _st)%Z -> BotAction._textWidth r = maxWidth)
  ∧ ((BotAction.widthMax _st < goodWidth)%Z -> (BotAction._textWidth r < maxWidth)%Z)
  ∧ BotAction.is_int (BotAction.itemPadding_left _st + maxWidth)
  ∧ BotAction.is_int (goodWidth - maxWidth)
  ∧ BotAction.is_int (BotAction.minWidth r)
  ∧ BotAction.is_int (BotAction._textWidth r).
Proof.
  unfold BotAction.is_int, BotAction.prepare, BotAction.clamp. cbv zeta. cbn [BotAction._textWidth BotAction.minWidth].
  intros Hl Hr Ht Hm Hg Hx.
  destruct (Z.ltb_spec (BotAction.itemPadding_left _st + maxWidth + BotAction.itemPadding_right _st)
              (BotAction.widthMin _st));
    [ | destruct (Z.ltb_spec (BotAction.widthMax _st)
                    (BotAction.itemPadding_left _st + maxWidth + BotAction.itemPadding_right _st))];
    split_and!; lia.
Qed.

Lemma prepare_clamps_the_item_width_witness :
  BotAction._textWidth (BotAction.prepare {| BotAction.itemPadding_left := 17; BotAction.itemPadding_right := 17;
                         BotAction.widthMin := 140; BotAction.widthMax := 300 |} 400)
  = (300 - 17 - 17)%Z.
Proof.
  apply (prepare_clamps_the_item_width
           {| BotAction.itemPadding_left := 17; BotAction.itemPadding_right := 17;
              BotAction.widthMin := 140; BotAction.widthMax := 300 |} 400);
    unfold BotAction.is_int; cbn; lia.
Defined.

End InlineBots.
